(** * MACD / RSI indicator monitor: a shallow embedding of
      [stock_indicator_monitor.py] and the properties of its analytic core.

    The Python program computes its indicators with pandas on IEEE doubles.
    The embedding keeps the special values of the doubles (NaN and the two
    infinities), since the program relies on them for "undefined" entries and
    for division by zero, and idealises the finite doubles as exact
    rationals: rounding and the sign of zero are not modelled.  The entries
    of the DataFrame index are the instants pandas subtracts, in nanoseconds
    since the epoch. *)

From Stdlib Require Import List ZArith QArith Bool Lia Lqa PeanoNat.
From Stdlib Require Import Qround Sorted.
From Stdlib Require String Ascii.
Import ListNotations.

(* ------------------------------------------------------------------ *)
(** ** Doubles with NaN and infinities *)

Module PyFloat.

Inductive pyfloat : Type :=
| Fin (q : Q)   (* a finite double, idealised as a rational *)
| PInf          (* float('inf') *)
| NInf          (* float('-inf') *)
| NaN.          (* float('nan'): pandas' marker of a missing value *)

Definition Qlt_bool (a b : Q) : bool := negb (Qle_bool b a).

(** [pd.notna]: everything but NaN (an infinity is not "na"). *)
Definition notna (x : pyfloat) : bool :=
  match x with NaN => false | _ => true end.

(** Sign of a finite value as an infinity, used where IEEE multiplies or
    divides an infinity by a finite number.  The sign of a zero is not
    tracked: a zero counts as +0.  Where the zero of the program is -0.0
    (the negation of a zero) the real quotient by it has the other sign, so
    no statement below says which of the two infinities a division by zero
    gives. *)
Definition inf_of_sign (q : Q) : pyfloat :=
  if Qlt_bool q 0 then NInf else PInf.

Definition fopp (x : pyfloat) : pyfloat :=
  match x with
  | Fin a => Fin (- a)
  | PInf => NInf
  | NInf => PInf
  | NaN => NaN
  end.

Definition fadd (x y : pyfloat) : pyfloat :=
  match x, y with
  | NaN, _ | _, NaN => NaN
  | Fin a, Fin b => Fin (a + b)
  | PInf, NInf | NInf, PInf => NaN
  | PInf, _ | _, PInf => PInf
  | NInf, _ | _, NInf => NInf
  end.

Definition fsub (x y : pyfloat) : pyfloat :=
  match x, y with
  | NaN, _ | _, NaN => NaN
  | Fin a, Fin b => Fin (a - b)
  | PInf, PInf | NInf, NInf => NaN
  | PInf, _ | _, NInf => PInf
  | NInf, _ | _, PInf => NInf
  end.

Definition fmul (x y : pyfloat) : pyfloat :=
  match x, y with
  | NaN, _ | _, NaN => NaN
  | Fin a, Fin b => Fin (a * b)
  | Fin a, PInf | PInf, Fin a =>
      if Qeq_bool a 0 then NaN else inf_of_sign a
  | Fin a, NInf | NInf, Fin a =>
      if Qeq_bool a 0 then NaN else fopp (inf_of_sign a)
  | PInf, PInf | NInf, NInf => PInf
  | PInf, NInf | NInf, PInf => NaN
  end.

(** IEEE division: a finite non-zero value over zero is an infinity, zero
    over zero is NaN, a finite value over an infinity is zero. *)
Definition fdiv (x y : pyfloat) : pyfloat :=
  match x, y with
  | NaN, _ | _, NaN => NaN
  | Fin a, Fin b =>
      if Qeq_bool b 0
      then (if Qeq_bool a 0 then NaN else inf_of_sign a)
      else Fin (a / b)
  | Fin _, PInf | Fin _, NInf => Fin 0
  | PInf, Fin b => inf_of_sign b
  | NInf, Fin b => fopp (inf_of_sign b)
  | PInf, _ | NInf, _ => NaN
  end.

(** Comparisons of doubles: any comparison with NaN is False. *)
Definition fle (x y : pyfloat) : bool :=
  match x, y with
  | NaN, _ | _, NaN => false
  | Fin a, Fin b => Qle_bool a b
  | NInf, _ => true
  | _, PInf => true
  | _, _ => false
  end.

Definition flt (x y : pyfloat) : bool :=
  match x, y with
  | NaN, _ | _, NaN => false
  | Fin a, Fin b => Qlt_bool a b
  | NInf, NInf | PInf, PInf => false
  | NInf, _ => true
  | _, PInf => true
  | _, _ => false
  end.

Definition fge (x y : pyfloat) : bool := fle y x.
Definition fgt (x y : pyfloat) : bool := flt y x.

(** [x != y] on doubles: True as soon as one side is NaN. *)
Definition fne (x y : pyfloat) : bool :=
  match x, y with
  | Fin a, Fin b => negb (Qeq_bool a b)
  | PInf, PInf | NInf, NInf => false
  | _, _ => true
  end.

(** Equality of values, up to the representation of the rational. *)
Definition feq (x y : pyfloat) : Prop :=
  match x, y with
  | Fin a, Fin b => a == b
  | PInf, PInf | NInf, NInf | NaN, NaN => True
  | _, _ => False
  end.

End PyFloat.
Export PyFloat.

(* ------------------------------------------------------------------ *)
(** ** Exceptions *)

(** The two exceptions the analytic functions can let escape. *)
Inductive exn : Type :=
| ValueError   (* raised by pandas when a span or window is rejected *)
| IndexError.  (* raised by [.iloc] and [Index.__getitem__] out of range *)

Inductive result (A : Type) : Type :=
| Ok (a : A)
| Raise (e : exn).

Arguments Ok {A} a.
Arguments Raise {A} e.

Definition bind {A B : Type} (m : result A) (k : A -> result B) : result B :=
  match m with
  | Ok a => k a
  | Raise e => Raise e
  end.

Notation "x <- m ;; k" := (bind m (fun x => k))
  (at level 61, m at next level, right associativity).
Notation "' p <- m ;; k" := (bind m (fun x => let p := x in k))
  (at level 61, p pattern, m at next level, right associativity).

(** [for i in range(start, start + n): s = body(i, s)] *)
Fixpoint for_range {S : Type} (body : nat -> S -> result S)
         (start n : nat) (s : S) : result S :=
  match n with
  | O => Ok s
  | Datatypes.S n' => s' <- body start s ;; for_range body (Datatypes.S start) n' s'
  end.

(** [for x in xs: s = body(x, s)] *)
Fixpoint for_each {A S : Type} (body : A -> S -> result S)
         (xs : list A) (s : S) : result S :=
  match xs with
  | [] => Ok s
  | x :: rest => s' <- body x s ;; for_each body rest s'
  end.

(** A list comprehension whose element expression may raise. *)
Fixpoint comprehension {A B : Type} (f : A -> result B) (xs : list A)
  : result (list B) :=
  match xs with
  | [] => Ok []
  | x :: rest => y <- f x ;; ys <- comprehension f rest ;; Ok (y :: ys)
  end.

(* ------------------------------------------------------------------ *)
(** ** The pandas operations the program calls

    A [Series] of doubles is the list of its values; every series of one
    analysis shares the index of the DataFrame, so the element-wise
    operations pair values position by position. *)

Module Pandas.

Definition Series := list pyfloat.

(** [s.iloc[i]] for a non-negative position. *)
Definition iloc (s : Series) (i : nat) : result pyfloat :=
  match nth_error s i with
  | Some x => Ok x
  | None => Raise IndexError
  end.

(** Element-wise binary operation of two series on the same index. *)
Definition series_map2 (f : pyfloat -> pyfloat -> pyfloat) (a b : Series) : Series :=
  map (fun p => f (fst p) (snd p)) (combine a b).

Definition series_sub : Series -> Series -> Series := series_map2 fsub.
Definition series_div : Series -> Series -> Series := series_map2 fdiv.
Definition series_neg (a : Series) : Series := map fopp a.

(** [s > c] and [s < c]: boolean masks. *)
Definition series_gt_scalar (a : Series) (c : pyfloat) : list bool :=
  map (fun x => fgt x c) a.
Definition series_lt_scalar (a : Series) (c : pyfloat) : list bool :=
  map (fun x => flt x c) a.

(** [s.where(cond, other)]: keep the value where the mask holds. *)
Definition series_where (a : Series) (cond : list bool) (other : pyfloat) : Series :=
  map (fun p => if (snd p : bool) then fst p else other) (combine a cond).

(** [s.diff()]: NaN first, then the difference with the previous value. *)
Fixpoint diff_from (prev : pyfloat) (rest : Series) : Series :=
  match rest with
  | [] => []
  | x :: rest' => fsub x prev :: diff_from x rest'
  end.

Definition diff (a : Series) : Series :=
  match a with
  | [] => []
  | x :: rest => NaN :: diff_from x rest
  end.

(** *** [s.ewm(span=span).mean()]

    With the defaults of [ewm]: [adjust=True], [ignore_na=False],
    [min_periods=0] (raised to 1 internally).  The state of pandas' loop is
    the running weighted mean, the weight of the past and the number of
    observations seen. *)

Record ewm_state : Type := mk_ewm_state {
  weighted : pyfloat;
  old_wt : Q;
  nobs : nat
}.

Definition ewm_output (minp : nat) (st : ewm_state) : pyfloat :=
  if (minp <=? nobs st)%nat then weighted st else NaN.

Definition ewm_step (alpha : Q) (st : ewm_state) (cur : pyfloat) : ewm_state :=
  let old_wt_factor := 1 - alpha in
  let new_wt := 1 in
  let is_observation := notna cur in
  let nobs' := (nobs st + (if is_observation then 1 else 0))%nat in
  if notna (weighted st) then
    (* ignore_na is False: the past decays at every step *)
    let old_wt1 := old_wt st * old_wt_factor in
    if is_observation then
      let weighted' :=
        if fne (weighted st) cur
        then fdiv (fadd (fmul (Fin old_wt1) (weighted st)) (fmul (Fin new_wt) cur))
                  (Fin (old_wt1 + new_wt))
        else weighted st in
      mk_ewm_state weighted' (old_wt1 + new_wt) nobs'
    else mk_ewm_state (weighted st) old_wt1 nobs'
  else if is_observation then mk_ewm_state cur (old_wt st) nobs'
  else mk_ewm_state (weighted st) (old_wt st) nobs'.

Fixpoint ewm_loop (alpha : Q) (minp : nat) (st : ewm_state) (vals : Series) : Series :=
  match vals with
  | [] => []
  | cur :: rest =>
      let st' := ewm_step alpha st cur in
      ewm_output minp st' :: ewm_loop alpha minp st' rest
  end.

Definition ewm_kernel (alpha : Q) (minp : nat) (vals : Series) : Series :=
  match vals with
  | [] => []
  | v0 :: rest =>
      let st := mk_ewm_state v0 1 (if notna v0 then 1 else 0) in
      ewm_output minp st :: ewm_loop alpha minp st rest
  end.

(** [span] is turned into a centre of mass, rejected below 1. *)
Definition get_center_of_mass (span : Z) : result Q :=
  if (span <? 1)%Z then Raise ValueError
  else Ok ((inject_Z span - 1) / 2).

(** Before a window kernel runs, pandas replaces the infinities of the
    values by NaN ([_prep_values]). *)
Definition prep_values (vals : Series) : Series :=
  map (fun x => match x with PInf | NInf => NaN | _ => x end) vals.

Definition ewm_mean (span : Z) (vals : Series) : result Series :=
  com <- get_center_of_mass span ;;
  let alpha := 1 / (1 + com) in
  Ok (ewm_kernel alpha 1 (prep_values vals)).

(** *** [s.rolling(window=window).mean()]

    [min_periods] defaults to the window; infinities are treated as missing;
    the window ending at position [i] starts at [max 0 (i + 1 - window)].  A
    negative window is rejected, a window of 0 is accepted. *)

Definition finite_values (w : Series) : list Q :=
  flat_map (fun x => match x with Fin q => [q] | _ => [] end) w.

Definition Qsum (qs : list Q) : Q := fold_right Qplus 0 qs.

Definition window_at (window : nat) (a : Series) (i : nat) : Series :=
  let start := (i + 1 - window)%nat in
  firstn (i + 1 - start) (skipn start a).

Definition window_mean (minp : nat) (w : Series) : pyfloat :=
  let obs := finite_values w in
  let n := length obs in
  if ((minp <=? n) && (0 <? n))%nat
  then Fin (Qsum obs / inject_Z (Z.of_nat n))
  else NaN.

Definition rolling_mean (window : Z) (a : Series) : result Series :=
  if (window <? 0)%Z then Raise ValueError
  else
    let w := Z.to_nat window in
    Ok (map (fun i => window_mean w (window_at w a i)) (seq 0 (length a))).

End Pandas.
Export Pandas.

(* ------------------------------------------------------------------ *)
(** ** The program *)

(** The DataFrame returned by [get_stock_data], reduced to what the analysis
    reads: the index (one Timestamp per row, as its [value]: nanoseconds
    since the epoch, which is what the difference of two Timestamps, tz-aware
    or not, is computed from) and the [Close] column. *)
Record DataFrame : Type := mk_DataFrame {
  index : list Z;
  Close : Series
}.

Definition default_fast : Z := 12.
Definition default_slow : Z := 26.
Definition default_signal : Z := 9.
Definition default_period : Z := 14.

(** [calculate_macd(data, fast, slow, signal)] *)
Definition calculate_macd (data : DataFrame) (fast slow signal : Z)
  : result (Series * Series * Series) :=
  let close_prices := Close data in
  ema_fast <- ewm_mean fast close_prices ;;
  ema_slow <- ewm_mean slow close_prices ;;
  let macd_line := series_sub ema_fast ema_slow in
  signal_line <- ewm_mean signal macd_line ;;
  let histogram := series_sub macd_line signal_line in
  Ok (macd_line, signal_line, histogram).

(** The intermediate series of [calculate_rsi]. *)
Definition gain_of (close_prices : Series) : Series :=
  let price_diff := diff close_prices in
  series_where price_diff (series_gt_scalar price_diff (Fin 0)) (Fin 0).

Definition loss_of (close_prices : Series) : Series :=
  let price_diff := diff close_prices in
  series_neg (series_where price_diff (series_lt_scalar price_diff (Fin 0)) (Fin 0)).

(** [100 - (100 / (1 + rs))] on one value. *)
Definition rsi_of_rs (rs : pyfloat) : pyfloat :=
  fsub (Fin 100) (fdiv (Fin 100) (fadd (Fin 1) rs)).

(** [calculate_rsi(data, period)] *)
Definition calculate_rsi (data : DataFrame) (period : Z) : result Series :=
  let close_prices := Close data in
  let gain := gain_of close_prices in
  let loss := loss_of close_prices in
  avg_gain <- rolling_mean period gain ;;
  avg_loss <- rolling_mean period loss ;;
  let rs := series_div avg_gain avg_loss in
  let rsi := map rsi_of_rs rs in
  Ok rsi.

(** The two lists a detector fills, in the order of the [return]. *)
Definition signals : Type := (list nat * list nat)%type.

Definition append_buy (i : nat) (s : signals) : signals := (fst s ++ [i], snd s).
Definition append_sell (i : nat) (s : signals) : signals := (fst s, snd s ++ [i]).

(** Python's [a and b] on conditions that may raise: [b] is evaluated only
    when [a] holds. *)
Definition and_then (a : result bool) (b : result bool) : result bool :=
  c <- a ;; if c then b else Ok false.

Definition cmp_at (cmp : pyfloat -> pyfloat -> bool) (a b : Series) (i : nat)
  : result bool :=
  x <- iloc a i ;; y <- iloc b i ;; Ok (cmp x y).

(** Body of the loop of [detect_macd_signals]. *)
Definition macd_body (macd_line signal_line : Series) (i : nat) (s : signals)
  : result signals :=
  up <- and_then (cmp_at fle macd_line signal_line (i - 1))
                 (cmp_at fgt macd_line signal_line i) ;;
  if up then Ok (append_buy i s)
  else
    down <- and_then (cmp_at fge macd_line signal_line (i - 1))
                     (cmp_at flt macd_line signal_line i) ;;
    if down then Ok (append_sell i s) else Ok s.

(** [detect_macd_signals(macd_line, signal_line)] *)
Definition detect_macd_signals (macd_line signal_line : Series) : result signals :=
  for_range (macd_body macd_line signal_line) 1 (length macd_line - 1) ([], []).

Definition cmp_scalar_at (cmp : pyfloat -> pyfloat -> bool) (a : Series) (i : nat)
           (c : pyfloat) : result bool :=
  x <- iloc a i ;; Ok (cmp x c).

Definition notna_at (a : Series) (i : nat) : result bool :=
  x <- iloc a i ;; Ok (notna x).

(** Body of the loop of [detect_rsi_signals]. *)
Definition rsi_body (rsi_data : Series) (i : nat) (s : signals) : result signals :=
  present <- and_then (notna_at rsi_data (i - 1)) (notna_at rsi_data i) ;;
  if present then
    up <- and_then (cmp_scalar_at fle rsi_data (i - 1) (Fin 30))
                   (cmp_scalar_at fgt rsi_data i (Fin 30)) ;;
    if up then Ok (append_buy i s)
    else
      down <- and_then (cmp_scalar_at fge rsi_data (i - 1) (Fin 70))
                       (cmp_scalar_at flt rsi_data i (Fin 70)) ;;
      if down then Ok (append_sell i s) else Ok s
  else Ok s.

(** [detect_rsi_signals(rsi_data)] *)
Definition detect_rsi_signals (rsi_data : Series) : result signals :=
  for_range (rsi_body rsi_data) 1 (length rsi_data - 1) ([], []).

(** [data.index[i]] *)
Definition index_at (data : DataFrame) (i : nat) : result Z :=
  match nth_error (index data) i with
  | Some d => Ok d
  | None => Raise IndexError
  end.

(** The combined-signal pass of [analyze_stock_indicators]: the two loops
    that follow the reports, one over the buy lists and one over the sell
    lists, the same statements on different lists.  The source appends the
    date formatted as a string; the date stands for it.

    Innermost statement: [if abs((date - rsi_date).days) <= 2: append]. *)
Definition ns_per_day : Z := 86400000000000.

(** [delta.days] of a Timedelta: its whole days, rounded down (a difference
    of -1 hour has [days = -1]). *)
Definition timedelta_days (delta : Z) : Z := (delta / ns_per_day)%Z.

Definition match_body (date rsi_date : Z) (combined : list Z) : result (list Z) :=
  if (Z.abs (timedelta_days (date - rsi_date)) <=? 2)%Z
  then Ok (combined ++ [date])
  else Ok combined.

(** Body of [for date_idx in macd_signals]: the date of the MACD signal,
    the dates of all RSI signals (rebuilt at every turn), the inner loop. *)
Definition combined_body (data : DataFrame) (rsi_signals : list nat)
           (date_idx : nat) (combined : list Z) : result (list Z) :=
  date <- index_at data date_idx ;;
  rsi_dates <- comprehension (index_at data) rsi_signals ;;
  for_each (match_body date) rsi_dates combined.

Definition combined_pass (data : DataFrame) (macd_signals rsi_signals : list nat)
  : result (list Z) :=
  for_each (combined_body data rsi_signals) macd_signals [].

(* ------------------------------------------------------------------ *)
(** ** Reading a series and stating crossings *)

(** The value at a position, NaN outside the series. *)
Definition value_at (s : Series) (i : nat) : pyfloat := nth i s NaN.

(** What the loop of [detect_macd_signals] tests at position [i]. *)
Definition macd_up (macd_line signal_line : Series) (i : nat) : bool :=
  fle (value_at macd_line (i - 1)) (value_at signal_line (i - 1))
  && fgt (value_at macd_line i) (value_at signal_line i).

Definition macd_down (macd_line signal_line : Series) (i : nat) : bool :=
  fge (value_at macd_line (i - 1)) (value_at signal_line (i - 1))
  && flt (value_at macd_line i) (value_at signal_line i).

(** What the loop of [detect_rsi_signals] tests at position [i]. *)
Definition rsi_up (rsi_data : Series) (i : nat) : bool :=
  fle (value_at rsi_data (i - 1)) (Fin 30) && fgt (value_at rsi_data i) (Fin 30).

Definition rsi_down (rsi_data : Series) (i : nat) : bool :=
  fge (value_at rsi_data (i - 1)) (Fin 70) && flt (value_at rsi_data i) (Fin 70).

(* ------------------------------------------------------------------ *)
(** ** Stating the moving averages *)

(** The smoothing factor the spans stand for: 2 / (span + 1). *)
Definition smoothing (span : Z) : Q := 2 / (inject_Z span + 1).

(** The weight of the whole past at position [i] under [adjust=True]:
    1 + (1 - alpha) + ... + (1 - alpha)^i. *)
Fixpoint weight_sum (alpha : Q) (i : nat) : Q :=
  match i with
  | O => 1
  | S j => 1 + (1 - alpha) * weight_sum alpha j
  end.

(** The factor applied to the newest value at position [i]. *)
Definition adjusted_factor (alpha : Q) (i : nat) : Q := 1 / weight_sum alpha i.

(** [ys] is the mean [ewm(span).mean()] computes from [xs]: anchored at the
    first value, then a recursion whose factor varies with the position. *)
Definition adjusted_ema (span : Z) (xs ys : list Q) : Prop :=
  length ys = length xs /\
  hd_error ys = hd_error xs /\
  forall i, (1 <= i < length xs)%nat ->
    nth i ys 0 ==
    adjusted_factor (smoothing span) i * nth i xs 0
    + (1 - adjusted_factor (smoothing span) i) * nth (i - 1) ys 0.

(** [ys] follows the recursion with the constant factor [smoothing span]:
    EMA[0] = x[0], EMA[i] = alpha * x[i] + (1 - alpha) * EMA[i-1]. *)
Definition plain_ema (span : Z) (xs ys : list Q) : Prop :=
  length ys = length xs /\
  hd_error ys = hd_error xs /\
  forall i, (1 <= i < length xs)%nat ->
    nth i ys 0 ==
    smoothing span * nth i xs 0 + (1 - smoothing span) * nth (i - 1) ys 0.

(** Position-wise difference of two lists of rationals. *)
Definition Qsub_list (a b : list Q) : list Q :=
  map (fun p => fst p - snd p) (combine a b).

(* ------------------------------------------------------------------ *)
(** ** Stating the RSI properties *)

(** What [gain] and [loss] hold for one entry of [price_diff]. *)
Definition gain_value (d : pyfloat) : pyfloat := if fgt d (Fin 0) then d else Fin 0.
Definition loss_value (d : pyfloat) : pyfloat := fopp (if flt d (Fin 0) then d else Fin 0).

(** The rolling averages at one position, as [calculate_rsi] obtains them. *)
Definition avg_at (period : Z) (a : Series) (i : nat) : pyfloat :=
  window_mean (Z.to_nat period) (window_at (Z.to_nat period) a i).

Definition is_zero (v : pyfloat) : Prop := exists q, v = Fin q /\ q == 0.
Definition zero_or_nan (v : pyfloat) : Prop := v = NaN \/ is_zero v.
Definition level_or_nan (c : Q) (v : pyfloat) : Prop := v = NaN \/ exists q, v = Fin q /\ q == c.

Fixpoint increasing_from (prev : Q) (rest : list Q) : Prop :=
  match rest with
  | [] => True
  | x :: rest' => prev < x /\ increasing_from x rest'
  end.

Definition strictly_increasing (prices : list Q) : Prop :=
  match prices with
  | [] => True
  | x :: rest => increasing_from x rest
  end.

Fixpoint decreasing_from (prev : Q) (rest : list Q) : Prop :=
  match rest with
  | [] => True
  | x :: rest' => x < prev /\ decreasing_from x rest'
  end.

Definition strictly_decreasing (prices : list Q) : Prop :=
  match prices with
  | [] => True
  | x :: rest => decreasing_from x rest
  end.

(* ------------------------------------------------------------------ *)
(** ** Stating the combined signals *)

(** The date of a row, 0 outside the index. *)
Definition date_at (data : DataFrame) (i : nat) : Z := nth i (index data) 0%Z.

(** [abs((date - rsi_date).days) <= 2] *)
Definition within_two_days (date rsi_date : Z) : bool :=
  (Z.abs (timedelta_days (date - rsi_date)) <=? 2)%Z.

(** One copy of [date] for every RSI date the test accepts. *)
Definition matches_of (date : Z) (rsi_dates : list Z) : list Z :=
  flat_map (fun r => if within_two_days date r then [date] else []) rsi_dates.

(** All pairs, MACD signal by MACD signal, RSI signals in their order. *)
Definition all_pairs (data : DataFrame) (macd_signals rsi_signals : list nat) : list Z :=
  flat_map (fun m => matches_of (date_at data m) (map (date_at data) rsi_signals))
           macd_signals.

(** Midnight UTC of day [n] after the epoch. *)
Definition midnight (n : Z) : Z := (n * ns_per_day)%Z.

(** Twelve consecutive days, the midnight of day [i] at row [i]. *)
Definition twelve_days : DataFrame :=
  mk_DataFrame (map midnight [0; 1; 2; 3; 4; 5; 6; 7; 8; 9; 10; 11]%Z) [].

(** A Friday and the Monday after it, at midnight in New York, across the
    clock change of March 2024: 2024-03-08 00:00 EST and 2024-03-11 00:00
    EDT are 2 days 23 hours apart. *)
Definition friday_2024_03_08 : Z := 1709874000000000000.
Definition monday_2024_03_11 : Z := 1710129600000000000.
Definition clock_change_frame : DataFrame :=
  mk_DataFrame [friday_2024_03_08; monday_2024_03_11] [].

(* ------------------------------------------------------------------ *)
(** ** The rest of the program: status, report and command loop *)

(** [detect_overbought_oversold(rsi_value)]: the three labels are the
    strings of the source. *)
Module Status.
Import String.
Local Open Scope string_scope.

Definition overbought : string := "超买".
Definition oversold : string := "超卖".
Definition normal : string := "正常".
Definition not_available : string := "N/A".

Definition detect_overbought_oversold (rsi_value : pyfloat) : string :=
  if fgt rsi_value (Fin 70) then overbought
  else if flt rsi_value (Fin 30) then oversold
  else normal.

End Status.
Export Status.

(** [round(x, ndigits)] on a double (a numpy scalar here): the nearest
    multiple of 10^-ndigits, ties to the even one; infinities and NaN are
    returned unchanged. *)
Definition rint (q : Q) : Z :=
  let f := Qfloor q in
  match Qcompare (q - inject_Z f) (1 # 2) with
  | Lt => f
  | Gt => (f + 1)%Z
  | Eq => if Z.even f then f else (f + 1)%Z
  end.

Definition py_round (x : pyfloat) (ndigits : nat) : pyfloat :=
  match x with
  | Fin q =>
      let scale := inject_Z (10 ^ Z.of_nat ndigits) in
      Fin (inject_Z (rint (q * scale)) / scale)
  | other => other
  end.

(** [s.iloc[-1]] *)
Definition iloc_last (s : Series) : result pyfloat :=
  match s with
  | [] => Raise IndexError
  | _ => iloc s (length s - 1)
  end.

(** [data.index[-1]] *)
Definition index_last (data : DataFrame) : result Z :=
  match index data with
  | [] => Raise IndexError
  | _ => index_at data (length (index data) - 1)
  end.

(** [xs[-3:]] *)
Definition last_three {A : Type} (xs : list A) : list A :=
  skipn (length xs - 3) xs.

(** [data.empty] for a frame that has columns: no row. *)
Definition empty (data : DataFrame) : bool :=
  match index data with
  | [] => true
  | _ => false
  end.

(** [get_stock_data(symbol, period)].  The outcome of the two yfinance
    calls, [yf.Ticker(symbol).history(period=period)], is the argument: a
    frame, or the exception they raised.  An empty frame and any exception
    give [None] (the message printed on the way is left out). *)
Definition get_stock_data (history : result DataFrame) : option DataFrame :=
  match history with
  | Ok data => if empty data then None else Some data
  | Raise _ => None
  end.

(** What [analyze_stock_indicators] prints, as values: the fields follow
    the order of the [print] calls.  [None] in a latest value is the string
    N/A, [None] in a list of dates is the line that says there was no
    signal.  Dates stand for their [strftime] strings, and the doubles for
    their formatted text. *)
Record report : Type := mk_report {
  latest_date : Z;
  latest_price : pyfloat;
  latest_macd : option pyfloat;
  latest_signal : option pyfloat;
  latest_rsi : option pyfloat;
  rsi_status : String.string;
  recent_macd_buy_dates : option (list Z);
  recent_macd_sell_dates : option (list Z);
  recent_rsi_buy_dates : option (list Z);
  recent_rsi_sell_dates : option (list Z);
  combined_buy_shown : option (list Z);
  combined_sell_shown : option (list Z)
}.

(** [round(v, ndigits) if pd.notna(v) else "N/A"] *)
Definition rounded_or_na (v : pyfloat) (ndigits : nat) : option pyfloat :=
  if notna v then Some (py_round v ndigits) else None.

(** [if signals: dates of signals[-3:] else: the no-signal line] *)
Definition recent_dates (data : DataFrame) (sigs : list nat) : result (option (list Z)) :=
  match sigs with
  | [] => Ok None
  | _ => dates <- comprehension (index_at data) (last_three sigs) ;; Ok (Some dates)
  end.

(** [if combined: combined[-3:] else: the no-signal line] *)
Definition shown_combined (combined : list Z) : option (list Z) :=
  match combined with
  | [] => None
  | _ => Some (last_three combined)
  end.

(** [analyze_stock_indicators(symbol)], with the outcome of the download
    as its argument: [Ok None] is the early return on missing data. *)
Definition analyze_stock_indicators (history : result DataFrame)
  : result (option report) :=
  match get_stock_data history with
  | None => Ok None
  | Some data =>
      '(macd_line, signal_line, histogram) <-
        calculate_macd data default_fast default_slow default_signal ;;
      rsi <- calculate_rsi data default_period ;;
      '(macd_buy_signals, macd_sell_signals) <-
        detect_macd_signals macd_line signal_line ;;
      '(rsi_buy_signals, rsi_sell_signals) <- detect_rsi_signals rsi ;;
      date <- index_last data ;;
      price <- iloc_last (Close data) ;;
      last_macd <- iloc_last macd_line ;;
      last_signal <- iloc_last signal_line ;;
      last_rsi <- iloc_last rsi ;;
      let latest_rsi := rounded_or_na last_rsi 2 in
      let status :=
        match latest_rsi with
        | Some r => detect_overbought_oversold r
        | None => not_available
        end in
      macd_buy_dates <- recent_dates data macd_buy_signals ;;
      macd_sell_dates <- recent_dates data macd_sell_signals ;;
      rsi_buy_dates <- recent_dates data rsi_buy_signals ;;
      rsi_sell_dates <- recent_dates data rsi_sell_signals ;;
      combined_buy_signals <- combined_pass data macd_buy_signals rsi_buy_signals ;;
      combined_sell_signals <- combined_pass data macd_sell_signals rsi_sell_signals ;;
      Ok (Some (mk_report date (py_round price 2)
                          (rounded_or_na last_macd 4) (rounded_or_na last_signal 4)
                          latest_rsi status
                          macd_buy_dates macd_sell_dates rsi_buy_dates rsi_sell_dates
                          (shown_combined combined_buy_signals)
                          (shown_combined combined_sell_signals)))
  end.

(** [main()]: the command loop, on ASCII input.  The argument is the list
    of lines [input()] returns, in order (the prompt and the banner are left
    out); when the list is used up [input()] raises EOFError.  The call of
    [analyze_stock_indicators] is recorded with its argument. *)
Module CommandLoop.
Import Ascii String.
Local Open Scope string_scope.

(** [str.isspace] on ASCII: tab to carriage return, the four separators
    28 to 31, and the space. *)
Definition is_space (c : ascii) : bool :=
  let n := nat_of_ascii c in
  ((9 <=? n)%nat && (n <=? 13)%nat) || ((28 <=? n)%nat && (n <=? 32)%nat).

Definition is_lower (c : ascii) : bool :=
  let n := nat_of_ascii c in (97 <=? n)%nat && (n <=? 122)%nat.

Fixpoint lstrip_chars (cs : list ascii) : list ascii :=
  match cs with
  | [] => []
  | c :: rest => if is_space c then lstrip_chars rest else cs
  end.

Definition strip_chars (cs : list ascii) : list ascii :=
  rev (lstrip_chars (rev (lstrip_chars cs))).

(** [s.strip()] *)
Definition strip (s : string) : string :=
  string_of_list_ascii (strip_chars (list_ascii_of_string s)).

Definition upper_char (c : ascii) : ascii :=
  if is_lower c then ascii_of_nat (nat_of_ascii c - 32) else c.

(** [s.upper()] *)
Definition upper (s : string) : string :=
  string_of_list_ascii (map upper_char (list_ascii_of_string s)).

(** [input(...).strip().upper()] *)
Definition normalise (line : string) : string := upper (strip line).

Inductive event : Type :=
| Analysed (symbol : string)   (* analyze_stock_indicators(symbol) *)
| InvalidCode                  (* the line asking for a valid code *)
| ExitMessage.                 (* the line saying the program has exited *)

Inductive ending : Type :=
| Returned    (* [break], then the end of [main] *)
| EOFError.   (* raised by [input()] at the end of the input *)

Fixpoint main (inputs : list string) : list event * ending :=
  match inputs with
  | [] => ([], EOFError)
  | line :: rest =>
      let symbol := normalise line in
      if String.eqb symbol "QUIT" then ([ExitMessage], Returned)
      else if String.eqb symbol "" then
        (InvalidCode :: fst (main rest), snd (main rest))
      else
        (Analysed symbol :: fst (main rest), snd (main rest))
  end.

(** What one line that is not the quit command leads to. *)
Definition event_of (line : string) : event :=
  if String.eqb (normalise line) "" then InvalidCode
  else Analysed (normalise line).

Definition is_quit (line : string) : bool := String.eqb (normalise line) "QUIT".

Definition ascii_line (line : string) : Prop :=
  Forall (fun c => (nat_of_ascii c < 128)%nat) (list_ascii_of_string line).

(** A symbol as the loop hands it on: not empty, not the quit command, no
    white space at either end, no lower-case letter. *)
Definition clean_symbol (symbol : string) : Prop :=
  symbol <> "" /\ symbol <> "QUIT" /\
  (forall c, hd_error (list_ascii_of_string symbol) = Some c -> is_space c = false) /\
  (forall c, hd_error (rev (list_ascii_of_string symbol)) = Some c -> is_space c = false) /\
  Forall (fun c => is_lower c = false) (list_ascii_of_string symbol).

End CommandLoop.

(* ------------------------------------------------------------------ *)
(** ** Stating further properties *)

(** The two lists of a detector on a series of [len] values: positions
    between 1 and [len - 1], each list strictly increasing, no position in
    both. *)
Definition signals_well_formed (len : nat) (s : signals) : Prop :=
  (forall i, In i (fst s) \/ In i (snd s) -> (1 <= i < len)%nat) /\
  StronglySorted lt (fst s) /\
  StronglySorted lt (snd s) /\
  (forall i, In i (fst s) -> ~ In i (snd s)).

(** When [detect_macd_signals] reads past the end of the signal line. *)
Definition signal_line_too_short (macd_line signal_line : Series) : bool :=
  (length signal_line + 2 <=? length macd_line)%nat
  || ((length macd_line =? length signal_line + 1)%nat
      && (1 <=? length signal_line)%nat
      && notna (value_at macd_line (length signal_line - 1))
      && notna (value_at signal_line (length signal_line - 1))).

(** A finite value that is not negative. *)
Definition finite_nonneg (v : pyfloat) : Prop := exists q, v = Fin q /\ 0 <= q.

(** What a list of dates shown in the report looks like: the no-signal
    line, or one to three dates of the index. *)
Definition shown_dates_ok (data : DataFrame) (shown : option (list Z)) : Prop :=
  match shown with
  | None => True
  | Some ds => ds <> [] /\ (length ds <= 3)%nat /\ forall d, In d ds -> In d (index data)
  end.

(** The dates [recent_dates] shows for valid positions. *)
Definition shown_recent (data : DataFrame) (sigs : list nat) : option (list Z) :=
  match sigs with
  | [] => None
  | _ => Some (map (date_at data) (last_three sigs))
  end.

(** The status line of the report for a latest RSI value. *)
Definition status_of (latest : option pyfloat) : String.string :=
  match latest with
  | Some r => detect_overbought_oversold r
  | None => not_available
  end.

(** Fourteen rows, the midnight of day [i] at row [i], prices rising by
    one. *)
Definition rising_frame : DataFrame :=
  mk_DataFrame (map midnight [0; 1; 2; 3; 4; 5; 6; 7; 8; 9; 10; 11; 12; 13]%Z)
               (map Fin [1; 2; 3; 4; 5; 6; 7; 8; 9; 10; 11; 12; 13; 14]).

(* ------------------------------------------------------------------ *)
(** ** Lemmas on doubles *)

Section FloatFacts.

Lemma Qlt_bool_iff (a b : Q) : Qlt_bool a b = true <-> a < b.
Proof.
  unfold Qlt_bool. rewrite negb_true_iff.
  destruct (Qle_bool b a) eqn:E.
  - apply Qle_bool_iff in E. split; [discriminate | intro H; exfalso; lra].
  - split; [intros _ | reflexivity].
    destruct (Qlt_le_dec a b) as [H | H]; [exact H |].
    apply Qle_bool_iff in H. congruence.
Qed.

Lemma fle_nan_l (y : pyfloat) : fle NaN y = false.
Proof. reflexivity. Qed.

Lemma fle_nan_r (x : pyfloat) : fle x NaN = false.
Proof. destruct x; reflexivity. Qed.

Lemma flt_nan_l (y : pyfloat) : flt NaN y = false.
Proof. reflexivity. Qed.

Lemma flt_nan_r (x : pyfloat) : flt x NaN = false.
Proof. destruct x; reflexivity. Qed.

Lemma flt_asym (x y : pyfloat) : flt x y = true -> flt y x = false.
Proof.
  destruct x as [a| | |], y as [b| | |]; simpl; try congruence.
  intro H. apply Qlt_bool_iff in H.
  destruct (Qlt_bool b a) eqn:E; [| reflexivity].
  apply Qlt_bool_iff in E. lra.
Qed.

Lemma flt_not_feq (x y : pyfloat) : flt x y = true -> ~ feq x y.
Proof.
  destruct x as [a| | |], y as [b| | |]; simpl; try congruence; try tauto.
  intros H E. apply Qlt_bool_iff in H. lra.
Qed.

Lemma fle_level_gap (x : pyfloat) (lo hi : Q) :
  lo < hi -> fle x (Fin lo) = true -> fle (Fin hi) x = false.
Proof.
  intros Hgap. destruct x as [a| | |]; simpl; try congruence.
  intro H. apply Qle_bool_iff in H.
  destruct (Qle_bool hi a) eqn:E; [| reflexivity].
  apply Qle_bool_iff in E. lra.
Qed.

End FloatFacts.

(* ------------------------------------------------------------------ *)
(** ** Lemmas on the loops *)

Section LoopFacts.

Lemma iloc_in_range (s : Series) (i : nat) :
  (i < length s)%nat -> iloc s i = Ok (value_at s i).
Proof.
  intro H. unfold iloc, value_at.
  rewrite (nth_error_nth' s NaN H). reflexivity.
Qed.

(** A loop whose body appends [i] to the first list when [up i], else to
    the second when [down i], filters the range twice. *)
Lemma for_range_scan (body : nat -> signals -> result signals) (up down : nat -> bool) :
  forall (n start : nat) (s : signals),
    (forall i s', (start <= i < start + n)%nat ->
        body i s' = Ok (if up i then append_buy i s'
                        else if down i then append_sell i s' else s')) ->
    for_range body start n s =
    Ok (fst s ++ filter up (seq start n),
        snd s ++ filter (fun i => negb (up i) && down i) (seq start n)).
Proof.
  induction n as [| n IH]; intros start s Hbody; simpl.
  - rewrite !app_nil_r. now destruct s.
  - rewrite Hbody by lia. simpl.
    rewrite IH by (intros; apply Hbody; lia).
    destruct (up start), (down start); simpl;
      rewrite <- ?app_assoc; simpl; try reflexivity;
      rewrite ?app_nil_r; reflexivity.
Qed.

Lemma in_filter_range (f : nat -> bool) (len i : nat) :
  In i (filter f (seq 1 (len - 1))) <-> (1 <= i < len)%nat /\ f i = true.
Proof.
  rewrite filter_In, in_seq.
  split; intros [H1 H2]; (split; [lia | exact H2]).
Qed.

Lemma macd_body_in_range (macd_line signal_line : Series) (i : nat) (s : signals) :
  (length macd_line <= length signal_line)%nat ->
  (1 <= i < length macd_line)%nat ->
  macd_body macd_line signal_line i s =
  Ok (if macd_up macd_line signal_line i then append_buy i s
      else if macd_down macd_line signal_line i then append_sell i s else s).
Proof.
  intros Hlen Hi. unfold macd_body, cmp_at, and_then, macd_up, macd_down.
  rewrite !iloc_in_range by lia. simpl.
  destruct (fle (value_at macd_line (i - 1)) (value_at signal_line (i - 1))); simpl;
    [destruct (fgt (value_at macd_line i) (value_at signal_line i)); simpl;
       [reflexivity |] |];
    (destruct (fge (value_at macd_line (i - 1)) (value_at signal_line (i - 1))); simpl;
       [destruct (flt (value_at macd_line i) (value_at signal_line i)); reflexivity
       | reflexivity]).
Qed.

Lemma detect_macd_signals_filter (macd_line signal_line : Series) :
  (length macd_line <= length signal_line)%nat ->
  detect_macd_signals macd_line signal_line =
  Ok (filter (macd_up macd_line signal_line) (seq 1 (length macd_line - 1)),
      filter (fun i => negb (macd_up macd_line signal_line i)
                       && macd_down macd_line signal_line i)
             (seq 1 (length macd_line - 1))).
Proof.
  intro Hlen. unfold detect_macd_signals.
  rewrite (for_range_scan (macd_body macd_line signal_line)
             (macd_up macd_line signal_line) (macd_down macd_line signal_line)).
  - reflexivity.
  - intros i s' Hi. apply macd_body_in_range; [exact Hlen | lia].
Qed.

Lemma rsi_body_in_range (rsi_data : Series) (i : nat) (s : signals) :
  (1 <= i < length rsi_data)%nat ->
  rsi_body rsi_data i s =
  Ok (if rsi_up rsi_data i then append_buy i s
      else if rsi_down rsi_data i then append_sell i s else s).
Proof.
  intros Hi. unfold rsi_body, cmp_scalar_at, notna_at, and_then, rsi_up, rsi_down, fge, fgt.
  rewrite !iloc_in_range by lia.
  destruct (value_at rsi_data (i - 1)) as [a| | |], (value_at rsi_data i) as [b| | |];
    cbn -[Qle_bool Qlt_bool]; try reflexivity;
    repeat match goal with
           | |- context [Qle_bool ?u ?v] => destruct (Qle_bool u v)
           | |- context [Qlt_bool ?u ?v] => destruct (Qlt_bool u v)
           end; reflexivity.
Qed.

Lemma detect_rsi_signals_filter (rsi_data : Series) :
  detect_rsi_signals rsi_data =
  Ok (filter (rsi_up rsi_data) (seq 1 (length rsi_data - 1)),
      filter (fun i => negb (rsi_up rsi_data i) && rsi_down rsi_data i)
             (seq 1 (length rsi_data - 1))).
Proof.
  unfold detect_rsi_signals.
  rewrite (for_range_scan (rsi_body rsi_data) (rsi_up rsi_data) (rsi_down rsi_data)).
  - reflexivity.
  - intros i s' Hi. apply rsi_body_in_range. lia.
Qed.

Lemma macd_down_excludes_up (macd_line signal_line : Series) (i : nat) :
  macd_down macd_line signal_line i = true -> macd_up macd_line signal_line i = false.
Proof.
  unfold macd_down, macd_up, fgt. rewrite andb_true_iff. intros [_ H].
  rewrite (flt_asym _ _ H). apply andb_false_r.
Qed.

Lemma rsi_down_excludes_up (rsi_data : Series) (i : nat) :
  rsi_down rsi_data i = true -> rsi_up rsi_data i = false.
Proof.
  unfold rsi_down, rsi_up, fge. rewrite andb_true_iff. intros [H _].
  destruct (fle (value_at rsi_data (i - 1)) (Fin 30)) eqn:E; [| reflexivity].
  rewrite (fle_level_gap _ 30 70) in H; [discriminate | lra | exact E].
Qed.

End LoopFacts.

(* ------------------------------------------------------------------ *)
(** ** The functions on small inputs *)

Section Runs.

Example detect_macd_signals_run :
  detect_macd_signals [Fin 1; Fin 1; Fin 2; Fin 0; Fin (-1)]
                      [Fin 2; Fin 1; Fin 1; Fin 1; Fin 0]
  = Ok ([2%nat], [3%nat]).
Proof. reflexivity. Qed.

Example detect_macd_signals_short_signal_line :
  detect_macd_signals [Fin 1; Fin 1; Fin 2] [Fin 2; Fin 1] = Raise IndexError.
Proof. reflexivity. Qed.

Example detect_rsi_signals_run :
  detect_rsi_signals [NaN; Fin 20; Fin 30; Fin 31; Fin 70; Fin 71; Fin 69; Fin 70; Fin 10]
  = Ok ([3%nat], [6%nat; 8%nat]).
Proof. reflexivity. Qed.

Example calculate_rsi_run :
  exists r1 r2 r3 r4 : Q,
    calculate_rsi (mk_DataFrame [0; 1; 2; 3; 4]%Z [Fin 5; Fin 4; Fin 6; Fin 1; Fin 7]) 2
    = Ok [NaN; Fin r1; Fin r2; Fin r3; Fin r4] /\
    r1 == 0 /\ r2 == 200 # 3 /\ r3 == 200 # 7 /\ r4 == 600 # 11.
Proof.
  do 4 eexists. split; [vm_compute; reflexivity |].
  repeat split; reflexivity.
Qed.

Example ewm_mean_run :
  exists y1 y2 : Q,
    ewm_mean 3 [Fin 1; Fin 2; Fin 4] = Ok [Fin 1; Fin y1; Fin y2] /\
    y1 == 5 # 3 /\ y2 == 3.
Proof.
  do 2 eexists. split; [vm_compute; reflexivity |].
  split; reflexivity.
Qed.

Example calculate_rsi_negative_period :
  calculate_rsi (mk_DataFrame [0; 1]%Z [Fin 5; Fin 4]) (-3) = Raise ValueError.
Proof. reflexivity. Qed.

Example combined_pass_three_days_apart :
  combined_pass twelve_days [7%nat] [10%nat] = Ok [].
Proof. reflexivity. Qed.

End Runs.

(* ------------------------------------------------------------------ *)
(** ** Signal detection *)

Section Detection.

Lemma up_nan_false (a b : Series) (i : nat) :
  value_at a (i - 1) = NaN \/ value_at a i = NaN \/
  value_at b (i - 1) = NaN \/ value_at b i = NaN ->
  macd_up a b i = false /\ macd_down a b i = false.
Proof.
  unfold macd_up, macd_down, fge, fgt.
  intros [H | [H | [H | H]]]; rewrite H;
    rewrite ?fle_nan_l, ?fle_nan_r, ?flt_nan_l, ?flt_nan_r, ?andb_false_r;
    split; reflexivity.
Qed.

Lemma rsi_nan_false (r : Series) (i : nat) :
  value_at r (i - 1) = NaN \/ value_at r i = NaN ->
  rsi_up r i = false /\ rsi_down r i = false.
Proof.
  unfold rsi_up, rsi_down, fge, fgt.
  intros [H | H]; rewrite H;
    rewrite ?fle_nan_l, ?fle_nan_r, ?flt_nan_l, ?flt_nan_r, ?andb_false_r;
    split; reflexivity.
Qed.

(** C4: on series of one length (the signal line at least as long as the
    MACD line), [detect_macd_signals] returns, and position [i] is in its
    buy list exactly when [1 <= i < len], [macd[i-1] <= signal[i-1]] and
    [macd[i] > signal[i]], in its sell list exactly when [macd[i-1] >=
    signal[i-1]] and [macd[i] < signal[i]]; [detect_rsi_signals] returns,
    and [i] is in its buy list exactly when [rsi[i-1] <= 30] and
    [rsi[i] > 30], in its sell list exactly when [rsi[i-1] >= 70] and
    [rsi[i] < 70]; a value equal to the other line (or to the level) at [i]
    gives no signal of that side at [i]. *)
Theorem detectors_emit_exactly_on_crossings :
  forall (macd_line signal_line rsi_data : Series),
    (length macd_line <= length signal_line)%nat ->
    exists macd_buy macd_sell rsi_buy rsi_sell : list nat,
      detect_macd_signals macd_line signal_line = Ok (macd_buy, macd_sell) /\
      detect_rsi_signals rsi_data = Ok (rsi_buy, rsi_sell) /\
      (forall i, In i macd_buy <->
         (1 <= i < length macd_line)%nat /\
         fle (value_at macd_line (i - 1)) (value_at signal_line (i - 1)) = true /\
         fgt (value_at macd_line i) (value_at signal_line i) = true) /\
      (forall i, In i macd_sell <->
         (1 <= i < length macd_line)%nat /\
         fge (value_at macd_line (i - 1)) (value_at signal_line (i - 1)) = true /\
         flt (value_at macd_line i) (value_at signal_line i) = true) /\
      (forall i, In i rsi_buy <->
         (1 <= i < length rsi_data)%nat /\
         fle (value_at rsi_data (i - 1)) (Fin 30) = true /\
         fgt (value_at rsi_data i) (Fin 30) = true) /\
      (forall i, In i rsi_sell <->
         (1 <= i < length rsi_data)%nat /\
         fge (value_at rsi_data (i - 1)) (Fin 70) = true /\
         flt (value_at rsi_data i) (Fin 70) = true) /\
      (forall i, feq (value_at macd_line i) (value_at signal_line i) ->
         ~ In i macd_buy /\ ~ In i macd_sell) /\
      (forall i, feq (value_at rsi_data i) (Fin 30) -> ~ In i rsi_buy) /\
      (forall i, feq (value_at rsi_data i) (Fin 70) -> ~ In i rsi_sell).
Proof.
  intros macd_line signal_line rsi_data Hlen.
  do 4 eexists.
  split; [apply detect_macd_signals_filter; exact Hlen |].
  split; [apply detect_rsi_signals_filter |].
  assert (Hmb : forall i, In i (filter (macd_up macd_line signal_line)
                                       (seq 1 (length macd_line - 1))) <->
                (1 <= i < length macd_line)%nat /\
                fle (value_at macd_line (i - 1)) (value_at signal_line (i - 1)) = true /\
                fgt (value_at macd_line i) (value_at signal_line i) = true).
  { intro i. rewrite in_filter_range. unfold macd_up.
    rewrite andb_true_iff. tauto. }
  assert (Hms : forall i, In i (filter (fun i => negb (macd_up macd_line signal_line i)
                                              && macd_down macd_line signal_line i)
                                       (seq 1 (length macd_line - 1))) <->
                (1 <= i < length macd_line)%nat /\
                fge (value_at macd_line (i - 1)) (value_at signal_line (i - 1)) = true /\
                flt (value_at macd_line i) (value_at signal_line i) = true).
  { intro i. rewrite in_filter_range, andb_true_iff, negb_true_iff.
    split.
    - intros [Hi [_ Hd]]. unfold macd_down in Hd.
      apply andb_true_iff in Hd. tauto.
    - intros [Hi [H1 H2]].
      assert (Hd : macd_down macd_line signal_line i = true)
        by (unfold macd_down; rewrite H1, H2; reflexivity).
      split; [exact Hi | split; [apply macd_down_excludes_up; exact Hd | exact Hd]]. }
  assert (Hrb : forall i, In i (filter (rsi_up rsi_data) (seq 1 (length rsi_data - 1))) <->
                (1 <= i < length rsi_data)%nat /\
                fle (value_at rsi_data (i - 1)) (Fin 30) = true /\
                fgt (value_at rsi_data i) (Fin 30) = true).
  { intro i. rewrite in_filter_range. unfold rsi_up.
    rewrite andb_true_iff. tauto. }
  assert (Hrs : forall i, In i (filter (fun i => negb (rsi_up rsi_data i)
                                              && rsi_down rsi_data i)
                                       (seq 1 (length rsi_data - 1))) <->
                (1 <= i < length rsi_data)%nat /\
                fge (value_at rsi_data (i - 1)) (Fin 70) = true /\
                flt (value_at rsi_data i) (Fin 70) = true).
  { intro i. rewrite in_filter_range, andb_true_iff, negb_true_iff.
    split.
    - intros [Hi [_ Hd]]. unfold rsi_down in Hd.
      apply andb_true_iff in Hd. tauto.
    - intros [Hi [H1 H2]].
      assert (Hd : rsi_down rsi_data i = true)
        by (unfold rsi_down; rewrite H1, H2; reflexivity).
      split; [exact Hi | split; [apply rsi_down_excludes_up; exact Hd | exact Hd]]. }
  split; [exact Hmb |]. split; [exact Hms |].
  split; [exact Hrb |]. split; [exact Hrs |].
  split; [| split]; intros i Heq.
  - split; intro Hin.
    + apply Hmb in Hin. destruct Hin as [_ [_ Hgt]].
      unfold fgt in Hgt. apply flt_not_feq in Hgt. apply Hgt.
      destruct (value_at macd_line i), (value_at signal_line i); simpl in *;
        try tauto. symmetry. exact Heq.
    + apply Hms in Hin. destruct Hin as [_ [_ Hlt]].
      apply flt_not_feq in Hlt. tauto.
  - intro Hin. apply Hrb in Hin. destruct Hin as [_ [_ Hgt]].
    unfold fgt in Hgt. apply flt_not_feq in Hgt. apply Hgt.
    destruct (value_at rsi_data i); simpl in *; try tauto. symmetry. exact Heq.
  - intro Hin. apply Hrs in Hin. destruct Hin as [_ [_ Hlt]].
    apply flt_not_feq in Hlt. tauto.
Qed.

(** C7: on aligned series both detectors return, and no position [i] whose
    value at [i-1] or at [i] is undefined (NaN, in either line) is in any of
    the lists they return. *)
Theorem detectors_skip_undefined :
  forall (macd_line signal_line rsi_data : Series),
    length macd_line = length signal_line ->
    exists macd_buy macd_sell rsi_buy rsi_sell : list nat,
      detect_macd_signals macd_line signal_line = Ok (macd_buy, macd_sell) /\
      detect_rsi_signals rsi_data = Ok (rsi_buy, rsi_sell) /\
      (forall i,
         value_at macd_line (i - 1) = NaN \/ value_at macd_line i = NaN \/
         value_at signal_line (i - 1) = NaN \/ value_at signal_line i = NaN ->
         ~ In i macd_buy /\ ~ In i macd_sell) /\
      (forall i,
         value_at rsi_data (i - 1) = NaN \/ value_at rsi_data i = NaN ->
         ~ In i rsi_buy /\ ~ In i rsi_sell).
Proof.
  intros macd_line signal_line rsi_data Hlen.
  do 4 eexists.
  split; [apply detect_macd_signals_filter; lia |].
  split; [apply detect_rsi_signals_filter |].
  split; intros i Hnan.
  - destruct (up_nan_false macd_line signal_line i Hnan) as [Hu Hd].
    split; intro Hin; apply filter_In in Hin; destruct Hin as [_ Hin].
    + congruence.
    + rewrite Hd, andb_false_r in Hin. discriminate.
  - destruct (rsi_nan_false rsi_data i Hnan) as [Hu Hd].
    split; intro Hin; apply filter_In in Hin; destruct Hin as [_ Hin].
    + congruence.
    + rewrite Hd, andb_false_r in Hin. discriminate.
Qed.

End Detection.

(* ------------------------------------------------------------------ *)
(** ** The moving averages of [calculate_macd] *)

Section AdjustedEMA.

Variable alpha : Q.
Hypothesis alpha_le_1 : alpha <= 1.

Lemma weight_sum_ge_1 (i : nat) : 1 <= weight_sum alpha i.
Proof.
  induction i as [| i IH]; simpl; [lra |].
  assert (0 <= (1 - alpha) * weight_sum alpha i) by (apply Qmult_le_0_compat; lra).
  lra.
Qed.

Lemma ewm_step_fin (y w p : Q) (n k : nat) :
  w == weight_sum alpha k ->
  exists y' w',
    ewm_step alpha (mk_ewm_state (Fin y) w n) (Fin p) = mk_ewm_state (Fin y') w' (n + 1) /\
    w' == weight_sum alpha (S k) /\
    y' == adjusted_factor alpha (S k) * p + (1 - adjusted_factor alpha (S k)) * y.
Proof.
  intro Hw.
  pose proof (weight_sum_ge_1 k) as Hk.
  pose proof (weight_sum_ge_1 (S k)) as HSk.
  assert (Hw1 : w * (1 - alpha) + 1 == weight_sum alpha (S k)).
  { simpl. rewrite Hw. ring. }
  unfold ewm_step. cbn -[Qeq_bool weight_sum].
  destruct (Qeq_bool y p) eqn:Eyp; cbn -[Qeq_bool weight_sum].
  - apply Qeq_bool_iff in Eyp.
    eexists; eexists. split; [reflexivity |]. split; [exact Hw1 |].
    unfold adjusted_factor. rewrite <- Eyp. field. lra.
  - destruct (Qeq_bool (w * (1 - alpha) + 1) 0) eqn:Ez.
    + apply Qeq_bool_iff in Ez. exfalso. lra.
    + eexists; eexists. split; [reflexivity |]. split; [exact Hw1 |].
      unfold adjusted_factor. rewrite <- Hw1. field. lra.
Qed.


Lemma ewm_loop_fin :
  forall (rest : list Q) (y w : Q) (n k : nat),
    w == weight_sum alpha k ->
    (1 <= n)%nat ->
    exists ys : list Q,
      ewm_loop alpha 1 (mk_ewm_state (Fin y) w n) (map Fin rest) = map Fin ys /\
      length ys = length rest /\
      forall j, (j < length rest)%nat ->
        nth j ys 0 ==
        adjusted_factor alpha (k + 1 + j) * nth j rest 0
        + (1 - adjusted_factor alpha (k + 1 + j)) * nth j (y :: ys) 0.
Proof.
  induction rest as [| p rest IH]; intros y w n k Hw Hn.
  - exists []. repeat split; simpl; intros; lia.
  - destruct (ewm_step_fin y w p n k Hw) as [y' [w' [Hstep [Hw' Hy']]]].
    destruct (IH y' w' (n + 1)%nat (S k) Hw' ltac:(lia)) as [ys [Hloop [Hlen Hrec]]].
    exists (y' :: ys).
    cbn [map ewm_loop]. rewrite Hstep.
    unfold ewm_output at 1. cbn [nobs weighted].
    replace (1 <=? n + 1)%nat with true by (symmetry; apply Nat.leb_le; lia).
    rewrite Hloop. split; [reflexivity |]. split; [simpl; lia |].
    intros [| j] Hj.
    + replace (k + 1 + 0)%nat with (S k) by lia. exact Hy'.
    + replace (k + 1 + S j)%nat with (S k + 1 + j)%nat by lia.
      cbn [nth]. apply Hrec. simpl in Hj. lia.
Qed.

Lemma ewm_kernel_fin (ps : list Q) :
  exists ys : list Q,
    ewm_kernel alpha 1 (map Fin ps) = map Fin ys /\
    length ys = length ps /\
    hd_error ys = hd_error ps /\
    forall i, (1 <= i < length ps)%nat ->
      nth i ys 0 ==
      adjusted_factor alpha i * nth i ps 0
      + (1 - adjusted_factor alpha i) * nth (i - 1) ys 0.
Proof.
  destruct ps as [| p0 rest].
  - exists []. repeat split; simpl; intros; lia.
  - destruct (ewm_loop_fin rest p0 1 1%nat 0%nat ltac:(reflexivity) ltac:(lia))
      as [ys [Hloop [Hlen Hrec]]].
    exists (p0 :: ys). cbn [map ewm_kernel notna].
    unfold ewm_output at 1. cbn [nobs weighted Nat.leb].
    rewrite Hloop. split; [reflexivity |]. split; [simpl; lia |].
    split; [reflexivity |].
    intros [| j] Hi; [lia |].
    replace (S j - 1)%nat with j by lia.
    cbn [nth]. specialize (Hrec j ltac:(simpl in Hi; lia)).
    replace (0 + 1 + j)%nat with (S j) in Hrec by lia. exact Hrec.
Qed.

End AdjustedEMA.

Lemma prep_values_finite (xs : list Q) : prep_values (map Fin xs) = map Fin xs.
Proof.
  unfold prep_values. rewrite map_map. reflexivity.
Qed.

Lemma length_prep_values (vals : Series) : length (prep_values vals) = length vals.
Proof. unfold prep_values. apply length_map. Qed.

Lemma span_alpha (span : Z) :
  (1 <= span)%Z ->
  get_center_of_mass span = Ok ((inject_Z span - 1) / 2) /\
  1 / (1 + (inject_Z span - 1) / 2) == smoothing span /\
  0 < 1 / (1 + (inject_Z span - 1) / 2) /\
  1 / (1 + (inject_Z span - 1) / 2) <= 1.
Proof.
  intro H. unfold get_center_of_mass, smoothing.
  replace (span <? 1)%Z with false by (symmetry; apply Z.ltb_ge; exact H).
  assert (Hq : 1 <= inject_Z span).
  { change 1 with (inject_Z 1). rewrite <- Zle_Qle. exact H. }
  split; [reflexivity |].
  split; [field; repeat split; lra |].
  assert (E : 1 / (1 + (inject_Z span - 1) / 2) == 2 / (inject_Z span + 1))
    by (field; repeat split; lra).
  rewrite E. split.
  - apply Qlt_shift_div_l; lra.
  - apply Qle_shift_div_r; lra.
Qed.

Lemma weight_sum_proper (a b : Q) (i : nat) :
  a == b -> weight_sum a i == weight_sum b i.
Proof.
  intro H. induction i as [| i IH]; simpl; [reflexivity |].
  rewrite IH, H. reflexivity.
Qed.

Lemma adjusted_factor_proper (a b : Q) (i : nat) :
  a == b -> adjusted_factor a i == adjusted_factor b i.
Proof.
  intro H. unfold adjusted_factor. rewrite (weight_sum_proper a b i H). reflexivity.
Qed.

Lemma ewm_mean_fin (span : Z) (xs : list Q) :
  (1 <= span)%Z ->
  exists ys : list Q,
    ewm_mean span (map Fin xs) = Ok (map Fin ys) /\ adjusted_ema span xs ys.
Proof.
  intro Hspan.
  destruct (span_alpha span Hspan) as [Hcom [Halpha [Hpos Hle]]].
  destruct (ewm_kernel_fin _ Hle xs) as [ys [Hk [Hlen [Hhd Hrec]]]].
  exists ys. unfold ewm_mean. rewrite Hcom. cbn [bind].
  rewrite prep_values_finite, Hk.
  split; [reflexivity |]. split; [exact Hlen |]. split; [exact Hhd |].
  intros i Hi. rewrite (Hrec i Hi).
  rewrite (adjusted_factor_proper _ _ i Halpha). reflexivity.
Qed.

Lemma series_sub_fin (a b : list Q) :
  series_sub (map Fin a) (map Fin b) = map Fin (Qsub_list a b).
Proof.
  unfold series_sub, series_map2, Qsub_list.
  revert b. induction a as [| x a IH]; intros [| y b]; simpl; try reflexivity.
  f_equal. apply IH.
Qed.

Lemma calculate_macd_fin (data : DataFrame) (fast slow signal : Z) (prices : list Q) :
  Close data = map Fin prices ->
  (1 <= fast)%Z -> (1 <= slow)%Z -> (1 <= signal)%Z ->
  exists ema_fast ema_slow signal_line : list Q,
    adjusted_ema fast prices ema_fast /\
    adjusted_ema slow prices ema_slow /\
    adjusted_ema signal (Qsub_list ema_fast ema_slow) signal_line /\
    calculate_macd data fast slow signal =
    Ok (map Fin (Qsub_list ema_fast ema_slow),
        map Fin signal_line,
        map Fin (Qsub_list (Qsub_list ema_fast ema_slow) signal_line)).
Proof.
  intros Hclose Hf Hs Hg.
  destruct (ewm_mean_fin fast prices Hf) as [ef [Hef Haf]].
  destruct (ewm_mean_fin slow prices Hs) as [es [Hes Has]].
  destruct (ewm_mean_fin signal (Qsub_list ef es) Hg) as [sg [Hsg Hag]].
  exists ef, es, sg. repeat (split; [assumption |]).
  unfold calculate_macd. rewrite Hclose, Hef, Hes. cbn [bind].
  rewrite series_sub_fin, Hsg. cbn [bind].
  rewrite series_sub_fin. reflexivity.
Qed.

(** C1 (as the code has it): on finite closing prices and spans of at
    least 1, [calculate_macd] returns, and each of its three moving averages
    (fast and slow over the prices, signal over the MACD line) is anchored at
    the first value, EMA[0] = x[0], and then follows EMA[i] = a_i * x[i] +
    (1 - a_i) * EMA[i-1] with the position-dependent factor
    a_i = 1 / (1 + (1 - alpha) + ... + (1 - alpha)^i), alpha = 2 / (span + 1),
    which is what [ewm(span=...).mean()] computes with its default
    [adjust=True]. *)
Theorem calculate_macd_adjusted_recursion :
  forall (data : DataFrame) (fast slow signal : Z) (prices : list Q),
    Close data = map Fin prices ->
    (1 <= fast)%Z -> (1 <= slow)%Z -> (1 <= signal)%Z ->
    exists ema_fast ema_slow signal_line : list Q,
      adjusted_ema fast prices ema_fast /\
      adjusted_ema slow prices ema_slow /\
      adjusted_ema signal (Qsub_list ema_fast ema_slow) signal_line /\
      calculate_macd data fast slow signal =
      Ok (map Fin (Qsub_list ema_fast ema_slow),
          map Fin signal_line,
          map Fin (Qsub_list (Qsub_list ema_fast ema_slow) signal_line)).
Proof.
  intros data fast slow signal prices Hclose Hf Hs Hg.
  exact (calculate_macd_fin data fast slow signal prices Hclose Hf Hs Hg).
Qed.

(** C1, witness: the default spans on the prices 1, 2. *)
Lemma calculate_macd_adjusted_recursion_witness :
  exists ema_fast ema_slow signal_line : list Q,
    adjusted_ema 12 [1; 2] ema_fast /\
    adjusted_ema 26 [1; 2] ema_slow /\
    adjusted_ema 9 (Qsub_list ema_fast ema_slow) signal_line /\
    calculate_macd (mk_DataFrame [0; 1]%Z [Fin 1; Fin 2]) 12 26 9 =
    Ok (map Fin (Qsub_list ema_fast ema_slow),
        map Fin signal_line,
        map Fin (Qsub_list (Qsub_list ema_fast ema_slow) signal_line)).
Proof.
  apply (calculate_macd_adjusted_recursion
           (mk_DataFrame [0; 1]%Z [Fin 1; Fin 2]) 12 26 9 [1; 2]).
  - reflexivity.
  - lia.
  - lia.
  - lia.
Defined.

(** C1 as stated fails: on the prices 1, 2 with span 12 the mean at
    position 1 is 37/24, not alpha * 2 + (1 - alpha) * 1 = 15/13. *)
Lemma ewm_mean_not_plain_recursion :
  exists y : Q,
    ewm_mean 12 [Fin 1; Fin 2] = Ok [Fin 1; Fin y] /\
    y == 37 # 24 /\
    ~ plain_ema 12 [1; 2] [1; y].
Proof.
  eexists. split; [vm_compute; reflexivity |].
  split; [vm_compute; reflexivity |].
  intros [_ [_ H]]. specialize (H 1%nat ltac:(simpl; lia)).
  vm_compute in H. discriminate H.
Qed.

Lemma adjusted_ema_cons (span : Z) (x : Q) (xs ys : list Q) :
  adjusted_ema span (x :: xs) ys ->
  exists ys', ys = x :: ys' /\ length ys' = length xs.
Proof.
  intros [Hlen [Hhd _]]. destruct ys as [| y ys']; simpl in *; [discriminate |].
  injection Hhd as ->. exists ys'. split; [reflexivity | lia].
Qed.

(** C10: on a non-empty series of finite prices and spans of at least 1,
    the three series [calculate_macd] returns have the length of the input,
    hold a finite value at every position (no NaN, no warm-up), and start
    with 0: macd_line[0] = signal_line[0] = histogram[0] = 0. *)
Theorem calculate_macd_defined_and_zero_at_start :
  forall (data : DataFrame) (fast slow signal : Z) (prices : list Q),
    Close data = map Fin prices ->
    prices <> [] ->
    (1 <= fast)%Z -> (1 <= slow)%Z -> (1 <= signal)%Z ->
    exists macd_line signal_line histogram : list Q,
      calculate_macd data fast slow signal =
      Ok (map Fin macd_line, map Fin signal_line, map Fin histogram) /\
      length macd_line = length prices /\
      length signal_line = length prices /\
      length histogram = length prices /\
      exists m0 s0 h0 : Q,
        hd_error macd_line = Some m0 /\
        hd_error signal_line = Some s0 /\
        hd_error histogram = Some h0 /\
        m0 == 0 /\ s0 == 0 /\ h0 == 0.
Proof.
  intros data fast slow signal prices Hclose Hne Hf Hs Hg.
  destruct prices as [| p0 rest]; [congruence |].
  destruct (calculate_macd_fin data fast slow signal (p0 :: rest) Hclose Hf Hs Hg)
    as [ef [es [sg [Haf [Has [Hag Hcalc]]]]]].
  destruct (adjusted_ema_cons _ _ _ _ Haf) as [ef' [-> Hlf]].
  destruct (adjusted_ema_cons _ _ _ _ Has) as [es' [-> Hls]].
  change (Qsub_list (p0 :: ef') (p0 :: es'))
    with ((p0 - p0) :: Qsub_list ef' es') in Hag, Hcalc.
  destruct (adjusted_ema_cons _ _ _ _ Hag) as [sg' [-> Hlg]].
  change (Qsub_list ((p0 - p0) :: Qsub_list ef' es') ((p0 - p0) :: sg'))
    with ((p0 - p0 - (p0 - p0)) :: Qsub_list (Qsub_list ef' es') sg') in Hcalc.
  assert (Hlm : length (Qsub_list ef' es') = length rest)
    by (unfold Qsub_list; rewrite length_map, length_combine; lia).
  assert (Hlh : length (Qsub_list (Qsub_list ef' es') sg') = length rest)
    by (unfold Qsub_list at 1; rewrite length_map, length_combine; lia).
  eexists _, _, _. split; [exact Hcalc |].
  cbn [length hd_error].
  split; [lia |]. split; [lia |]. split; [lia |].
  eexists _, _, _.
  split; [reflexivity |]. split; [reflexivity |]. split; [reflexivity |].
  split; [ring |]. split; ring.
Qed.

(** C10, witness: three prices under the default spans. *)
Lemma calculate_macd_defined_and_zero_at_start_witness :
  exists macd_line signal_line histogram : list Q,
    calculate_macd (mk_DataFrame [0; 1; 2]%Z [Fin 5; Fin 7; Fin 6]) 12 26 9 =
    Ok (map Fin macd_line, map Fin signal_line, map Fin histogram) /\
    length macd_line = length [5; 7; 6] /\
    length signal_line = length [5; 7; 6] /\
    length histogram = length [5; 7; 6] /\
    exists m0 s0 h0 : Q,
      hd_error macd_line = Some m0 /\
      hd_error signal_line = Some s0 /\
      hd_error histogram = Some h0 /\
      m0 == 0 /\ s0 == 0 /\ h0 == 0.
Proof.
  apply (calculate_macd_defined_and_zero_at_start
           (mk_DataFrame [0; 1; 2]%Z [Fin 5; Fin 7; Fin 6]) 12 26 9 [5; 7; 6]).
  - reflexivity.
  - discriminate.
  - lia.
  - lia.
  - lia.
Defined.

(* ------------------------------------------------------------------ *)
(** ** The RSI of [calculate_rsi] *)

Section RSIFacts.

Lemma where_pointwise (c : pyfloat -> bool) (other : pyfloat) (d : Series) :
  series_where d (map c d) other = map (fun x => if c x then x else other) d.
Proof.
  unfold series_where. induction d as [| x d IH]; simpl; [reflexivity |].
  f_equal. exact IH.
Qed.

Lemma gain_of_pointwise (close_prices : Series) :
  gain_of close_prices = map gain_value (diff close_prices).
Proof.
  unfold gain_of, series_gt_scalar. cbv zeta. rewrite where_pointwise. reflexivity.
Qed.

Lemma loss_of_pointwise (close_prices : Series) :
  loss_of close_prices = map loss_value (diff close_prices).
Proof.
  unfold loss_of, series_lt_scalar, series_neg. cbv zeta.
  rewrite where_pointwise, map_map. reflexivity.
Qed.

Lemma length_diff_from (prev : pyfloat) (rest : Series) :
  length (diff_from prev rest) = length rest.
Proof.
  revert prev. induction rest as [| x rest IH]; intro prev; simpl; [reflexivity |].
  f_equal. apply IH.
Qed.

Lemma length_diff (a : Series) : length (diff a) = length a.
Proof. destruct a; simpl; [reflexivity |]. f_equal. apply length_diff_from. Qed.

Lemma length_gain_of (c : Series) : length (gain_of c) = length c.
Proof. rewrite gain_of_pointwise, length_map. apply length_diff. Qed.

Lemma length_loss_of (c : Series) : length (loss_of c) = length c.
Proof. rewrite loss_of_pointwise, length_map. apply length_diff. Qed.

Lemma value_at_map_seq (f : nat -> pyfloat) (n i : nat) :
  (i < n)%nat -> value_at (map f (seq 0 n)) i = f i.
Proof.
  intro H. unfold value_at.
  rewrite (nth_indep (map f (seq 0 n)) NaN (f 0%nat))
    by (rewrite length_map, length_seq; exact H).
  rewrite map_nth, seq_nth by exact H. reflexivity.
Qed.

Lemma value_at_outside (s : Series) (i : nat) :
  (length s <= i)%nat -> value_at s i = NaN.
Proof. intro H. unfold value_at. apply nth_overflow. exact H. Qed.

Lemma value_at_map2 (f : pyfloat -> pyfloat -> pyfloat) (a b : Series) (i : nat) :
  (i < length a)%nat -> (i < length b)%nat ->
  value_at (series_map2 f a b) i = f (value_at a i) (value_at b i).
Proof.
  unfold value_at, series_map2. revert b i.
  induction a as [| x a IH]; intros [| y b] [| i] Ha Hb; simpl in *; try lia.
  - reflexivity.
  - apply IH; lia.
Qed.

Lemma value_at_map (f : pyfloat -> pyfloat) (a : Series) (i : nat) :
  (i < length a)%nat -> value_at (map f a) i = f (value_at a i).
Proof.
  unfold value_at. revert i.
  induction a as [| x a IH]; intros [| i] Ha; simpl in *; try lia.
  - reflexivity.
  - apply IH; lia.
Qed.

(** [calculate_rsi] position by position. *)
Lemma calculate_rsi_values (data : DataFrame) (period : Z) :
  (0 <= period)%Z ->
  exists rsi : Series,
    calculate_rsi data period = Ok rsi /\
    length rsi = length (Close data) /\
    forall i, (i < length (Close data))%nat ->
      value_at rsi i =
      rsi_of_rs (fdiv (avg_at period (gain_of (Close data)) i)
                      (avg_at period (loss_of (Close data)) i)).
Proof.
  intro Hp. unfold calculate_rsi, rolling_mean. cbv zeta.
  replace (period <? 0)%Z with false by (symmetry; apply Z.ltb_ge; exact Hp).
  cbn [bind]. eexists. split; [reflexivity |].
  rewrite length_gain_of, length_loss_of.
  split.
  - unfold series_div, series_map2.
    rewrite !length_map, length_combine, !length_map, !length_seq. lia.
  - intros i Hi.
    rewrite value_at_map
      by (unfold series_div, series_map2;
          rewrite length_map, length_combine, !length_map, !length_seq; lia).
    unfold series_div.
    rewrite value_at_map2 by (rewrite length_map, length_seq; exact Hi).
    rewrite !value_at_map_seq by exact Hi. reflexivity.
Qed.

Lemma calculate_rsi_negative (data : DataFrame) (period : Z) :
  (period < 0)%Z -> calculate_rsi data period = Raise ValueError.
Proof.
  intro Hp. unfold calculate_rsi, rolling_mean. cbv zeta.
  replace (period <? 0)%Z with true by (symmetry; apply Z.ltb_lt; exact Hp).
  reflexivity.
Qed.

Lemma length_finite_values (w : Series) :
  (length (finite_values w) <= length w)%nat.
Proof.
  unfold finite_values. induction w as [| x w IH]; simpl; [lia |].
  destruct x; simpl; lia.
Qed.

Lemma length_window_at (window : nat) (a : Series) (i : nat) :
  (length (window_at window a i) <= i + 1)%nat.
Proof.
  unfold window_at. rewrite length_firstn, length_skipn. lia.
Qed.

(** Before [period] values are available the rolling mean is NaN. *)
Lemma avg_at_warm_up (period : Z) (a : Series) (i : nat) :
  (Z.of_nat i + 1 < period)%Z -> avg_at period a i = NaN.
Proof.
  intro H. unfold avg_at, window_mean.
  pose proof (length_finite_values (window_at (Z.to_nat period) a i)) as H1.
  pose proof (length_window_at (Z.to_nat period) a i) as H2.
  replace (Z.to_nat period <=? length (finite_values (window_at (Z.to_nat period) a i)))%nat
    with false by (symmetry; apply Nat.leb_gt; lia).
  reflexivity.
Qed.

Lemma fdiv_nan_r (x : pyfloat) : fdiv x NaN = NaN.
Proof. destruct x; reflexivity. Qed.

(** A zero divisor: the quotient is NaN or an infinity, never a fault. *)
Lemma fdiv_zero_divisor (x : pyfloat) (l : Q) :
  l == 0 -> fdiv x (Fin l) = NaN \/ fdiv x (Fin l) = PInf \/ fdiv x (Fin l) = NInf.
Proof.
  intro Hl. destruct x as [g| | |]; simpl.
  - rewrite (Qeq_eq_bool _ _ Hl). destruct (Qeq_bool g 0); [tauto |].
    unfold inf_of_sign. destruct (Qlt_bool g 0); tauto.
  - unfold inf_of_sign. destruct (Qlt_bool l 0); tauto.
  - unfold inf_of_sign. destruct (Qlt_bool l 0); simpl; tauto.
  - tauto.
Qed.

Lemma rsi_of_rs_inf (rs : pyfloat) :
  rs = PInf \/ rs = NInf -> exists q, rsi_of_rs rs = Fin q /\ q == 100.
Proof.
  intros [-> | ->]; eexists; (split; [reflexivity | ring]).
Qed.

(** With a zero average loss the RSI is 100 or NaN. *)
Lemma rsi_zero_loss (g l : pyfloat) :
  zero_or_nan l -> level_or_nan 100 (rsi_of_rs (fdiv g l)).
Proof.
  intros [-> | [q [-> Hq]]].
  - left. rewrite fdiv_nan_r. reflexivity.
  - destruct (fdiv_zero_divisor g q Hq) as [E | E]; rewrite ?E.
    + left. reflexivity.
    + right. apply rsi_of_rs_inf. exact E.
Qed.

(** With a zero average gain the RSI is 0 or NaN. *)
Lemma rsi_zero_gain (g l : pyfloat) :
  zero_or_nan g -> level_or_nan 0 (rsi_of_rs (fdiv g l)).
Proof.
  intros [-> | [q [-> Hq]]].
  - left. reflexivity.
  - destruct l as [b| | |]; simpl.
    + destruct (Qeq_bool b 0) eqn:Eb.
      * rewrite (Qeq_eq_bool _ _ Hq). left. reflexivity.
      * right. apply Qeq_bool_neq in Eb. unfold rsi_of_rs. simpl.
        assert (Hz : q / b == 0) by (rewrite Hq; field; exact Eb).
        destruct (Qeq_bool (1 + q / b) 0) eqn:E1.
        -- apply Qeq_bool_iff in E1. exfalso. lra.
        -- eexists. split; [reflexivity |]. rewrite Hz. reflexivity.
    + right. eexists. split; [reflexivity |]. reflexivity.
    + right. eexists. split; [reflexivity |]. reflexivity.
    + left. reflexivity.
Qed.

Lemma Forall_firstn_keeps (P : pyfloat -> Prop) (n : nat) (l : Series) :
  Forall P l -> Forall P (firstn n l).
Proof.
  intro H. revert n. induction H as [| x l Hx Hl IH]; intros [| n]; simpl;
    constructor; auto.
Qed.

Lemma Forall_skipn_keeps (P : pyfloat -> Prop) (n : nat) (l : Series) :
  Forall P l -> Forall P (skipn n l).
Proof.
  intro H. revert n. induction H as [| x l Hx Hl IH]; intros [| n]; simpl;
    try constructor; auto.
Qed.

Lemma Qsum_zero (w : Series) :
  Forall is_zero w -> Qsum (finite_values w) == 0.
Proof.
  unfold finite_values, Qsum.
  induction 1 as [| x w [q [-> Hq]] Hw IH]; simpl; [reflexivity |].
  rewrite IH, Hq. reflexivity.
Qed.

(** The rolling mean of a series of zeros is zero wherever it is defined. *)
Lemma avg_at_zero (period : Z) (a : Series) (i : nat) :
  Forall is_zero a -> zero_or_nan (avg_at period a i).
Proof.
  intro Ha. unfold avg_at, window_mean.
  set (w := window_at (Z.to_nat period) a i).
  assert (Hw : Forall is_zero w)
    by (apply Forall_firstn_keeps, Forall_skipn_keeps; exact Ha).
  destruct ((Z.to_nat period <=? length (finite_values w))%nat
            && (0 <? length (finite_values w))%nat) eqn:E.
  - right. eexists. split; [reflexivity |].
    apply andb_true_iff in E. destruct E as [_ E]. apply Nat.ltb_lt in E.
    rewrite (Qsum_zero w Hw). field.
    change 0 with (inject_Z 0). rewrite inject_Z_injective. lia.
  - left. reflexivity.
Qed.

Lemma diff_from_increasing (prev : Q) (rest : list Q) :
  increasing_from prev rest ->
  Forall (fun d => exists q, d = Fin q /\ 0 < q) (diff_from (Fin prev) (map Fin rest)).
Proof.
  revert prev. induction rest as [| x rest IH]; intros prev H; simpl in *.
  - constructor.
  - destruct H as [Hlt Hrest]. constructor.
    + eexists. split; [reflexivity | lra].
    + apply IH. exact Hrest.
Qed.

Lemma diff_from_decreasing (prev : Q) (rest : list Q) :
  decreasing_from prev rest ->
  Forall (fun d => exists q, d = Fin q /\ q < 0) (diff_from (Fin prev) (map Fin rest)).
Proof.
  revert prev. induction rest as [| x rest IH]; intros prev H; simpl in *.
  - constructor.
  - destruct H as [Hlt Hrest]. constructor.
    + eexists. split; [reflexivity | lra].
    + apply IH. exact Hrest.
Qed.

Lemma Qlt_bool_false (a b : Q) : b <= a -> Qlt_bool a b = false.
Proof.
  intro H. unfold Qlt_bool. apply negb_false_iff. apply Qle_bool_iff. exact H.
Qed.

(** Rising prices have no loss. *)
Lemma loss_of_increasing (prices : list Q) :
  strictly_increasing prices -> Forall is_zero (loss_of (map Fin prices)).
Proof.
  intro H. rewrite loss_of_pointwise.
  destruct prices as [| p rest]; simpl; [constructor |].
  constructor.
  - eexists. split; [reflexivity | ring].
  - apply Forall_map. eapply Forall_impl; [| apply diff_from_increasing; exact H].
    intros d [q [-> Hq]]. unfold loss_value. simpl.
    rewrite Qlt_bool_false by lra. eexists. split; [reflexivity | ring].
Qed.

(** Falling prices have no gain. *)
Lemma gain_of_decreasing (prices : list Q) :
  strictly_decreasing prices -> Forall is_zero (gain_of (map Fin prices)).
Proof.
  intro H. rewrite gain_of_pointwise.
  destruct prices as [| p rest]; simpl; [constructor |].
  constructor.
  - eexists. split; [reflexivity | reflexivity].
  - apply Forall_map. eapply Forall_impl; [| apply diff_from_decreasing; exact H].
    intros d [q [-> Hq]]. unfold gain_value, fgt. simpl.
    rewrite Qlt_bool_false by lra. eexists. split; [reflexivity | reflexivity].
Qed.

(** The first entry of [gain] and of [loss] is a zero, whatever the prices. *)
Lemma gain_loss_head (c : Series) :
  c <> [] ->
  exists g l gs ls, gain_of c = Fin g :: gs /\ loss_of c = Fin l :: ls /\ g == 0 /\ l == 0.
Proof.
  intro H. rewrite gain_of_pointwise, loss_of_pointwise.
  destruct c as [| x rest]; [congruence |]. simpl.
  do 4 eexists. split; [reflexivity |]. split; [reflexivity |]. split; [reflexivity | ring].
Qed.

(** Position 0 of the RSI is NaN for every period. *)
Lemma rsi_head_nan (period : Z) (c : Series) :
  (0 <= period)%Z ->
  rsi_of_rs (fdiv (avg_at period (gain_of c) 0) (avg_at period (loss_of c) 0)) = NaN.
Proof.
  intro Hp.
  destruct (Z.eq_dec period 0) as [-> | Hp0].
  - unfold avg_at, window_at. simpl. reflexivity.
  - destruct (Z.eq_dec period 1) as [-> | Hp1].
    + destruct c as [| x rest]; [reflexivity |].
      destruct (gain_loss_head (x :: rest) ltac:(discriminate))
        as [g [l [gs [ls [Hg [Hl [Hg0 Hl0]]]]]]].
      rewrite Hg, Hl. unfold avg_at, window_at, window_mean. simpl.
      assert (E1 : Qeq_bool ((l + 0) / inject_Z 1) 0 = true).
      { apply Qeq_eq_bool. rewrite Hl0. reflexivity. }
      assert (E2 : Qeq_bool ((g + 0) / inject_Z 1) 0 = true).
      { apply Qeq_eq_bool. rewrite Hg0. reflexivity. }
      rewrite E1, E2. reflexivity.
    + rewrite (avg_at_warm_up period (gain_of c) 0) by lia. reflexivity.
Qed.

End RSIFacts.

Section RSIClaims.

(** C2 (as the code has it): for every series and every period of at least
    0, [calculate_rsi] returns a series of the input's length that is NaN at
    position 0 and at every position [i] with [i + 1 < period]: the first
    [period - 1] positions are undefined, and the first defined value, if
    any, is at position [period - 1] or later and never at position 0. *)
Theorem calculate_rsi_warm_up :
  forall (data : DataFrame) (period : Z),
    (0 <= period)%Z ->
    exists rsi : Series,
      calculate_rsi data period = Ok rsi /\
      length rsi = length (Close data) /\
      value_at rsi 0 = NaN /\
      (forall i, (Z.of_nat i + 1 < period)%Z -> value_at rsi i = NaN) /\
      (forall i, notna (value_at rsi i) = true ->
                 (1 <= i)%nat /\ (period - 1 <= Z.of_nat i)%Z).
Proof.
  intros data period Hp.
  destruct (calculate_rsi_values data period Hp) as [rsi [Hcalc [Hlen Hval]]].
  assert (H0 : value_at rsi 0 = NaN).
  { destruct (Nat.eq_dec (length (Close data)) 0) as [E | E].
    - apply value_at_outside. lia.
    - rewrite Hval by lia. apply rsi_head_nan. exact Hp. }
  assert (Hw : forall i, (Z.of_nat i + 1 < period)%Z -> value_at rsi i = NaN).
  { intros i Hi. destruct (Nat.lt_ge_cases i (length (Close data))) as [Hin | Hout].
    - rewrite Hval by exact Hin. rewrite avg_at_warm_up by exact Hi. reflexivity.
    - apply value_at_outside. lia. }
  exists rsi. split; [exact Hcalc |]. split; [exact Hlen |].
  split; [exact H0 |]. split; [exact Hw |].
  intros i Hi. split.
  - destruct i; [rewrite H0 in Hi; discriminate | lia].
  - destruct (Z_lt_ge_dec (Z.of_nat i + 1) period) as [Hlt | Hge]; [| lia].
    rewrite (Hw i Hlt) in Hi. discriminate.
Qed.

Lemma calculate_rsi_warm_up_witness :
  exists rsi : Series,
    calculate_rsi (mk_DataFrame [0; 1; 2; 3]%Z [Fin 1; Fin 2; Fin 3; Fin 2]) 3 = Ok rsi /\
    length rsi = 4%nat /\
    value_at rsi 0 = NaN /\
    (forall i, (Z.of_nat i + 1 < 3)%Z -> value_at rsi i = NaN) /\
    (forall i, notna (value_at rsi i) = true ->
               (1 <= i)%nat /\ (3 - 1 <= Z.of_nat i)%Z).
Proof.
  apply (calculate_rsi_warm_up
           (mk_DataFrame [0; 1; 2; 3]%Z [Fin 1; Fin 2; Fin 3; Fin 2]) 3).
  lia.
Defined.

(** C2 as stated fails: on the prices 1, 2, 3 (length period + 1) with
    period 2, position 1 = period - 1 holds a value (100). *)
Lemma calculate_rsi_defined_before_period :
  exists (rsi : Series) (q : Q),
    calculate_rsi (mk_DataFrame [0; 1; 2]%Z [Fin 1; Fin 2; Fin 3]) 2 = Ok rsi /\
    value_at rsi 1 = Fin q /\ q == 100 /\
    notna (value_at rsi 1) = true.
Proof.
  eexists. eexists. split; [vm_compute; reflexivity |].
  split; [reflexivity |]. split; reflexivity.
Qed.

(** C3 (as the code has it): [calculate_rsi] has no branch for a zero
    average loss; it divides, and the RSI at every position is the formula
    100 - 100 / (1 + RS) applied to the quotient.  At a position where both
    rolling averages are available and the average loss is 0, a positive
    average gain makes RS an infinity, [avg_gain / 0] (plus or minus with
    the sign of that zero), and the RSI 100 - 100 / (1 + RS) = 100 for
    either infinity; a zero average gain makes RS and the RSI NaN; nothing
    is raised. *)
Theorem calculate_rsi_zero_average_loss :
  forall (data : DataFrame) (period : Z) (i : nat) (g l : Q),
    (0 <= period)%Z ->
    (i < length (Close data))%nat ->
    avg_at period (gain_of (Close data)) i = Fin g ->
    avg_at period (loss_of (Close data)) i = Fin l ->
    l == 0 ->
    exists rsi : Series,
      calculate_rsi data period = Ok rsi /\
      value_at rsi i = rsi_of_rs (fdiv (Fin g) (Fin l)) /\
      (0 < g ->
         (fdiv (Fin g) (Fin l) = PInf \/ fdiv (Fin g) (Fin l) = NInf) /\
         (forall rs, rs = PInf \/ rs = NInf ->
                     exists q, rsi_of_rs rs = Fin q /\ q == 100) /\
         exists q, value_at rsi i = Fin q /\ q == 100) /\
      (g == 0 -> fdiv (Fin g) (Fin l) = NaN /\ value_at rsi i = NaN).
Proof.
  intros data period i g l Hp Hi Hg Hl Hl0.
  destruct (calculate_rsi_values data period Hp) as [rsi [Hcalc [_ Hval]]].
  exists rsi. split; [exact Hcalc |].
  rewrite (Hval i Hi), Hg, Hl. split; [reflexivity |].
  assert (El : Qeq_bool l 0 = true) by (apply Qeq_eq_bool; exact Hl0).
  split; intro Hg0.
  - assert (E : fdiv (Fin g) (Fin l) = PInf \/ fdiv (Fin g) (Fin l) = NInf).
    { destruct (fdiv_zero_divisor (Fin g) l Hl0) as [E | E]; [| exact E].
      simpl in E. rewrite El in E.
      destruct (Qeq_bool g 0) eqn:Eg; [apply Qeq_bool_iff in Eg; lra |].
      unfold inf_of_sign in E. destruct (Qlt_bool g 0); discriminate. }
    split; [exact E |]. split; [exact rsi_of_rs_inf |].
    apply rsi_of_rs_inf. exact E.
  - assert (E : fdiv (Fin g) (Fin l) = NaN).
    { simpl. rewrite El, (Qeq_eq_bool _ _ Hg0). reflexivity. }
    rewrite E. split; reflexivity.
Qed.

Lemma calculate_rsi_zero_average_loss_witness :
  exists rsi : Series,
    calculate_rsi (mk_DataFrame [0; 1; 2]%Z [Fin 1; Fin 2; Fin 3]) 2 = Ok rsi /\
    value_at rsi 2 = rsi_of_rs (fdiv (Fin (2 # 2)) (Fin (0 # 2))) /\
    (0 < 2 # 2 ->
       (fdiv (Fin (2 # 2)) (Fin (0 # 2)) = PInf \/
        fdiv (Fin (2 # 2)) (Fin (0 # 2)) = NInf) /\
       (forall rs, rs = PInf \/ rs = NInf ->
                   exists q, rsi_of_rs rs = Fin q /\ q == 100) /\
       exists q, value_at rsi 2 = Fin q /\ q == 100) /\
    (2 # 2 == 0 -> fdiv (Fin (2 # 2)) (Fin (0 # 2)) = NaN /\ value_at rsi 2 = NaN).
Proof.
  apply (calculate_rsi_zero_average_loss
           (mk_DataFrame [0; 1; 2]%Z [Fin 1; Fin 2; Fin 3]) 2 2 (2 # 2) (0 # 2)).
  - lia.
  - simpl. lia.
  - vm_compute. reflexivity.
  - vm_compute. reflexivity.
  - reflexivity.
Defined.

(** C3 as stated fails: on the flat prices 5, 5, 5 with period 2 both
    rolling averages are available at position 2 and the average loss is 0,
    yet the RSI there is NaN, not 100. *)
Lemma calculate_rsi_flat_is_nan :
  exists (rsi : Series) (g l : Q),
    avg_at 2 (gain_of [Fin 5; Fin 5; Fin 5]) 2 = Fin g /\
    avg_at 2 (loss_of [Fin 5; Fin 5; Fin 5]) 2 = Fin l /\
    l == 0 /\
    calculate_rsi (mk_DataFrame [0; 1; 2]%Z [Fin 5; Fin 5; Fin 5]) 2 = Ok rsi /\
    value_at rsi 2 = NaN /\
    ~ feq (value_at rsi 2) (Fin 100).
Proof.
  eexists. eexists. eexists.
  split; [vm_compute; reflexivity |].
  split; [vm_compute; reflexivity |].
  split; [reflexivity |].
  split; [vm_compute; reflexivity |].
  split; [reflexivity |].
  simpl. tauto.
Qed.

Lemma filter_none (f : nat -> bool) (l : list nat) :
  (forall i, f i = false) -> filter f l = [].
Proof.
  intro H. induction l as [| x l IH]; simpl; [reflexivity |].
  rewrite H. exact IH.
Qed.

Lemma rsi_down_at_level_100 (rsi : Series) (i : nat) :
  (forall j, level_or_nan 100 (value_at rsi j)) -> rsi_down rsi i = false.
Proof.
  intro H. unfold rsi_down.
  destruct (H i) as [E | [q [E Hq]]]; rewrite E.
  - rewrite flt_nan_l. apply andb_false_r.
  - simpl. rewrite Qlt_bool_false by lra. apply andb_false_r.
Qed.

Lemma rsi_up_at_level_0 (rsi : Series) (i : nat) :
  (forall j, level_or_nan 0 (value_at rsi j)) -> rsi_up rsi i = false.
Proof.
  intro H. unfold rsi_up, fgt.
  destruct (H i) as [E | [q [E Hq]]]; rewrite E.
  - rewrite flt_nan_r. apply andb_false_r.
  - simpl. rewrite Qlt_bool_false by lra. apply andb_false_r.
Qed.

(** C9: on finite prices and a period of at least 0, [calculate_rsi]
    followed by [detect_rsi_signals] returns; for strictly increasing prices
    every RSI value is 100 or NaN and the sell list is empty, for strictly
    decreasing prices every RSI value is 0 or NaN and the buy list is
    empty. *)
Theorem monotone_prices_rsi_signals :
  forall (data : DataFrame) (period : Z) (prices : list Q),
    Close data = map Fin prices ->
    (0 <= period)%Z ->
    exists (rsi : Series) (buys sells : list nat),
      calculate_rsi data period = Ok rsi /\
      detect_rsi_signals rsi = Ok (buys, sells) /\
      (strictly_increasing prices ->
         (forall i, level_or_nan 100 (value_at rsi i)) /\ sells = []) /\
      (strictly_decreasing prices ->
         (forall i, level_or_nan 0 (value_at rsi i)) /\ buys = []).
Proof.
  intros data period prices Hclose Hp.
  destruct (calculate_rsi_values data period Hp) as [rsi [Hcalc [Hlen Hval]]].
  exists rsi. do 2 eexists.
  split; [exact Hcalc |].
  split; [apply detect_rsi_signals_filter |].
  rewrite Hclose in Hval, Hlen.
  split; intro Hmono.
  - assert (Hlevel : forall i, level_or_nan 100 (value_at rsi i)).
    { intro i. destruct (Nat.lt_ge_cases i (length (map Fin prices))) as [Hin | Hout].
      - rewrite (Hval i Hin). apply rsi_zero_loss, avg_at_zero, loss_of_increasing.
        exact Hmono.
      - left. apply value_at_outside. lia. }
    split; [exact Hlevel |].
    apply filter_none. intro i.
    rewrite (rsi_down_at_level_100 rsi i Hlevel). apply andb_false_r.
  - assert (Hlevel : forall i, level_or_nan 0 (value_at rsi i)).
    { intro i. destruct (Nat.lt_ge_cases i (length (map Fin prices))) as [Hin | Hout].
      - rewrite (Hval i Hin). apply rsi_zero_gain, avg_at_zero, gain_of_decreasing.
        exact Hmono.
      - left. apply value_at_outside. lia. }
    split; [exact Hlevel |].
    apply filter_none. intro i. apply rsi_up_at_level_0. exact Hlevel.
Qed.

End RSIClaims.

(* ------------------------------------------------------------------ *)
(** ** The combined signals *)

Section Combination.

Lemma index_at_in_range (data : DataFrame) (i : nat) :
  (i < length (index data))%nat -> index_at data i = Ok (date_at data i).
Proof.
  intro H. unfold index_at, date_at.
  rewrite (nth_error_nth' (index data) 0%Z H). reflexivity.
Qed.

Lemma comprehension_index (data : DataFrame) (rsi_signals : list nat) :
  (forall r, In r rsi_signals -> (r < length (index data))%nat) ->
  comprehension (index_at data) rsi_signals = Ok (map (date_at data) rsi_signals).
Proof.
  induction rsi_signals as [| r rest IH]; intro H; simpl; [reflexivity |].
  rewrite index_at_in_range by (apply H; left; reflexivity).
  cbn [bind]. rewrite IH by (intros; apply H; right; assumption).
  reflexivity.
Qed.

Lemma inner_loop_matches (date : Z) (rsi_dates combined : list Z) :
  for_each (match_body date) rsi_dates combined
  = Ok (combined ++ matches_of date rsi_dates).
Proof.
  revert combined. induction rsi_dates as [| r rest IH]; intro combined; simpl.
  - rewrite app_nil_r. reflexivity.
  - unfold within_two_days, match_body at 1.
    destruct (Z.abs (timedelta_days (date - r)) <=? 2)%Z; cbn [bind]; rewrite IH.
    + rewrite <- app_assoc. reflexivity.
    + reflexivity.
Qed.

Lemma outer_loop_all_pairs (data : DataFrame) (rsi_signals : list nat) :
  (forall r, In r rsi_signals -> (r < length (index data))%nat) ->
  forall (macd_signals : list nat) (combined : list Z),
    (forall m, In m macd_signals -> (m < length (index data))%nat) ->
    for_each (combined_body data rsi_signals) macd_signals combined
    = Ok (combined ++ all_pairs data macd_signals rsi_signals).
Proof.
  intros Hr macd_signals.
  induction macd_signals as [| m rest IH]; intros combined Hm.
  - simpl. rewrite app_nil_r. reflexivity.
  - cbn [for_each]. unfold combined_body at 1.
    rewrite index_at_in_range by (apply Hm; left; reflexivity).
    cbn [bind]. rewrite (comprehension_index data rsi_signals Hr). cbn [bind].
    rewrite inner_loop_matches. cbn [bind].
    rewrite IH by (intros; apply Hm; right; assumption).
    unfold all_pairs. cbn [flat_map]. rewrite app_assoc. reflexivity.
Qed.

Lemma in_matches_of (date d : Z) (rsi_dates : list Z) :
  In d (matches_of date rsi_dates) <->
  d = date /\ exists r, In r rsi_dates /\ within_two_days date r = true.
Proof.
  unfold matches_of. rewrite in_flat_map. split.
  - intros [r [Hr Hd]]. destruct (within_two_days date r) eqn:E; simpl in Hd.
    + destruct Hd as [<- | []]. split; [reflexivity |]. exists r. tauto.
    + contradiction.
  - intros [-> [r [Hr E]]]. exists r. split; [exact Hr |].
    rewrite E. left. reflexivity.
Qed.







(** Across the clock change the Monday is 2 days 23 hours after the Friday:
    a MACD signal on the Monday is combined with an RSI signal on the Friday
    ([days = 2]), a MACD signal on the Friday is not combined with an RSI
    signal on the Monday ([days = -3]). *)
Example combined_pass_across_clock_change :
  timedelta_days (monday_2024_03_11 - friday_2024_03_08) = 2%Z /\
  timedelta_days (friday_2024_03_08 - monday_2024_03_11) = (-3)%Z /\
  combined_pass clock_change_frame [1%nat] [0%nat] = Ok [monday_2024_03_11] /\
  combined_pass clock_change_frame [0%nat] [1%nat] = Ok [].
Proof. repeat split; reflexivity. Qed.

End Combination.

(* ------------------------------------------------------------------ *)
(** ** Configurations and empty input *)

Section Configuration.

Lemma ewm_mean_rejects (span : Z) (vals : Series) :
  (span < 1)%Z -> ewm_mean span vals = Raise ValueError.
Proof.
  intro H. unfold ewm_mean, get_center_of_mass.
  replace (span <? 1)%Z with true by (symmetry; apply Z.ltb_lt; exact H).
  reflexivity.
Qed.

Lemma ewm_mean_accepts (span : Z) (vals : Series) :
  (1 <= span)%Z -> exists out, ewm_mean span vals = Ok out /\ (vals = [] -> out = []).
Proof.
  intro H. unfold ewm_mean.
  destruct (span_alpha span H) as [-> _]. cbn [bind].
  eexists. split; [reflexivity |]. intros ->. reflexivity.
Qed.

(** C6 (as the code has it): the only checks are those of pandas.  A fast,
    slow or signal span below 1 makes [calculate_macd] raise ValueError and
    a negative period makes [calculate_rsi] raise ValueError, so nothing is
    returned; the order of the fast and slow spans is not checked: with
    spans of at least 1, in any order, [calculate_macd] returns. *)
Theorem invalid_periods_rejected :
  forall (data : DataFrame) (fast slow signal period : Z),
    ((fast < 1 \/ slow < 1 \/ signal < 1)%Z ->
       calculate_macd data fast slow signal = Raise ValueError) /\
    ((period < 0)%Z ->
       calculate_rsi data period = Raise ValueError) /\
    ((1 <= fast)%Z -> (1 <= slow)%Z -> (1 <= signal)%Z ->
       exists out, calculate_macd data fast slow signal = Ok out).
Proof.
  intros data fast slow signal period. split; [| split].
  - intros H. unfold calculate_macd. cbv zeta.
    destruct (Z_lt_ge_dec fast 1) as [Hf | Hf];
      [rewrite (ewm_mean_rejects fast _ Hf); reflexivity |].
    destruct (ewm_mean_accepts fast (Close data) ltac:(lia)) as [ef [-> _]].
    cbn [bind].
    destruct (Z_lt_ge_dec slow 1) as [Hs | Hs];
      [rewrite (ewm_mean_rejects slow _ Hs); reflexivity |].
    destruct (ewm_mean_accepts slow (Close data) ltac:(lia)) as [es [-> _]].
    cbn [bind].
    rewrite (ewm_mean_rejects signal _ ltac:(lia)). reflexivity.
  - apply calculate_rsi_negative.
  - intros Hf Hs Hg. unfold calculate_macd. cbv zeta.
    destruct (ewm_mean_accepts fast (Close data) Hf) as [ef [-> _]]. cbn [bind].
    destruct (ewm_mean_accepts slow (Close data) Hs) as [es [-> _]]. cbn [bind].
    destruct (ewm_mean_accepts signal (series_sub ef es) Hg) as [sg [-> _]].
    cbn [bind]. eexists. reflexivity.
Qed.

(** C6, witness: a fast span of 0, a period of -1, and the spans 26 and 12
    in the wrong order. *)
Lemma invalid_periods_rejected_witness :
  calculate_macd (mk_DataFrame [0; 1]%Z [Fin 1; Fin 2]) 0 26 9 = Raise ValueError /\
  calculate_rsi (mk_DataFrame [0; 1]%Z [Fin 1; Fin 2]) (-1) = Raise ValueError /\
  exists out, calculate_macd (mk_DataFrame [0; 1]%Z [Fin 1; Fin 2]) 26 12 9 = Ok out.
Proof.
  split; [| split].
  - apply (invalid_periods_rejected (mk_DataFrame [0; 1]%Z [Fin 1; Fin 2]) 0 26 9 0).
    left. lia.
  - apply (invalid_periods_rejected (mk_DataFrame [0; 1]%Z [Fin 1; Fin 2]) 0 26 9 (-1)).
    lia.
  - apply (invalid_periods_rejected (mk_DataFrame [0; 1]%Z [Fin 1; Fin 2]) 26 12 9 0);
      lia.
Defined.

(** C6 as stated fails: with fast = 26 >= slow = 12 the call is not
    rejected; it returns three series. *)
Lemma calculate_macd_accepts_fast_above_slow :
  exists macd_line signal_line histogram : Series,
    calculate_macd (mk_DataFrame [0; 1]%Z [Fin 1; Fin 2]) 26 12 9 =
    Ok (macd_line, signal_line, histogram) /\
    length macd_line = 2%nat /\
    calculate_macd (mk_DataFrame [0; 1]%Z [Fin 1; Fin 2]) 26 12 9 <> Raise ValueError.
Proof.
  eexists. eexists. eexists.
  split; [vm_compute; reflexivity |]. split; [reflexivity | discriminate].
Qed.

(** C8: on an empty [Close] column, with spans of at least 1 and a period
    of at least 0, [calculate_macd] returns three empty series and
    [calculate_rsi] an empty series; on them the detectors return empty
    lists, and so does the combined pass on those lists. *)
Theorem empty_series_empty_outputs :
  forall (data : DataFrame) (fast slow signal period : Z),
    Close data = [] ->
    (1 <= fast)%Z -> (1 <= slow)%Z -> (1 <= signal)%Z -> (0 <= period)%Z ->
    calculate_macd data fast slow signal = Ok ([], [], []) /\
    calculate_rsi data period = Ok [] /\
    detect_macd_signals [] [] = Ok ([], []) /\
    detect_rsi_signals [] = Ok ([], []) /\
    combined_pass data [] [] = Ok [].
Proof.
  intros data fast slow signal period Hclose Hf Hs Hg Hp.
  split; [| split; [| repeat split]].
  - unfold calculate_macd. cbv zeta. rewrite Hclose.
    destruct (ewm_mean_accepts fast [] Hf) as [ef [-> Eef]]. rewrite (Eef eq_refl).
    destruct (ewm_mean_accepts slow [] Hs) as [es [-> Ees]]. rewrite (Ees eq_refl).
    cbn [bind]. change (series_sub [] []) with (@nil pyfloat).
    destruct (ewm_mean_accepts signal [] Hg) as [sg [-> Esg]]. rewrite (Esg eq_refl).
    reflexivity.
  - unfold calculate_rsi, rolling_mean. cbv zeta. rewrite Hclose.
    replace (period <? 0)%Z with false by (symmetry; apply Z.ltb_ge; exact Hp).
    reflexivity.
Qed.

(** C8, witness: the defaults on an empty frame. *)
Lemma empty_series_empty_outputs_witness :
  calculate_macd (mk_DataFrame [] []) default_fast default_slow default_signal
    = Ok ([], [], []) /\
  calculate_rsi (mk_DataFrame [] []) default_period = Ok [] /\
  detect_macd_signals [] [] = Ok ([], []) /\
  detect_rsi_signals [] = Ok ([], []) /\
  combined_pass (mk_DataFrame [] []) [] [] = Ok [].
Proof.
  apply (empty_series_empty_outputs (mk_DataFrame [] [])
           default_fast default_slow default_signal default_period).
  - reflexivity.
  - unfold default_fast. lia.
  - unfold default_slow. lia.
  - unfold default_signal. lia.
  - unfold default_period. lia.
Defined.

End Configuration.

(* ------------------------------------------------------------------ *)
(** ** Instances *)

Section Instances.

(** C9, witness: four rising prices under period 2 give no sell. *)
Lemma monotone_prices_rsi_signals_witness :
  exists (rsi : Series) (buys sells : list nat),
    calculate_rsi (mk_DataFrame [0; 1; 2; 3]%Z [Fin 1; Fin 2; Fin 4; Fin 7]) 2 = Ok rsi /\
    detect_rsi_signals rsi = Ok (buys, sells) /\
    sells = [].
Proof.
  destruct (monotone_prices_rsi_signals
              (mk_DataFrame [0; 1; 2; 3]%Z [Fin 1; Fin 2; Fin 4; Fin 7]) 2 [1; 2; 4; 7]
              eq_refl ltac:(lia))
    as [rsi [buys [sells [Hcalc [Hdet [Hinc _]]]]]].
  exists rsi, buys, sells.
  split; [exact Hcalc |]. split; [exact Hdet |].
  apply Hinc. simpl. repeat split; reflexivity.
Defined.

(** C4, witness: the lines 1, 1, 2, 0, -1 and 2, 1, 1, 1, 0 cross upwards
    at position 2 and downwards at position 3. *)
Lemma detectors_emit_exactly_on_crossings_witness :
  exists macd_buy macd_sell : list nat,
    detect_macd_signals [Fin 1; Fin 1; Fin 2; Fin 0; Fin (-1)]
                        [Fin 2; Fin 1; Fin 1; Fin 1; Fin 0] = Ok (macd_buy, macd_sell) /\
    In 2%nat macd_buy /\ In 3%nat macd_sell /\ ~ In 1%nat macd_buy.
Proof.
  destruct (detectors_emit_exactly_on_crossings
              [Fin 1; Fin 1; Fin 2; Fin 0; Fin (-1)]
              [Fin 2; Fin 1; Fin 1; Fin 1; Fin 0]
              [NaN; Fin 20; Fin 35]
              ltac:(simpl; lia))
    as [mb [ms [rb [rs [Hm [_ [Hb [Hs [_ [_ [Heq _]]]]]]]]]]].
  exists mb, ms. split; [exact Hm |].
  split; [| split].
  - apply Hb. simpl. repeat split; lia.
  - apply Hs. simpl. repeat split; lia.
  - apply (Heq 1%nat). simpl. reflexivity.
Defined.

(** C7, witness: a NaN in the signal line at position 1 silences positions
    1 and 2. *)
Lemma detectors_skip_undefined_witness :
  exists macd_buy macd_sell : list nat,
    detect_macd_signals [Fin 1; Fin 1; Fin 2] [Fin 2; NaN; Fin 1] = Ok (macd_buy, macd_sell) /\
    ~ In 1%nat macd_buy /\ ~ In 2%nat macd_buy /\ ~ In 2%nat macd_sell.
Proof.
  destruct (detectors_skip_undefined
              [Fin 1; Fin 1; Fin 2] [Fin 2; NaN; Fin 1] [NaN; Fin 20; Fin 35]
              eq_refl)
    as [mb [ms [rb [rs [Hm [_ [Hskip _]]]]]]].
  exists mb, ms. split; [exact Hm |].
  split; [| split].
  - apply (Hskip 1%nat). simpl. tauto.
  - apply (Hskip 2%nat). simpl. tauto.
  - apply (Hskip 2%nat). simpl. tauto.
Defined.

End Instances.

(* ------------------------------------------------------------------ *)
(** ** Shape of the detected signals *)

Section WellFormed.

Lemma sorted_snoc (l : list nat) (i : nat) :
  StronglySorted lt l -> (forall x, In x l -> (x < i)%nat) ->
  StronglySorted lt (l ++ [i]).
Proof.
  induction 1 as [| a l Hl IH Ha]; intro Hlt; simpl.
  - constructor; constructor.
  - constructor.
    + apply IH. intros x Hx. apply Hlt. right. exact Hx.
    + rewrite Forall_app. split; [exact Ha |].
      constructor; [apply Hlt; left; reflexivity | constructor].
Qed.

Lemma well_formed_step (i : nat) (s r : signals) :
  (1 <= i)%nat ->
  signals_well_formed i s ->
  r = s \/ r = append_buy i s \/ r = append_sell i s ->
  signals_well_formed (S i) r.
Proof.
  intros Hi [Hrange [Hb [Hs Hdis]]] Hr.
  assert (Hltb : forall x, In x (fst s) -> (x < i)%nat)
    by (intros x Hx; apply (Hrange x); left; exact Hx).
  assert (Hlts : forall x, In x (snd s) -> (x < i)%nat)
    by (intros x Hx; apply (Hrange x); right; exact Hx).
  destruct Hr as [-> | [-> | ->]]; unfold signals_well_formed, append_buy, append_sell;
    cbn [fst snd].
  - split; [| split; [exact Hb | split; [exact Hs | exact Hdis]]].
    intros x Hx. specialize (Hrange x Hx). lia.
  - split; [| split; [apply sorted_snoc; assumption | split; [exact Hs |]]].
    + intros x [Hx | Hx].
      * apply in_app_or in Hx. destruct Hx as [Hx | [<- | []]]; [| lia].
        specialize (Hltb x Hx). specialize (Hrange x (or_introl Hx)). lia.
      * specialize (Hrange x (or_intror Hx)). lia.
    + intros x Hx Hx'. apply in_app_or in Hx. destruct Hx as [Hx | [<- | []]].
      * exact (Hdis x Hx Hx').
      * specialize (Hlts i Hx'). lia.
  - split; [| split; [exact Hb | split; [apply sorted_snoc; assumption |]]].
    + intros x [Hx | Hx].
      * specialize (Hrange x (or_introl Hx)). lia.
      * apply in_app_or in Hx. destruct Hx as [Hx | [<- | []]]; [| lia].
        specialize (Hrange x (or_intror Hx)). lia.
    + intros x Hx Hx'. apply in_app_or in Hx'. destruct Hx' as [Hx' | [<- | []]].
      * exact (Hdis x Hx Hx').
      * specialize (Hltb i Hx). lia.
Qed.

Lemma for_range_well_formed (body : nat -> signals -> result signals) :
  (forall i s r, body i s = Ok r ->
                 r = s \/ r = append_buy i s \/ r = append_sell i s) ->
  forall (n start : nat) (s s' : signals),
    (1 <= start)%nat ->
    signals_well_formed start s ->
    for_range body start n s = Ok s' ->
    signals_well_formed (start + n) s'.
Proof.
  intros Hbody. induction n as [| n IH]; intros start s s' Hstart Hwf Hrun.
  - simpl in Hrun. injection Hrun as <-. rewrite Nat.add_0_r. exact Hwf.
  - simpl in Hrun. destruct (body start s) as [r |] eqn:Er; [| discriminate].
    cbn [bind] in Hrun.
    replace (start + S n)%nat with (S start + n)%nat by lia.
    apply (IH (S start) r s'); [lia | | exact Hrun].
    apply (well_formed_step start s r Hstart Hwf). apply (Hbody start s r Er).
Qed.

Lemma macd_body_shape (macd_line signal_line : Series) (i : nat) (s r : signals) :
  macd_body macd_line signal_line i s = Ok r ->
  r = s \/ r = append_buy i s \/ r = append_sell i s.
Proof.
  unfold macd_body, and_then, cmp_at.
  destruct (iloc macd_line (i - 1)) as [a |]; cbn [bind]; [| discriminate].
  destruct (iloc signal_line (i - 1)) as [b |]; cbn [bind]; [| discriminate].
  destruct (iloc macd_line i) as [c |]; cbn [bind];
    destruct (iloc signal_line i) as [d |]; cbn [bind];
    destruct (fle a b); cbn [bind]; try discriminate;
    try (destruct (fgt c d); cbn [bind]);
    try (intro H; injection H as <-; tauto);
    destruct (fge a b); cbn [bind]; try discriminate;
    try (destruct (flt c d); cbn [bind]);
    intro H; injection H as <-; tauto.
Qed.

Lemma rsi_body_shape (rsi_data : Series) (i : nat) (s r : signals) :
  rsi_body rsi_data i s = Ok r ->
  r = s \/ r = append_buy i s \/ r = append_sell i s.
Proof.
  unfold rsi_body, and_then, cmp_scalar_at, notna_at.
  destruct (iloc rsi_data (i - 1)) as [a |]; cbn [bind]; [| discriminate].
  destruct (iloc rsi_data i) as [c |]; cbn [bind];
    destruct (notna a); cbn [bind]; try discriminate;
    try (destruct (notna c); cbn [bind]);
    try (intro H; injection H as <-; tauto);
    destruct (fle a (Fin 30)); cbn [bind];
    try (destruct (fgt c (Fin 30)); cbn [bind]);
    try (intro H; injection H as <-; tauto);
    destruct (fge a (Fin 70)); cbn [bind];
    try (destruct (flt c (Fin 70)); cbn [bind]);
    intro H; injection H as <-; tauto.
Qed.

Lemma well_formed_empty : signals_well_formed 1 ([], []).
Proof.
  split; [| split; [| split]]; simpl.
  - intros i [[] | []].
  - constructor.
  - constructor.
  - intros i [].
Qed.

(** X1: whenever a detector returns, its two lists hold positions between
    1 and the last position of the series, each list is strictly
    increasing, and no position is in both: a position gives at most one
    signal. *)
Theorem detected_signals_well_formed :
  forall (macd_line signal_line rsi_data : Series) (macd_sigs rsi_sigs : signals),
    detect_macd_signals macd_line signal_line = Ok macd_sigs ->
    detect_rsi_signals rsi_data = Ok rsi_sigs ->
    signals_well_formed (length macd_line) macd_sigs /\
    signals_well_formed (length rsi_data) rsi_sigs.
Proof.
  intros macd_line signal_line rsi_data macd_sigs rsi_sigs Hm Hr.
  assert (Hgen : forall body len s,
             (forall i s r, body i s = Ok r ->
                            r = s \/ r = append_buy i s \/ r = append_sell i s) ->
             for_range body 1 (len - 1) ([], []) = Ok s ->
             signals_well_formed len s).
  { intros body len s Hbody Hrun.
    pose proof (for_range_well_formed body Hbody (len - 1) 1 ([], []) s
                  (le_n 1) well_formed_empty Hrun) as Hwf.
    destruct len as [| len].
    - simpl in Hrun. injection Hrun as <-.
      split; [| split; [| split]]; simpl.
      + intros i [[] | []].
      + constructor.
      + constructor.
      + intros i [].
    - replace (1 + (S len - 1))%nat with (S len) in Hwf by lia. exact Hwf. }
  split.
  - apply (Hgen (macd_body macd_line signal_line)); [| exact Hm].
    apply macd_body_shape.
  - apply (Hgen (rsi_body rsi_data)); [| exact Hr].
    apply rsi_body_shape.
Qed.

End WellFormed.

(* ------------------------------------------------------------------ *)
(** ** A signal line shorter than the MACD line *)

Section ShortSignalLine.

Lemma iloc_outside (s : Series) (i : nat) :
  (length s <= i)%nat -> iloc s i = Raise IndexError.
Proof.
  intro H. unfold iloc. apply nth_error_None in H. rewrite H. reflexivity.
Qed.

Lemma fle_or_fge (a b : pyfloat) : fle a b || fge a b = notna a && notna b.
Proof.
  unfold fge. destruct a as [x| | |], b as [y| | |]; simpl; try reflexivity.
  destruct (Qle_bool x y) eqn:E; [reflexivity |]. simpl.
  apply Qle_bool_iff. destruct (Qlt_le_dec y x) as [H | H]; [lra |].
  apply Qle_bool_iff in H. congruence.
Qed.

Lemma macd_body_local (macd_line signal_line : Series) (i : nat) (s : signals) :
  (1 <= i < length macd_line)%nat -> (i < length signal_line)%nat ->
  macd_body macd_line signal_line i s =
  Ok (if macd_up macd_line signal_line i then append_buy i s
      else if macd_down macd_line signal_line i then append_sell i s else s).
Proof.
  intros Hi Hs. unfold macd_body, cmp_at, and_then, macd_up, macd_down.
  rewrite !iloc_in_range by lia. cbn [bind].
  destruct (fle (value_at macd_line (i - 1)) (value_at signal_line (i - 1)));
    cbn [bind andb];
    [destruct (fgt (value_at macd_line i) (value_at signal_line i)); cbn [bind];
       [reflexivity |] |];
    (destruct (fge (value_at macd_line (i - 1)) (value_at signal_line (i - 1)));
       cbn [bind andb];
       [destruct (flt (value_at macd_line i) (value_at signal_line i)); reflexivity
       | reflexivity]).
Qed.

(** The turn that reads the position just past the signal line. *)
Lemma macd_body_at_end (macd_line signal_line : Series) (s : signals) :
  (1 <= length signal_line)%nat ->
  (length signal_line < length macd_line)%nat ->
  macd_body macd_line signal_line (length signal_line) s =
  if notna (value_at macd_line (length signal_line - 1))
     && notna (value_at signal_line (length signal_line - 1))
  then Raise IndexError else Ok s.
Proof.
  intros H1 H2. unfold macd_body, cmp_at, and_then.
  rewrite (iloc_in_range macd_line (length signal_line - 1)) by lia.
  rewrite (iloc_in_range signal_line (length signal_line - 1)) by lia.
  rewrite (iloc_in_range macd_line (length signal_line)) by lia.
  rewrite (iloc_outside signal_line (length signal_line)) by lia.
  cbn [bind]. rewrite <- fle_or_fge.
  destruct (fle (value_at macd_line (length signal_line - 1))
                (value_at signal_line (length signal_line - 1))); cbn [bind orb];
    [reflexivity |].
  destruct (fge (value_at macd_line (length signal_line - 1))
                (value_at signal_line (length signal_line - 1))); reflexivity.
Qed.

Lemma macd_body_past_end (macd_line signal_line : Series) (i : nat) (s : signals) :
  (length signal_line < i)%nat -> (i <= length macd_line)%nat ->
  macd_body macd_line signal_line i s = Raise IndexError.
Proof.
  intros H1 H2. unfold macd_body, cmp_at, and_then.
  rewrite (iloc_in_range macd_line (i - 1)) by lia.
  rewrite (iloc_outside signal_line (i - 1)) by lia. reflexivity.
Qed.

Lemma macd_body_raises_index_error (macd_line signal_line : Series) (i : nat)
      (s : signals) (e : exn) :
  macd_body macd_line signal_line i s = Raise e -> e = IndexError.
Proof.
  unfold macd_body, and_then, cmp_at, iloc.
  repeat match goal with
         | |- context [nth_error ?l ?k] => destruct (nth_error l k); cbn [bind]
         | |- context [if ?c then _ else _] => destruct c; cbn [bind]
         end;
    intro H; try discriminate; injection H as <-; reflexivity.
Qed.

Lemma for_range_snoc {St : Type} (body : nat -> St -> result St) (n start : nat) (s : St) :
  for_range body start (n + 1)%nat s =
  bind (for_range body start n s) (body (start + n)%nat).
Proof.
  revert start s. induction n as [| n IH]; intros start s; simpl.
  - rewrite Nat.add_0_r. destruct (body start s); reflexivity.
  - destruct (body start s) as [s1 |]; cbn [bind]; [| reflexivity].
    rewrite IH. replace (S start + n)%nat with (start + S n)%nat by lia.
    reflexivity.
Qed.

Lemma for_range_raises {St : Type} (body : nat -> St -> result St) (e : exn) (j : nat) :
  (forall i s e', body i s = Raise e' -> e' = e) ->
  (forall s, body j s = Raise e) ->
  forall (n start : nat) (s : St),
    (start <= j < start + n)%nat ->
    for_range body start n s = Raise e.
Proof.
  intros Honly Hj. induction n as [| n IH]; intros start s Hrange; [lia |].
  simpl. destruct (Nat.eq_dec start j) as [-> | Hne].
  - rewrite Hj. reflexivity.
  - destruct (body start s) as [s1 | e'] eqn:E; cbn [bind].
    + apply IH. lia.
    + rewrite (Honly start s e' E). reflexivity.
Qed.

(** X2: [detect_macd_signals] raises IndexError exactly when the signal
    line is at least two values shorter than the MACD line, or one value
    shorter with both lines defined (not NaN) at the last position of the
    signal line; in every other case it returns. *)
Theorem detect_macd_signals_index_error :
  forall (macd_line signal_line : Series),
    (signal_line_too_short macd_line signal_line = true ->
       detect_macd_signals macd_line signal_line = Raise IndexError) /\
    (signal_line_too_short macd_line signal_line = false ->
       exists s, detect_macd_signals macd_line signal_line = Ok s).
Proof.
  intros macd_line signal_line. unfold signal_line_too_short, detect_macd_signals.
  destruct (Nat.le_gt_cases (length macd_line) (length signal_line)) as [Hle | Hgt].
  - (* aligned: never raises *)
    replace (length signal_line + 2 <=? length macd_line)%nat with false
      by (symmetry; apply Nat.leb_gt; lia).
    replace (length macd_line =? length signal_line + 1)%nat with false
      by (symmetry; apply Nat.eqb_neq; lia).
    cbn [orb andb]. split; [discriminate |]. intros _.
    eexists. apply (detect_macd_signals_filter macd_line signal_line Hle).
  - destruct (Nat.le_gt_cases (length signal_line + 2) (length macd_line)) as [H2 | H1].
    + (* two or more short: the turn after the end raises *)
      replace (length signal_line + 2 <=? length macd_line)%nat with true
        by (symmetry; apply Nat.leb_le; lia).
      cbn [orb]. split; [intros _ | discriminate].
      apply (for_range_raises (macd_body macd_line signal_line) IndexError
               (length signal_line + 1)%nat).
      * intros i s e'. apply macd_body_raises_index_error.
      * intro s. apply macd_body_past_end; lia.
      * lia.
    + (* exactly one short *)
      assert (Hlen : length macd_line = (length signal_line + 1)%nat) by lia.
      replace (length signal_line + 2 <=? length macd_line)%nat with false
        by (symmetry; apply Nat.leb_gt; lia).
      replace (length macd_line =? length signal_line + 1)%nat with true
        by (symmetry; apply Nat.eqb_eq; lia).
      cbn [orb andb].
      destruct (length signal_line) as [| k] eqn:Ek.
      * rewrite Hlen. cbn. split; [discriminate |]. intros _. eexists. reflexivity.
      * replace (1 <=? S k)%nat with true by reflexivity. cbn [andb].
        replace (length macd_line - 1)%nat with (k + 1)%nat by lia.
        rewrite for_range_snoc.
        rewrite (for_range_scan (macd_body macd_line signal_line)
                   (macd_up macd_line signal_line) (macd_down macd_line signal_line))
          by (intros i s' Hi; apply macd_body_local; lia).
        cbn [bind]. replace (1 + k)%nat with (length signal_line) by lia.
        rewrite macd_body_at_end by lia. rewrite Ek.
        destruct (notna (value_at macd_line (S k - 1))
                  && notna (value_at signal_line (S k - 1))).
        -- split; [reflexivity | discriminate].
        -- split; [discriminate |]. intros _. eexists. reflexivity.
Qed.

End ShortSignalLine.

(* ------------------------------------------------------------------ *)
(** ** Alignment and constant prices *)

Section Alignment.

Lemma length_ewm_loop (alpha : Q) (minp : nat) (vals : Series) :
  forall st, length (ewm_loop alpha minp st vals) = length vals.
Proof.
  induction vals as [| v vals IH]; intro st; simpl; [reflexivity |].
  f_equal. apply IH.
Qed.

Lemma length_ewm_kernel (alpha : Q) (minp : nat) (vals : Series) :
  length (ewm_kernel alpha minp vals) = length vals.
Proof.
  destruct vals as [| v vals]; simpl; [reflexivity |].
  f_equal. apply length_ewm_loop.
Qed.

Lemma length_ewm_mean (span : Z) (vals out : Series) :
  ewm_mean span vals = Ok out -> length out = length vals.
Proof.
  unfold ewm_mean. destruct (get_center_of_mass span) as [com |]; cbn [bind];
    [| discriminate].
  intro H. injection H as <-. rewrite length_ewm_kernel. apply length_prep_values.
Qed.

Lemma length_series_map2 (f : pyfloat -> pyfloat -> pyfloat) (a b : Series) :
  length (series_map2 f a b) = Nat.min (length a) (length b).
Proof. unfold series_map2. rewrite length_map, length_combine. reflexivity. Qed.

Lemma length_rolling_mean (window : Z) (a out : Series) :
  rolling_mean window a = Ok out -> length out = length a.
Proof.
  unfold rolling_mean. destruct (window <? 0)%Z; [discriminate |].
  intro H. injection H as <-. rewrite length_map, length_seq. reflexivity.
Qed.

(** X3: whatever the values of the [Close] column (NaN and infinities
    included), when [calculate_macd] and [calculate_rsi] return, the four
    series have the length of the column. *)
Theorem indicators_aligned_with_input :
  forall (data : DataFrame) (fast slow signal period : Z)
         (macd_line signal_line histogram rsi : Series),
    calculate_macd data fast slow signal = Ok (macd_line, signal_line, histogram) ->
    calculate_rsi data period = Ok rsi ->
    length macd_line = length (Close data) /\
    length signal_line = length (Close data) /\
    length histogram = length (Close data) /\
    length rsi = length (Close data).
Proof.
  intros data fast slow signal period macd_line signal_line histogram rsi Hm Hr.
  unfold calculate_macd in Hm. cbv zeta in Hm.
  destruct (ewm_mean fast (Close data)) as [ef |] eqn:Ef; cbn [bind] in Hm;
    [| discriminate].
  destruct (ewm_mean slow (Close data)) as [es |] eqn:Es; cbn [bind] in Hm;
    [| discriminate].
  destruct (ewm_mean signal (series_sub ef es)) as [sg |] eqn:Eg; cbn [bind] in Hm;
    [| discriminate].
  injection Hm as <- <- <-.
  apply length_ewm_mean in Ef, Es, Eg.
  unfold series_sub in *. rewrite !length_series_map2 in *.
  unfold calculate_rsi in Hr. cbv zeta in Hr.
  destruct (rolling_mean period (gain_of (Close data))) as [ag |] eqn:Eag;
    cbn [bind] in Hr; [| discriminate].
  destruct (rolling_mean period (loss_of (Close data))) as [al |] eqn:Eal;
    cbn [bind] in Hr; [| discriminate].
  injection Hr as <-.
  apply length_rolling_mean in Eag, Eal.
  rewrite length_gain_of in Eag. rewrite length_loss_of in Eal.
  rewrite length_map. unfold series_div. rewrite length_series_map2.
  repeat split; lia.
Qed.

End Alignment.

Section FlatPrices.

Lemma ewm_loop_constant (alpha : Q) (c w : Q) (n : nat) (rest : list Q) :
  (1 <= n)%nat ->
  Forall (fun p => p == c) rest ->
  forall w n, (1 <= n)%nat ->
  ewm_loop alpha 1 (mk_ewm_state (Fin c) w n) (map Fin rest)
  = repeat (Fin c) (length rest).
Proof.
  intros _ Hall. induction Hall as [| p rest Hp Hrest IH]; intros w' n' Hn; simpl;
    [reflexivity |].
  unfold ewm_step. cbn [weighted old_wt nobs notna fne].
  assert (E : Qeq_bool c p = true) by (apply Qeq_eq_bool; symmetry; exact Hp).
  rewrite E. cbn [negb].
  unfold ewm_output at 1. cbn [nobs weighted].
  replace (1 <=? n' + 1)%nat with true by (symmetry; apply Nat.leb_le; lia).
  f_equal. apply IH. lia.
Qed.

Lemma ewm_mean_constant (span : Z) (c : Q) (rest : list Q) :
  (1 <= span)%Z ->
  Forall (fun p => p == c) rest ->
  ewm_mean span (map Fin (c :: rest)) = Ok (repeat (Fin c) (S (length rest))).
Proof.
  intros Hspan Hall. unfold ewm_mean.
  destruct (span_alpha span Hspan) as [-> _]. rewrite prep_values_finite.
  cbn [bind map ewm_kernel notna].
  unfold ewm_output at 1. cbn [nobs weighted Nat.leb].
  rewrite (ewm_loop_constant _ c 1 1 rest (le_n 1) Hall 1 1%nat (le_n 1)).
  reflexivity.
Qed.

Lemma series_sub_repeat (a b : Q) (n : nat) :
  series_sub (repeat (Fin a) n) (repeat (Fin b) n) = repeat (Fin (a - b)) n.
Proof.
  unfold series_sub, series_map2. induction n as [| n IH]; simpl; [reflexivity |].
  f_equal. exact IH.
Qed.

Lemma map_Fin_repeat (c : Q) (n : nat) : repeat (Fin c) n = map Fin (repeat c n).
Proof. induction n as [| n IH]; simpl; [reflexivity |]. f_equal. exact IH. Qed.

Lemma Forall_repeat_eq (c : Q) (n : nat) : Forall (fun p => p == c) (repeat c n).
Proof. induction n; simpl; constructor; [reflexivity | assumption]. Qed.

Lemma value_at_repeat (v : pyfloat) (n i : nat) :
  (i < n)%nat -> value_at (repeat v n) i = v.
Proof.
  unfold value_at. revert i. induction n as [| n IH]; intros [| i] H; simpl;
    try lia; [reflexivity |]. apply IH. lia.
Qed.

Lemma value_at_repeat_or_nan (v : pyfloat) (n i : nat) :
  value_at (repeat v n) i = v \/ value_at (repeat v n) i = NaN.
Proof.
  destruct (Nat.lt_ge_cases i n) as [H | H].
  - left. apply value_at_repeat. exact H.
  - right. apply value_at_outside. rewrite repeat_length. exact H.
Qed.

Lemma ewm_mean_repeat (span : Z) (c : Q) (n : nat) :
  (1 <= span)%Z ->
  ewm_mean span (repeat (Fin c) n) = Ok (repeat (Fin c) n).
Proof.
  intro Hspan. destruct n as [| k].
  - unfold ewm_mean. destruct (span_alpha span Hspan) as [-> _]. reflexivity.
  - pose proof (ewm_mean_constant span c (repeat c k) Hspan (Forall_repeat_eq c k)) as H.
    rewrite repeat_length in H. cbn [map] in H.
    rewrite <- map_Fin_repeat in H. exact H.
Qed.

Lemma calculate_macd_flat (data : DataFrame) (fast slow signal : Z) (c : Q) (rest : list Q) :
  Close data = map Fin (c :: rest) ->
  Forall (fun p => p == c) rest ->
  (1 <= fast)%Z -> (1 <= slow)%Z -> (1 <= signal)%Z ->
  calculate_macd data fast slow signal =
  Ok (repeat (Fin (c - c)) (S (length rest)),
      repeat (Fin (c - c)) (S (length rest)),
      repeat (Fin (c - c - (c - c))) (S (length rest))).
Proof.
  intros Hclose Hall Hf Hs Hg.
  unfold calculate_macd. cbv zeta. rewrite Hclose.
  rewrite !(ewm_mean_constant _ c rest) by assumption. cbn [bind].
  rewrite series_sub_repeat.
  rewrite (ewm_mean_repeat signal (c - c) (S (length rest)) Hg). cbn [bind].
  rewrite series_sub_repeat. reflexivity.
Qed.

Lemma flat_macd_no_signals (q : Q) (n : nat) :
  q == 0 ->
  detect_macd_signals (repeat (Fin q) n) (repeat (Fin q) n) = Ok ([], []).
Proof.
  intro Hq. rewrite detect_macd_signals_filter by lia.
  assert (Hup : forall i, macd_up (repeat (Fin q) n) (repeat (Fin q) n) i = false).
  { intro i. unfold macd_up, fgt.
    destruct (value_at_repeat_or_nan (Fin q) n i) as [-> | ->].
    - simpl. rewrite Qlt_bool_false by lra. apply andb_false_r.
    - rewrite flt_nan_l. apply andb_false_r. }
  assert (Hdown : forall i, macd_down (repeat (Fin q) n) (repeat (Fin q) n) i = false).
  { intro i. unfold macd_down.
    destruct (value_at_repeat_or_nan (Fin q) n i) as [-> | ->].
    - simpl. rewrite Qlt_bool_false by lra. apply andb_false_r.
    - rewrite flt_nan_l. apply andb_false_r. }
  rewrite (filter_none _ _ Hup).
  rewrite (filter_none (fun i => negb _ && _)); [reflexivity |].
  intro i. rewrite Hdown. apply andb_false_r.
Qed.

(** X4: on constant finite prices and spans of at least 1 the MACD line,
    the signal line and the histogram are 0 at every position, and
    [detect_macd_signals] finds no signal. *)
Theorem flat_prices_macd_is_zero :
  forall (data : DataFrame) (fast slow signal : Z) (c : Q) (rest : list Q),
    Close data = map Fin (c :: rest) ->
    Forall (fun p => p == c) rest ->
    (1 <= fast)%Z -> (1 <= slow)%Z -> (1 <= signal)%Z ->
    exists macd_line signal_line histogram : Series,
      calculate_macd data fast slow signal = Ok (macd_line, signal_line, histogram) /\
      Forall is_zero macd_line /\
      Forall is_zero signal_line /\
      Forall is_zero histogram /\
      detect_macd_signals macd_line signal_line = Ok ([], []).
Proof.
  intros data fast slow signal c rest Hclose Hall Hf Hs Hg.
  do 3 eexists.
  split; [apply (calculate_macd_flat data fast slow signal c rest); assumption |].
  assert (Hz : forall q, q == 0 -> Forall is_zero (repeat (Fin q) (S (length rest)))).
  { intros q Hq. apply Forall_forall. intros x Hx. apply repeat_spec in Hx.
    subst x. exists q. split; [reflexivity | exact Hq]. }
  split; [apply Hz; ring |]. split; [apply Hz; ring |]. split; [apply Hz; ring |].
  apply flat_macd_no_signals. ring.
Qed.

End FlatPrices.

(* ------------------------------------------------------------------ *)
(** ** Values of the RSI *)

Section RSIValues.

Lemma all_nan_no_signals (rsi : Series) :
  (forall i, value_at rsi i = NaN) -> detect_rsi_signals rsi = Ok ([], []).
Proof.
  intro H. rewrite detect_rsi_signals_filter.
  assert (Hup : forall i, rsi_up rsi i = false)
    by (intro i; apply (rsi_nan_false rsi i); right; apply H).
  assert (Hdown : forall i, rsi_down rsi i = false)
    by (intro i; apply (rsi_nan_false rsi i); right; apply H).
  rewrite (filter_none _ _ Hup).
  rewrite (filter_none (fun i => negb _ && _)); [reflexivity |].
  intro i. rewrite Hdown. apply andb_false_r.
Qed.

(** X7: a series shorter than the period (whatever its values) gives an
    RSI that is NaN at every position, and no RSI signal; nothing is
    raised. *)
Theorem short_series_rsi_undefined :
  forall (data : DataFrame) (period : Z),
    (Z.of_nat (length (Close data)) < period)%Z ->
    exists rsi : Series,
      calculate_rsi data period = Ok rsi /\
      length rsi = length (Close data) /\
      (forall i, value_at rsi i = NaN) /\
      detect_rsi_signals rsi = Ok ([], []).
Proof.
  intros data period Hshort.
  destruct (calculate_rsi_values data period ltac:(lia)) as [rsi [Hcalc [Hlen Hval]]].
  assert (Hnan : forall i, value_at rsi i = NaN).
  { intro i. destruct (Nat.lt_ge_cases i (length (Close data))) as [Hin | Hout].
    - rewrite (Hval i Hin). rewrite avg_at_warm_up by lia. reflexivity.
    - apply value_at_outside. lia. }
  exists rsi. split; [exact Hcalc |]. split; [exact Hlen |].
  split; [exact Hnan |]. apply all_nan_no_signals. exact Hnan.
Qed.

Lemma diff_from_flat (c prev : Q) (rest : list Q) :
  prev == c -> Forall (fun p => p == c) rest ->
  Forall (fun d => exists q, d = Fin q /\ q == 0) (diff_from (Fin prev) (map Fin rest)).
Proof.
  intros Hprev Hall. revert prev Hprev.
  induction Hall as [| p rest Hp Hrest IH]; intros prev Hprev; simpl; constructor.
  - eexists. split; [reflexivity |]. rewrite Hp, Hprev. ring.
  - apply IH. exact Hp.
Qed.

Lemma flat_gain_loss (c : Q) (rest : list Q) :
  Forall (fun p => p == c) rest ->
  Forall is_zero (gain_of (map Fin (c :: rest))) /\
  Forall is_zero (loss_of (map Fin (c :: rest))).
Proof.
  intro Hall. rewrite gain_of_pointwise, loss_of_pointwise. cbn [map diff].
  pose proof (diff_from_flat c c rest (Qeq_refl c) Hall) as Hd.
  split; constructor.
  - eexists. split; [reflexivity | reflexivity].
  - apply Forall_map. eapply Forall_impl; [| exact Hd].
    intros d [q [-> Hq]]. unfold gain_value, fgt. simpl.
    rewrite Qlt_bool_false by lra. eexists. split; [reflexivity | reflexivity].
  - eexists. split; [reflexivity | ring].
  - apply Forall_map. eapply Forall_impl; [| exact Hd].
    intros d [q [-> Hq]]. unfold loss_value. simpl.
    rewrite Qlt_bool_false by lra. eexists. split; [reflexivity | ring].
Qed.

Lemma rsi_zero_gain_zero_loss (g l : pyfloat) :
  zero_or_nan g -> zero_or_nan l -> rsi_of_rs (fdiv g l) = NaN.
Proof.
  intros [-> | [a [-> Ha]]] [-> | [b [-> Hb]]]; try reflexivity.
  simpl. rewrite (Qeq_eq_bool _ _ Ha), (Qeq_eq_bool _ _ Hb). reflexivity.
Qed.

Lemma flat_rsi_all_nan (data : DataFrame) (period : Z) (c : Q) (rest : list Q) (rsi : Series) :
  Close data = map Fin (c :: rest) ->
  Forall (fun p => p == c) rest ->
  calculate_rsi data period = Ok rsi ->
  forall i, value_at rsi i = NaN.
Proof.
  intros Hclose Hall Hcalc.
  destruct (Z_lt_ge_dec period 0) as [Hneg | Hp];
    [rewrite (calculate_rsi_negative data period Hneg) in Hcalc; discriminate |].
  destruct (calculate_rsi_values data period ltac:(lia)) as [rsi' [Hcalc' [Hlen Hval]]].
  rewrite Hcalc in Hcalc'. injection Hcalc' as <-.
  destruct (flat_gain_loss c rest Hall) as [Hg Hl].
  intro i. destruct (Nat.lt_ge_cases i (length (Close data))) as [Hin | Hout].
  - rewrite (Hval i Hin). rewrite Hclose.
    apply rsi_zero_gain_zero_loss; apply avg_at_zero; assumption.
  - apply value_at_outside. lia.
Qed.

(** X5: on constant finite prices the RSI is NaN at every position, for
    every period of at least 0, and [detect_rsi_signals] finds no signal. *)
Theorem flat_prices_rsi_undefined :
  forall (data : DataFrame) (period : Z) (c : Q) (rest : list Q),
    Close data = map Fin (c :: rest) ->
    Forall (fun p => p == c) rest ->
    (0 <= period)%Z ->
    exists rsi : Series,
      calculate_rsi data period = Ok rsi /\
      (forall i, value_at rsi i = NaN) /\
      detect_rsi_signals rsi = Ok ([], []).
Proof.
  intros data period c rest Hclose Hall Hp.
  destruct (calculate_rsi_values data period Hp) as [rsi [Hcalc _]].
  pose proof (flat_rsi_all_nan data period c rest rsi Hclose Hall Hcalc) as Hnan.
  exists rsi. split; [exact Hcalc |]. split; [exact Hnan |].
  apply all_nan_no_signals. exact Hnan.
Qed.

Lemma diff_from_finite (prev : Q) (rest : list Q) :
  Forall (fun d => exists q, d = Fin q) (diff_from (Fin prev) (map Fin rest)).
Proof.
  revert prev. induction rest as [| x rest IH]; intro prev; simpl; constructor.
  - eexists. reflexivity.
  - apply IH.
Qed.

Lemma gain_loss_nonneg (prices : list Q) :
  Forall finite_nonneg (gain_of (map Fin prices)) /\
  Forall finite_nonneg (loss_of (map Fin prices)).
Proof.
  rewrite gain_of_pointwise, loss_of_pointwise.
  destruct prices as [| p rest]; cbn [map diff]; [split; constructor |].
  pose proof (diff_from_finite p rest) as Hd.
  split; constructor.
  - exists 0. split; [reflexivity | lra].
  - apply Forall_map. eapply Forall_impl; [| exact Hd].
    intros d [q ->]. unfold gain_value, fgt. simpl.
    destruct (Qlt_bool 0 q) eqn:E.
    + apply Qlt_bool_iff in E. exists q. split; [reflexivity | lra].
    + exists 0. split; [reflexivity | lra].
  - exists (- 0). split; [reflexivity | lra].
  - apply Forall_map. eapply Forall_impl; [| exact Hd].
    intros d [q ->]. unfold loss_value. simpl.
    destruct (Qlt_bool q 0) eqn:E.
    + apply Qlt_bool_iff in E. exists (- q). split; [reflexivity | lra].
    + exists (- 0). split; [reflexivity | lra].
Qed.

Lemma finite_values_all (w : Series) :
  Forall finite_nonneg w ->
  length (finite_values w) = length w /\ 0 <= Qsum (finite_values w).
Proof.
  unfold finite_values, Qsum.
  induction 1 as [| x w [q [-> Hq]] Hw [IH1 IH2]]; simpl; [split; [reflexivity | lra] |].
  split; [lia | lra].
Qed.

Lemma length_window_full (window : nat) (a : Series) (i : nat) :
  (window <= i + 1)%nat -> (i < length a)%nat ->
  length (window_at window a i) = window.
Proof.
  intros H1 H2. unfold window_at. rewrite length_firstn, length_skipn. lia.
Qed.

(** From position [period - 1] on, the rolling mean of a series of finite
    non-negative values is a finite non-negative value. *)
Lemma avg_at_defined (period : Z) (a : Series) (i : nat) :
  Forall finite_nonneg a ->
  (1 <= period)%Z -> (period - 1 <= Z.of_nat i)%Z -> (i < length a)%nat ->
  exists g, avg_at period a i = Fin g /\ 0 <= g.
Proof.
  intros Ha Hp Hi Hlen. unfold avg_at, window_mean.
  set (w := window_at (Z.to_nat period) a i).
  assert (Hw : Forall finite_nonneg w)
    by (apply Forall_firstn_keeps, Forall_skipn_keeps; exact Ha).
  destruct (finite_values_all w Hw) as [Hn Hsum].
  assert (Hwl : length w = Z.to_nat period)
    by (apply length_window_full; lia).
  rewrite Hn, Hwl.
  replace (Z.to_nat period <=? Z.to_nat period)%nat with true
    by (symmetry; apply Nat.leb_refl).
  replace (0 <? Z.to_nat period)%nat with true
    by (symmetry; apply Nat.ltb_lt; lia).
  cbn [andb]. eexists. split; [reflexivity |].
  apply Qle_shift_div_l.
  - change 0 with (inject_Z 0). rewrite <- Zlt_Qlt. lia.
  - lra.
Qed.

Lemma rsi_of_averages (g l : Q) :
  0 <= g -> 0 <= l ->
  (g == 0 /\ l == 0 -> rsi_of_rs (fdiv (Fin g) (Fin l)) = NaN) /\
  (0 < g + l ->
     exists q, rsi_of_rs (fdiv (Fin g) (Fin l)) = Fin q /\
               q == 100 * g / (g + l)).
Proof.
  intros Hg Hl. split.
  - intros [Hg0 Hl0]. simpl.
    rewrite (Qeq_eq_bool _ _ Hg0), (Qeq_eq_bool _ _ Hl0). reflexivity.
  - intro Hpos. simpl. destruct (Qeq_bool l 0) eqn:El.
    + apply Qeq_bool_iff in El.
      destruct (Qeq_bool g 0) eqn:Eg; [apply Qeq_bool_iff in Eg; lra |].
      unfold inf_of_sign. rewrite Qlt_bool_false by lra.
      eexists. split; [reflexivity |]. rewrite El. field. lra.
    + apply Qeq_bool_neq in El. unfold rsi_of_rs. simpl.
      assert (Hr : 0 <= g / l) by (apply Qle_shift_div_l; lra).
      destruct (Qeq_bool (1 + g / l) 0) eqn:E1;
        [apply Qeq_bool_iff in E1; lra |].
      eexists. split; [reflexivity |]. field. split; lra.
Qed.

(** The RSI from the two averages, at one position. *)
Lemma rsi_value_closed_form :
  forall (data : DataFrame) (period : Z) (prices : list Q) (i : nat),
    Close data = map Fin prices ->
    (1 <= period)%Z ->
    (period - 1 <= Z.of_nat i)%Z ->
    (i < length prices)%nat ->
    exists (rsi : Series) (g l : Q),
      calculate_rsi data period = Ok rsi /\
      avg_at period (gain_of (Close data)) i = Fin g /\
      avg_at period (loss_of (Close data)) i = Fin l /\
      0 <= g /\ 0 <= l /\
      (g == 0 /\ l == 0 -> value_at rsi i = NaN) /\
      (0 < g + l ->
         exists q, value_at rsi i = Fin q /\ q == 100 * g / (g + l)).
Proof.
  intros data period prices i Hclose Hp Hi Hlen.
  destruct (calculate_rsi_values data period ltac:(lia)) as [rsi [Hcalc [_ Hval]]].
  rewrite Hclose in *. rewrite length_map in Hval.
  destruct (gain_loss_nonneg prices) as [Hgain Hloss].
  destruct (avg_at_defined period _ i Hgain Hp Hi
              ltac:(rewrite length_gain_of, length_map; exact Hlen)) as [g [Eg Hg]].
  destruct (avg_at_defined period _ i Hloss Hp Hi
              ltac:(rewrite length_loss_of, length_map; exact Hlen)) as [l [El Hl]].
  exists rsi, g, l.
  split; [exact Hcalc |]. split; [exact Eg |]. split; [exact El |].
  split; [exact Hg |]. split; [exact Hl |].
  rewrite (Hval i Hlen), Eg, El. apply rsi_of_averages; assumption.
Qed.

(** X6: on finite prices, at every position from [period - 1] on, both
    rolling averages are finite and not negative, and the RSI is
    100 * avg_gain / (avg_gain + avg_loss) unless both averages are 0, in
    which case it is NaN. *)
Theorem rsi_closed_form :
  forall (data : DataFrame) (period : Z) (prices : list Q) (i : nat),
    Close data = map Fin prices ->
    (1 <= period)%Z ->
    (period - 1 <= Z.of_nat i)%Z ->
    (i < length prices)%nat ->
    exists (rsi : Series) (g l : Q),
      calculate_rsi data period = Ok rsi /\
      avg_at period (gain_of (Close data)) i = Fin g /\
      avg_at period (loss_of (Close data)) i = Fin l /\
      0 <= g /\ 0 <= l /\
      (g == 0 /\ l == 0 -> value_at rsi i = NaN) /\
      (0 < g + l ->
         exists q, value_at rsi i = Fin q /\ q == 100 * g / (g + l)).
Proof. exact rsi_value_closed_form. Qed.

Lemma avg_at_window_zero (a : Series) (i : nat) : avg_at 0 a i = NaN.
Proof.
  unfold avg_at, window_at, window_mean. cbn [Z.to_nat].
  replace (i + 1 - (i + 1 - 0))%nat with 0%nat by lia. reflexivity.
Qed.

(** X8: on finite prices every RSI value is NaN or a finite value between
    0 and 100; it is never an infinity. *)
Theorem rsi_within_bounds :
  forall (data : DataFrame) (period : Z) (prices : list Q),
    Close data = map Fin prices ->
    (0 <= period)%Z ->
    exists rsi : Series,
      calculate_rsi data period = Ok rsi /\
      forall i, value_at rsi i = NaN \/
                exists q, value_at rsi i = Fin q /\ 0 <= q <= 100.
Proof.
  intros data period prices Hclose Hp.
  destruct (calculate_rsi_values data period Hp) as [rsi [Hcalc [Hlen Hval]]].
  exists rsi. split; [exact Hcalc |]. intro i.
  destruct (Nat.lt_ge_cases i (length (Close data))) as [Hin | Hout];
    [| left; apply value_at_outside; lia].
  destruct (Z.eq_dec period 0) as [-> | Hp0].
  { left. rewrite (Hval i Hin), avg_at_window_zero. reflexivity. }
  destruct (Z_lt_ge_dec (Z.of_nat i + 1) period) as [Hwarm | Hfull].
  { left. rewrite (Hval i Hin), avg_at_warm_up by exact Hwarm. reflexivity. }
  assert (Hin' : (i < length prices)%nat) by (rewrite Hclose, length_map in Hin; exact Hin).
  destruct (rsi_value_closed_form data period prices i Hclose ltac:(lia) ltac:(lia) Hin')
    as [rsi' [g [l [Hcalc' [_ [_ [Hg [Hl [Hnan Hval']]]]]]]]].
  rewrite Hcalc in Hcalc'. injection Hcalc' as <-.
  destruct (Qlt_le_dec 0 (g + l)) as [Hpos | Hzero].
  - right. destruct (Hval' Hpos) as [q [Eq Hq]]. exists q. split; [exact Eq |].
    rewrite Hq. split.
    + apply Qle_shift_div_l; lra.
    + apply Qle_shift_div_r; lra.
  - left. apply Hnan. split; lra.
Qed.

End RSIValues.

(* ------------------------------------------------------------------ *)
(** ** The analysis as a whole *)

Section Analysis.

Lemma last_three_incl {A : Type} (xs : list A) (x : A) :
  In x (last_three xs) -> In x xs.
Proof.
  unfold last_three. intro H.
  rewrite <- (firstn_skipn (length xs - 3) xs). apply in_or_app. right. exact H.
Qed.

Lemma length_last_three {A : Type} (xs : list A) :
  length (last_three xs) = Nat.min 3 (length xs).
Proof. unfold last_three. rewrite length_skipn. lia. Qed.

Lemma last_three_nonempty {A : Type} (xs : list A) :
  xs <> [] -> last_three xs <> [].
Proof.
  intros Hne Hnil. apply (f_equal (@length A)) in Hnil.
  rewrite length_last_three in Hnil. destruct xs; [congruence |]. simpl in Hnil. lia.
Qed.

Lemma date_at_in_index (data : DataFrame) (i : nat) :
  (i < length (index data))%nat -> In (date_at data i) (index data).
Proof. intro H. unfold date_at. apply nth_In. exact H. Qed.

Lemma get_stock_data_some (history : result DataFrame) (data : DataFrame) :
  get_stock_data history = Some data ->
  history = Ok data /\ index data <> [].
Proof.
  unfold get_stock_data, empty. destruct history as [d |]; [| discriminate].
  destruct (index d) eqn:E; [discriminate |].
  intro H. injection H as <-. split; [reflexivity |]. rewrite E. discriminate.
Qed.

Lemma all_pairs_dates (data : DataFrame) (macd_signals rsi_signals : list nat) (d : Z) :
  In d (all_pairs data macd_signals rsi_signals) ->
  exists m, In m macd_signals /\ d = date_at data m.
Proof.
  unfold all_pairs. rewrite in_flat_map. intros [m [Hm Hd]].
  apply in_matches_of in Hd. destruct Hd as [-> _]. exists m. tauto.
Qed.

Lemma shown_combined_ok (data : DataFrame) (macd_signals rsi_signals : list nat) :
  (forall m, In m macd_signals -> (m < length (index data))%nat) ->
  shown_dates_ok data (shown_combined (all_pairs data macd_signals rsi_signals)).
Proof.
  intro Hvalid. unfold shown_combined.
  destruct (all_pairs data macd_signals rsi_signals) as [| d0 rest] eqn:E; [exact I |].
  rewrite <- E. split; [| split].
  - apply last_three_nonempty. rewrite E. discriminate.
  - rewrite length_last_three. lia.
  - intros d Hd. apply last_three_incl, all_pairs_dates in Hd.
    destruct Hd as [m [Hm ->]]. apply date_at_in_index, Hvalid. exact Hm.
Qed.

Lemma calculate_macd_returns (data : DataFrame) (fast slow signal : Z) :
  (1 <= fast)%Z -> (1 <= slow)%Z -> (1 <= signal)%Z ->
  exists macd_line signal_line histogram : Series,
    calculate_macd data fast slow signal = Ok (macd_line, signal_line, histogram) /\
    length macd_line = length (Close data) /\
    length signal_line = length (Close data).
Proof.
  intros Hf Hs Hg. unfold calculate_macd. cbv zeta.
  destruct (ewm_mean_accepts fast (Close data) Hf) as [ef [Ef _]].
  destruct (ewm_mean_accepts slow (Close data) Hs) as [es [Es _]].
  destruct (ewm_mean_accepts signal (series_sub ef es) Hg) as [sg [Eg _]].
  rewrite Ef, Es. cbn [bind]. rewrite Eg. cbn [bind].
  do 3 eexists. split; [reflexivity |].
  apply length_ewm_mean in Ef, Es, Eg.
  unfold series_sub in *. rewrite length_series_map2 in *. lia.
Qed.

Lemma filter_range_valid (f : nat -> bool) (len bound i : nat) :
  (len <= bound)%nat -> In i (filter f (seq 1 (len - 1))) -> (i < bound)%nat.
Proof. intros Hb Hi. apply in_filter_range in Hi. lia. Qed.

Lemma iloc_last_value (s : Series) :
  s <> [] -> iloc_last s = Ok (value_at s (length s - 1)).
Proof.
  intro H. destruct s as [| x s]; [congruence |].
  unfold iloc_last. apply iloc_in_range. simpl. lia.
Qed.

Lemma index_last_value (data : DataFrame) :
  index data <> [] ->
  index_last data = Ok (date_at data (length (index data) - 1)).
Proof.
  intro H. unfold index_last. destruct (index data) as [| x l] eqn:E; [congruence |].
  rewrite <- E. apply index_at_in_range. rewrite E. simpl. lia.
Qed.

Lemma recent_dates_value (data : DataFrame) (sigs : list nat) :
  (forall i, In i sigs -> (i < length (index data))%nat) ->
  recent_dates data sigs = Ok (shown_recent data sigs).
Proof.
  intro Hvalid. unfold recent_dates, shown_recent. destruct sigs as [| s0 rest] eqn:E;
    [reflexivity |].
  rewrite <- E in *.
  rewrite comprehension_index
    by (intros r Hr; apply Hvalid; apply last_three_incl; exact Hr).
  reflexivity.
Qed.

(** The report, field by field. *)
Lemma analysis_report (history : result DataFrame) (data : DataFrame) :
  get_stock_data history = Some data ->
  length (index data) = length (Close data) ->
  exists (macd_line signal_line histogram rsi : Series) (mb ms rb rs : list nat),
    calculate_macd data default_fast default_slow default_signal
      = Ok (macd_line, signal_line, histogram) /\
    calculate_rsi data default_period = Ok rsi /\
    detect_macd_signals macd_line signal_line = Ok (mb, ms) /\
    detect_rsi_signals rsi = Ok (rb, rs) /\
    (forall i, In i mb \/ In i ms \/ In i rb \/ In i rs ->
               (i < length (index data))%nat) /\
    index data <> [] /\
    analyze_stock_indicators history =
    Ok (Some (mk_report
                (date_at data (length (index data) - 1))
                (py_round (value_at (Close data) (length (Close data) - 1)) 2)
                (rounded_or_na (value_at macd_line (length (Close data) - 1)) 4)
                (rounded_or_na (value_at signal_line (length (Close data) - 1)) 4)
                (rounded_or_na (value_at rsi (length (Close data) - 1)) 2)
                (status_of (rounded_or_na (value_at rsi (length (Close data) - 1)) 2))
                (shown_recent data mb) (shown_recent data ms)
                (shown_recent data rb) (shown_recent data rs)
                (shown_combined (all_pairs data mb rb))
                (shown_combined (all_pairs data ms rs)))).
Proof.
  intros Hget Hlen.
  destruct (get_stock_data_some history data Hget) as [_ Hne].
  assert (Hpos : (0 < length (Close data))%nat)
    by (rewrite <- Hlen; destruct (index data); [congruence | simpl; lia]).
  assert (Hnonempty : forall s : Series, length s = length (Close data) -> s <> [])
    by (intros s Hs E; rewrite E in Hs; simpl in Hs; lia).
  destruct (calculate_macd_returns data default_fast default_slow default_signal)
    as [m [s [h [Hm [Hlm Hls]]]]]; [unfold default_fast; lia | unfold default_slow; lia
                                    | unfold default_signal; lia |].
  destruct (calculate_rsi_values data default_period) as [rsi [Hr [Hlr _]]];
    [unfold default_period; lia |].
  set (mb := filter (macd_up m s) (seq 1 (length m - 1))).
  set (ms := filter (fun i => negb (macd_up m s i) && macd_down m s i)
                    (seq 1 (length m - 1))).
  set (rb := filter (rsi_up rsi) (seq 1 (length rsi - 1))).
  set (rs := filter (fun i => negb (rsi_up rsi i) && rsi_down rsi i)
                    (seq 1 (length rsi - 1))).
  assert (Vmb : forall i, In i mb -> (i < length (index data))%nat)
    by (intros i Hi;
        apply (filter_range_valid _ (length m) (length (index data)) i ltac:(lia) Hi)).
  assert (Vms : forall i, In i ms -> (i < length (index data))%nat)
    by (intros i Hi;
        apply (filter_range_valid _ (length m) (length (index data)) i ltac:(lia) Hi)).
  assert (Vrb : forall i, In i rb -> (i < length (index data))%nat)
    by (intros i Hi;
        apply (filter_range_valid _ (length rsi) (length (index data)) i ltac:(lia) Hi)).
  assert (Vrs : forall i, In i rs -> (i < length (index data))%nat)
    by (intros i Hi;
        apply (filter_range_valid _ (length rsi) (length (index data)) i ltac:(lia) Hi)).
  exists m, s, h, rsi, mb, ms, rb, rs.
  split; [exact Hm |]. split; [exact Hr |].
  split; [apply detect_macd_signals_filter; lia |].
  split; [apply detect_rsi_signals_filter |].
  split; [intros i [H | [H | [H | H]]]; auto |].
  split; [exact Hne |].
  unfold analyze_stock_indicators. rewrite Hget, Hm. cbn [bind]. rewrite Hr. cbn [bind].
  rewrite (detect_macd_signals_filter m s) by lia. cbn [bind].
  rewrite (detect_rsi_signals_filter rsi). cbn [bind].
  fold mb ms rb rs.
  rewrite (index_last_value data Hne). cbn [bind].
  rewrite (iloc_last_value (Close data) (Hnonempty _ eq_refl)). cbn [bind].
  rewrite (iloc_last_value m (Hnonempty _ Hlm)), Hlm. cbn [bind].
  rewrite (iloc_last_value s (Hnonempty _ Hls)), Hls. cbn [bind].
  rewrite (iloc_last_value rsi (Hnonempty _ Hlr)), Hlr. cbn [bind].
  rewrite (recent_dates_value data mb Vmb). cbn [bind].
  rewrite (recent_dates_value data ms Vms). cbn [bind].
  rewrite (recent_dates_value data rb Vrb). cbn [bind].
  rewrite (recent_dates_value data rs Vrs). cbn [bind].
  unfold combined_pass.
  rewrite (outer_loop_all_pairs data rb Vrb mb [] Vmb). cbn [bind app].
  rewrite (outer_loop_all_pairs data rs Vrs ms [] Vms). cbn [bind app].
  reflexivity.
Qed.

Lemma shown_recent_ok (data : DataFrame) (sigs : list nat) :
  (forall i, In i sigs -> (i < length (index data))%nat) ->
  shown_dates_ok data (shown_recent data sigs).
Proof.
  intro Hvalid. unfold shown_recent. destruct sigs as [| s0 rest] eqn:E; [exact I |].
  rewrite <- E in *. split; [| split].
  - intro Hnil. apply map_eq_nil in Hnil.
    apply (last_three_nonempty sigs); [rewrite E; discriminate | exact Hnil].
  - rewrite length_map, length_last_three. lia.
  - intros d Hd. apply in_map_iff in Hd. destruct Hd as [i [<- Hi]].
    apply date_at_in_index, Hvalid, last_three_incl. exact Hi.
Qed.

(** X9: on a frame [get_stock_data] lets through (it is never empty) whose
    [Close] column has the length of the index, [analyze_stock_indicators]
    raises nothing, whatever the prices: it returns a report whose latest
    date is a date of the index and whose six lists of dates (recent MACD
    and RSI signals, combined signals) are each the no-signal line or one
    to three dates of the index. *)
Theorem analysis_never_raises :
  forall (history : result DataFrame) (data : DataFrame),
    get_stock_data history = Some data ->
    length (index data) = length (Close data) ->
    exists r : report,
      analyze_stock_indicators history = Ok (Some r) /\
      In (latest_date r) (index data) /\
      shown_dates_ok data (recent_macd_buy_dates r) /\
      shown_dates_ok data (recent_macd_sell_dates r) /\
      shown_dates_ok data (recent_rsi_buy_dates r) /\
      shown_dates_ok data (recent_rsi_sell_dates r) /\
      shown_dates_ok data (combined_buy_shown r) /\
      shown_dates_ok data (combined_sell_shown r).
Proof.
  intros history data Hget Hlen.
  destruct (analysis_report history data Hget Hlen)
    as [m [s [h [rsi [mb [ms [rb [rs [_ [_ [_ [_ [Hvalid [Hne Hrep]]]]]]]]]]]]]].
  eexists. split; [exact Hrep |].
  cbn [latest_date recent_macd_buy_dates recent_macd_sell_dates recent_rsi_buy_dates
       recent_rsi_sell_dates combined_buy_shown combined_sell_shown].
  split.
  { apply date_at_in_index. destruct (index data); [congruence | simpl; lia]. }
  split; [apply shown_recent_ok; intros i Hi; apply Hvalid; tauto |].
  split; [apply shown_recent_ok; intros i Hi; apply Hvalid; tauto |].
  split; [apply shown_recent_ok; intros i Hi; apply Hvalid; tauto |].
  split; [apply shown_recent_ok; intros i Hi; apply Hvalid; tauto |].
  split; apply shown_combined_ok; intros i Hi; apply Hvalid; tauto.
Qed.

End Analysis.

(* ------------------------------------------------------------------ *)
(** ** Errors of the combined pass, and the status labels *)

Section CombinedErrors.

Lemma comprehension_index_error (data : DataFrame) (rsi_signals : list nat) :
  (exists r, In r rsi_signals /\ (length (index data) <= r)%nat) ->
  comprehension (index_at data) rsi_signals = Raise IndexError.
Proof.
  induction rsi_signals as [| r rest IH]; intros [bad [Hin Hbad]]; [destruct Hin |].
  cbn [comprehension]. unfold index_at at 1.
  destruct (nth_error (index data) r) as [d |] eqn:E; cbn [bind]; [| reflexivity].
  destruct Hin as [-> | Hin].
  - apply nth_error_None in Hbad. congruence.
  - rewrite IH by (exists bad; tauto). reflexivity.
Qed.

Lemma index_at_outside (data : DataFrame) (i : nat) :
  (length (index data) <= i)%nat -> index_at data i = Raise IndexError.
Proof.
  intro H. unfold index_at. apply nth_error_None in H. rewrite H. reflexivity.
Qed.

Lemma combined_body_raises (data : DataFrame) (rsi_signals : list nat)
      (m : nat) (combined : list Z) (e : exn) :
  combined_body data rsi_signals m combined = Raise e -> e = IndexError.
Proof.
  unfold combined_body, index_at at 1.
  destruct (nth_error (index data) m) as [d |]; cbn [bind];
    [| intro H; injection H as <-; reflexivity].
  destruct (Forall_Exists_dec (fun r => (r < length (index data))%nat)
              (fun r => lt_dec r (length (index data))) rsi_signals) as [Hall | Hex].
  - rewrite comprehension_index by (apply Forall_forall; exact Hall).
    cbn [bind]. rewrite inner_loop_matches. discriminate.
  - rewrite comprehension_index_error.
    + cbn [bind]. intro H. injection H as <-. reflexivity.
    + apply Exists_exists in Hex. destruct Hex as [r [Hr Hbad]]. exists r.
      split; [exact Hr | lia].
Qed.

(** X10: the combined pass on an empty list of MACD signals returns the
    empty list without looking at the RSI signals; with at least one MACD
    signal, a MACD or RSI position outside the index makes it raise
    IndexError. *)
Theorem combined_pass_index_error :
  forall (data : DataFrame) (macd_signals rsi_signals : list nat),
    (macd_signals = [] -> combined_pass data macd_signals rsi_signals = Ok []) /\
    (macd_signals <> [] ->
     (exists i, In i (macd_signals ++ rsi_signals) /\ (length (index data) <= i)%nat) ->
     combined_pass data macd_signals rsi_signals = Raise IndexError).
Proof.
  intros data macd_signals rsi_signals. split.
  - intros ->. reflexivity.
  - intros Hne [bad [Hin Hbad]]. unfold combined_pass.
    apply in_app_or in Hin. destruct Hin as [Hin | Hin].
    + (* a MACD position outside the index *)
      destruct (In_nth macd_signals bad 0%nat Hin) as [k [Hk Hnth]].
      clear Hne Hin. revert k Hk Hnth. generalize (@nil Z).
      induction macd_signals as [| m rest IH]; intros acc k Hk Hnth; [simpl in Hk; lia |].
      cbn [for_each].
      destruct (combined_body data rsi_signals m acc) as [acc' | e] eqn:E; cbn [bind].
      * destruct k as [| k].
        -- simpl in Hnth. subst m. unfold combined_body in E.
           rewrite index_at_outside in E by exact Hbad. discriminate.
        -- apply (IH acc' k); [simpl in Hk; lia | exact Hnth].
      * rewrite (combined_body_raises _ _ _ _ _ E). reflexivity.
    + (* an RSI position outside the index: the first turn raises *)
      destruct macd_signals as [| m rest]; [congruence |].
      cbn [for_each]. unfold combined_body at 1. unfold index_at at 1.
      destruct (nth_error (index data) m) as [d |]; cbn [bind]; [| reflexivity].
      rewrite comprehension_index_error by (exists bad; tauto). reflexivity.
Qed.

End CombinedErrors.

Section StatusFacts.

Import String.

Lemma status_overbought (v : pyfloat) :
  detect_overbought_oversold v = overbought <-> fgt v (Fin 70) = true.
Proof.
  unfold detect_overbought_oversold.
  destruct (fgt v (Fin 70)); [tauto |].
  destruct (flt v (Fin 30)); split; discriminate.
Qed.

Lemma status_oversold (v : pyfloat) :
  detect_overbought_oversold v = oversold <-> flt v (Fin 30) = true.
Proof.
  unfold detect_overbought_oversold.
  destruct (fgt v (Fin 70)) eqn:E.
  - split; [discriminate |]. intro H. unfold fgt in E.
    destruct v as [q| | |]; simpl in *; try discriminate.
    apply Qlt_bool_iff in E, H. lra.
  - destruct (flt v (Fin 30)); [tauto |]. split; discriminate.
Qed.

(** X11: the signals of [detect_rsi_signals] agree with the labels of
    [detect_overbought_oversold]: at a buy signal the value before is not
    labelled overbought and the value at the signal is not labelled
    oversold; at a sell signal the value before is not labelled oversold and
    the value at the signal is not labelled overbought. *)
Theorem rsi_signals_agree_with_status :
  forall (rsi_data : Series) (buys sells : list nat) (i : nat),
    detect_rsi_signals rsi_data = Ok (buys, sells) ->
    (In i buys ->
       detect_overbought_oversold (value_at rsi_data (i - 1)) <> overbought /\
       detect_overbought_oversold (value_at rsi_data i) <> oversold) /\
    (In i sells ->
       detect_overbought_oversold (value_at rsi_data (i - 1)) <> oversold /\
       detect_overbought_oversold (value_at rsi_data i) <> overbought).
Proof.
  intros rsi_data buys sells i Hdet.
  rewrite detect_rsi_signals_filter in Hdet. injection Hdet as <- <-.
  split; intro Hin; apply filter_In in Hin; destruct Hin as [_ Hin].
  - unfold rsi_up in Hin. apply andb_true_iff in Hin. destruct Hin as [H1 H2].
    rewrite status_overbought, status_oversold. split; intro H.
    + unfold fgt in H.
      destruct (value_at rsi_data (i - 1)) as [q| | |]; simpl in *; try discriminate.
      apply Qlt_bool_iff in H. apply Qle_bool_iff in H1. lra.
    + unfold fgt in H2. pose proof (flt_asym _ _ H) as H3. congruence.
  - apply andb_true_iff in Hin. destruct Hin as [_ Hin].
    unfold rsi_down, fge in Hin. apply andb_true_iff in Hin. destruct Hin as [H1 H2].
    rewrite status_overbought, status_oversold. split; intro H.
    + destruct (value_at rsi_data (i - 1)) as [q| | |]; simpl in *; try discriminate.
      apply Qlt_bool_iff in H. apply Qle_bool_iff in H1. lra.
    + unfold fgt in H.
      destruct (value_at rsi_data i) as [q| | |]; simpl in *; try discriminate.
      apply Qlt_bool_iff in H. apply Qlt_bool_iff in H2. lra.
Qed.

End StatusFacts.

(* ------------------------------------------------------------------ *)
(** ** The command loop *)

Section CommandLoopFacts.

Import Ascii String CommandLoop.
Local Open Scope string_scope.

Example main_run :
  main ["  aapl " ; "" ; "tsla"; " Quit"; "spy"]
  = ([Analysed "AAPL"; InvalidCode; Analysed "TSLA"; ExitMessage], Returned).
Proof. reflexivity. Qed.

Lemma upper_char_not_lower (c : ascii) : is_lower (upper_char c) = false.
Proof. destruct c as [[] [] [] [] [] [] [] []]; reflexivity. Qed.

Lemma upper_char_space (c : ascii) : is_space (upper_char c) = is_space c.
Proof. destruct c as [[] [] [] [] [] [] [] []]; reflexivity. Qed.

Lemma lstrip_chars_head (cs : list ascii) (c : ascii) :
  hd_error (lstrip_chars cs) = Some c -> is_space c = false.
Proof.
  induction cs as [| x rest IH]; simpl; [discriminate |].
  destruct (is_space x) eqn:E; [exact IH |].
  simpl. intro H. injection H as <-. exact E.
Qed.

Lemma lstrip_chars_suffix (cs : list ascii) :
  exists pre, cs = (pre ++ lstrip_chars cs)%list.
Proof.
  induction cs as [| x rest [pre IH]]; simpl.
  - exists []. reflexivity.
  - destruct (is_space x).
    + exists (x :: pre). simpl. f_equal. exact IH.
    + exists []. reflexivity.
Qed.

Lemma strip_chars_clean (cs : list ascii) (c : ascii) :
  (hd_error (strip_chars cs) = Some c -> is_space c = false) /\
  (hd_error (rev (strip_chars cs)) = Some c -> is_space c = false).
Proof.
  unfold strip_chars. split.
  - destruct (lstrip_chars_suffix (rev (lstrip_chars cs))) as [pre Hpre].
    apply (f_equal (@rev ascii)) in Hpre.
    rewrite rev_involutive, rev_app_distr in Hpre.
    intro H. apply (lstrip_chars_head cs c). rewrite Hpre.
    destruct (rev (lstrip_chars (rev (lstrip_chars cs)))); [discriminate |].
    exact H.
  - rewrite rev_involutive. apply lstrip_chars_head.
Qed.

Lemma hd_error_map (f : ascii -> ascii) (l : list ascii) (c : ascii) :
  hd_error (map f l) = Some c -> exists x, hd_error l = Some x /\ c = f x.
Proof.
  destruct l as [| x l]; simpl; [discriminate |].
  intro H. injection H as <-. exists x. tauto.
Qed.

Lemma normalise_clean (line : string) :
  let cs := list_ascii_of_string (normalise line) in
  (forall c, hd_error cs = Some c -> is_space c = false) /\
  (forall c, hd_error (rev cs) = Some c -> is_space c = false) /\
  Forall (fun c => is_lower c = false) cs.
Proof.
  unfold normalise, upper, strip.
  rewrite !list_ascii_of_string_of_list_ascii.
  set (cs := strip_chars (list_ascii_of_string line)).
  split; [| split].
  - intros c H. apply hd_error_map in H. destruct H as [x [Hx ->]].
    rewrite upper_char_space.
    exact (proj1 (strip_chars_clean (list_ascii_of_string line) x) Hx).
  - intros c H. rewrite <- map_rev in H. apply hd_error_map in H.
    destruct H as [x [Hx ->]].
    rewrite upper_char_space.
    exact (proj2 (strip_chars_clean (list_ascii_of_string line) x) Hx).
  - apply Forall_map. apply Forall_forall. intros x _. apply upper_char_not_lower.
Qed.

(** X13: on ASCII input, when a line is the quit command (QUIT in any
    letter case, white space around it ignored) and no line before it is,
    [main] handles the lines before it one by one, prints the exit line and
    returns: the lines after it are never read.  The same lines without any
    quit command end in the EOFError of [input()]. *)
Theorem main_stops_at_quit :
  forall (before after : list string) (quit : string),
    Forall ascii_line (before ++ quit :: after) ->
    (forall line, In line before -> is_quit line = false) ->
    is_quit quit = true ->
    main (before ++ quit :: after) = (map event_of before ++ [ExitMessage], Returned)%list
    /\ main before = (map event_of before, EOFError).
Proof.
  intros before after quit _ Hbefore Hquit.
  induction before as [| line rest IH].
  - simpl. unfold is_quit in Hquit. rewrite Hquit. split; reflexivity.
  - assert (Hline : is_quit line = false) by (apply Hbefore; left; reflexivity).
    destruct IH as [IH1 IH2]; [intros l Hl; apply Hbefore; right; exact Hl |].
    unfold is_quit in Hline.
    cbn [main app map]. rewrite Hline, IH1, IH2. unfold event_of.
    destruct (String.eqb (normalise line) ""); split; reflexivity.
Qed.

(** X14: on ASCII input, every symbol [main] passes to
    [analyze_stock_indicators] is the stripped, upper-cased form of an input
    line, is not empty, is not QUIT, has no white space at either end and no
    lower-case letter. *)
Theorem main_analyses_clean_symbols :
  forall (inputs : list string) (symbol : string),
    Forall ascii_line inputs ->
    In (Analysed symbol) (fst (main inputs)) ->
    clean_symbol symbol /\ exists line, In line inputs /\ symbol = normalise line.
Proof.
  intros inputs symbol _. induction inputs as [| line rest IH]; simpl; [tauto |].
  destruct (String.eqb (normalise line) "QUIT") eqn:Eq.
  - simpl. intros [H | []]. discriminate.
  - destruct (String.eqb (normalise line) "") eqn:Ee; simpl.
    + intros [H | H]; [discriminate |].
      destruct (IH H) as [Hc [l [Hl ->]]]. split; [exact Hc |]. exists l. tauto.
    + intros [H | H].
      * injection H as <-. split; [| exists line; tauto].
        apply String.eqb_neq in Eq, Ee.
        split; [exact Ee |]. split; [exact Eq |]. apply normalise_clean.
      * destruct (IH H) as [Hc [l [Hl ->]]]. split; [exact Hc |]. exists l. tauto.
Qed.

End CommandLoopFacts.

(* ------------------------------------------------------------------ *)
(** ** Rounding and monotone prices *)

Section Rounding.

Lemma rint_integer (q : Q) (z : Z) : q == inject_Z z -> rint q = z.
Proof.
  intro H. unfold rint.
  assert (Hf : Qfloor q = z) by (rewrite H; apply Qfloor_Z).
  rewrite Hf.
  assert (Hc : Qcompare (q - inject_Z z) (1 # 2) = Lt).
  { apply Qlt_alt. setoid_replace (q - inject_Z z) with 0 by (rewrite H; ring).
    reflexivity. }
  rewrite Hc. reflexivity.
Qed.

(** Rounding a value that already is a multiple of the last kept digit. *)
Lemma py_round_exact (q : Q) (z : Z) (ndigits : nat) :
  q * inject_Z (10 ^ Z.of_nat ndigits) == inject_Z z ->
  exists r, py_round (Fin q) ndigits = Fin r /\ r == q.
Proof.
  intro H. unfold py_round. cbv zeta. rewrite (rint_integer _ z H).
  eexists. split; [reflexivity |].
  assert (Hs : ~ inject_Z (10 ^ Z.of_nat ndigits) == 0).
  { change 0 with (inject_Z 0). rewrite inject_Z_injective.
    apply Z.pow_nonzero; lia. }
  rewrite <- H. field. exact Hs.
Qed.

End Rounding.

Section MonotoneValues.

Lemma Qsum_ge_element (w : Series) (q : Q) :
  Forall finite_nonneg w -> In (Fin q) w -> q <= Qsum (finite_values w).
Proof.
  unfold finite_values, Qsum.
  induction 1 as [| x w [a [-> Ha]] Hw IH]; intro Hin; [destruct Hin |].
  simpl.
  assert (Hrest : 0 <= fold_right Qplus 0
                         (flat_map (fun x => match x with Fin q0 => [q0] | _ => [] end) w)).
  { clear IH Hin. induction Hw as [| y w [b [-> Hb]] Hw IHw]; simpl; lra. }
  destruct Hin as [E | Hin].
  - injection E as ->. lra.
  - specialize (IH Hin). lra.
Qed.

Lemma window_at_contains (window : nat) (a : Series) (i : nat) :
  (1 <= window)%nat -> (i < length a)%nat ->
  In (value_at a i) (window_at window a i).
Proof.
  intros Hw Hi. unfold window_at, value_at.
  set (start := (i + 1 - window)%nat).
  assert (E : nth (i - start) (firstn (i + 1 - start) (skipn start a)) NaN = nth i a NaN).
  { rewrite nth_firstn.
    replace (i - start <? i + 1 - start)%nat with true
      by (symmetry; apply Nat.ltb_lt; unfold start; lia).
    rewrite nth_skipn. f_equal. unfold start. lia. }
  rewrite <- E. apply nth_In. rewrite length_firstn, length_skipn. unfold start. lia.
Qed.

Lemma avg_at_positive (period : Z) (a : Series) (i : nat) (q : Q) :
  Forall finite_nonneg a ->
  (1 <= period)%Z -> (period - 1 <= Z.of_nat i)%Z -> (i < length a)%nat ->
  value_at a i = Fin q -> 0 < q ->
  exists g, avg_at period a i = Fin g /\ 0 < g.
Proof.
  intros Ha Hp Hi Hlen Hv Hq. unfold avg_at, window_mean.
  set (w := window_at (Z.to_nat period) a i).
  assert (Hw : Forall finite_nonneg w)
    by (apply Forall_firstn_keeps, Forall_skipn_keeps; exact Ha).
  destruct (finite_values_all w Hw) as [Hn _].
  assert (Hwl : length w = Z.to_nat period) by (apply length_window_full; lia).
  assert (Hin : In (Fin q) w)
    by (rewrite <- Hv; apply window_at_contains; lia).
  pose proof (Qsum_ge_element w q Hw Hin) as Hsum.
  rewrite Hn, Hwl.
  replace (Z.to_nat period <=? Z.to_nat period)%nat with true
    by (symmetry; apply Nat.leb_refl).
  replace (0 <? Z.to_nat period)%nat with true
    by (symmetry; apply Nat.ltb_lt; lia).
  cbn [andb]. eexists. split; [reflexivity |].
  apply Qlt_shift_div_l.
  - change 0 with (inject_Z 0). rewrite <- Zlt_Qlt. lia.
  - lra.
Qed.

Lemma value_at_cons (x : pyfloat) (s : Series) (i : nat) :
  value_at (x :: s) (S i) = value_at s i.
Proof. reflexivity. Qed.

Lemma Forall_value_at (P : pyfloat -> Prop) (s : Series) (i : nat) :
  Forall P s -> (i < length s)%nat -> P (value_at s i).
Proof.
  intros H Hi. rewrite Forall_forall in H. apply H. unfold value_at.
  apply nth_In. exact Hi.
Qed.

Lemma gain_increasing_positive (prices : list Q) (i : nat) :
  strictly_increasing prices -> (1 <= i < length prices)%nat ->
  exists q, value_at (gain_of (map Fin prices)) i = Fin q /\ 0 < q.
Proof.
  intros Hinc Hi. rewrite gain_of_pointwise.
  destruct prices as [| p rest]; [simpl in Hi; lia |].
  destruct i as [| j]; [lia |]. cbn [map diff]. rewrite value_at_cons.
  pose proof (diff_from_increasing p rest Hinc) as Hd.
  assert (Hj : (j < length (diff_from (Fin p) (map Fin rest)))%nat)
    by (rewrite length_diff_from, length_map; simpl in Hi; lia).
  rewrite value_at_map by exact Hj.
  destruct (Forall_value_at _ _ j Hd Hj) as [q [-> Hq]].
  exists q. split; [| exact Hq].
  unfold gain_value, fgt. simpl.
  replace (Qlt_bool 0 q) with true by (symmetry; apply Qlt_bool_iff; exact Hq).
  reflexivity.
Qed.

Lemma loss_decreasing_positive (prices : list Q) (i : nat) :
  strictly_decreasing prices -> (1 <= i < length prices)%nat ->
  exists q, value_at (loss_of (map Fin prices)) i = Fin q /\ 0 < q.
Proof.
  intros Hdec Hi. rewrite loss_of_pointwise.
  destruct prices as [| p rest]; [simpl in Hi; lia |].
  destruct i as [| j]; [lia |]. cbn [map diff]. rewrite value_at_cons.
  pose proof (diff_from_decreasing p rest Hdec) as Hd.
  assert (Hj : (j < length (diff_from (Fin p) (map Fin rest)))%nat)
    by (rewrite length_diff_from, length_map; simpl in Hi; lia).
  rewrite value_at_map by exact Hj.
  destruct (Forall_value_at _ _ j Hd Hj) as [q [-> Hq]].
  exists (- q). split; [| lra].
  unfold loss_value. simpl.
  replace (Qlt_bool q 0) with true by (symmetry; apply Qlt_bool_iff; exact Hq).
  reflexivity.
Qed.

Lemma monotone_rsi_value_at :
  forall (data : DataFrame) (period : Z) (prices : list Q) (i : nat),
    Close data = map Fin prices ->
    (1 <= period)%Z ->
    (period - 1 <= Z.of_nat i)%Z ->
    (1 <= i < length prices)%nat ->
    exists rsi : Series,
      calculate_rsi data period = Ok rsi /\
      (strictly_increasing prices ->
         (exists q, value_at rsi i = Fin q /\ q == 100) /\
         detect_overbought_oversold (value_at rsi i) = overbought) /\
      (strictly_decreasing prices ->
         (exists q, value_at rsi i = Fin q /\ q == 0) /\
         detect_overbought_oversold (value_at rsi i) = oversold).
Proof.
  intros data period prices i Hclose Hp Hi Hrange.
  destruct (rsi_value_closed_form data period prices i Hclose Hp Hi ltac:(lia))
    as [rsi [g [l [Hcalc [Eg [El [Hg [Hl [_ Hval]]]]]]]]].
  rewrite Hclose in Eg, El.
  destruct (gain_loss_nonneg prices) as [Hgain Hloss].
  assert (Hlg : (i < length (gain_of (map Fin prices)))%nat)
    by (rewrite length_gain_of, length_map; lia).
  assert (Hll : (i < length (loss_of (map Fin prices)))%nat)
    by (rewrite length_loss_of, length_map; lia).
  exists rsi. split; [exact Hcalc |]. split; intro Hmono.
  - destruct (gain_increasing_positive prices i Hmono Hrange) as [q [Hq Hqpos]].
    destruct (avg_at_positive period _ i q Hgain Hp Hi Hlg Hq Hqpos) as [g' [Eg' Hg']].
    rewrite Eg in Eg'. injection Eg' as <-.
    assert (Hl0 : l == 0).
    { destruct (avg_at_zero period _ i (loss_of_increasing prices Hmono))
        as [E | [z [E Hz]]]; rewrite El in E; [discriminate |].
      injection E as ->. exact Hz. }
    destruct (Hval ltac:(lra)) as [v [Ev Hv]].
    assert (Hv100 : v == 100) by (rewrite Hv, Hl0; field; lra).
    split; [exists v; tauto |].
    apply status_overbought. rewrite Ev. unfold fgt. simpl.
    apply Qlt_bool_iff. lra.
  - destruct (loss_decreasing_positive prices i Hmono Hrange) as [q [Hq Hqpos]].
    destruct (avg_at_positive period _ i q Hloss Hp Hi Hll Hq Hqpos) as [l' [El' Hl']].
    rewrite El in El'. injection El' as <-.
    assert (Hg0 : g == 0).
    { destruct (avg_at_zero period _ i (gain_of_decreasing prices Hmono))
        as [E | [z [E Hz]]]; rewrite Eg in E; [discriminate |].
      injection E as ->. exact Hz. }
    destruct (Hval ltac:(lra)) as [v [Ev Hv]].
    assert (Hv0 : v == 0) by (rewrite Hv, Hg0; field; lra).
    split; [exists v; tauto |].
    apply status_oversold. rewrite Ev. simpl.
    apply Qlt_bool_iff. lra.
Qed.

(** X12: on strictly rising finite prices the RSI at every position from
    [max 1 (period - 1)] on is 100 and is labelled overbought by
    [detect_overbought_oversold]; on strictly falling prices it is 0 and
    labelled oversold. *)
Theorem monotone_prices_rsi_values :
  forall (data : DataFrame) (period : Z) (prices : list Q) (i : nat),
    Close data = map Fin prices ->
    (1 <= period)%Z ->
    (period - 1 <= Z.of_nat i)%Z ->
    (1 <= i < length prices)%nat ->
    exists rsi : Series,
      calculate_rsi data period = Ok rsi /\
      (strictly_increasing prices ->
         (exists q, value_at rsi i = Fin q /\ q == 100) /\
         detect_overbought_oversold (value_at rsi i) = overbought) /\
      (strictly_decreasing prices ->
         (exists q, value_at rsi i = Fin q /\ q == 0) /\
         detect_overbought_oversold (value_at rsi i) = oversold).
Proof. exact monotone_rsi_value_at. Qed.

End MonotoneValues.

(* ------------------------------------------------------------------ *)
(** ** What the report shows *)

Section ReportValues.

Lemma all_pairs_no_rsi (data : DataFrame) (macd_signals : list nat) :
  all_pairs data macd_signals [] = [].
Proof.
  unfold all_pairs. induction macd_signals as [| m rest IH]; simpl; [reflexivity |].
  exact IH.
Qed.

Lemma monotone_rsi_levels (data : DataFrame) (period : Z) (prices : list Q) (rsi : Series) :
  Close data = map Fin prices ->
  calculate_rsi data period = Ok rsi ->
  (strictly_increasing prices -> forall i, level_or_nan 100 (value_at rsi i)) /\
  (strictly_decreasing prices -> forall i, level_or_nan 0 (value_at rsi i)).
Proof.
  intros Hclose Hcalc.
  destruct (Z_lt_ge_dec period 0) as [Hneg | Hp];
    [rewrite (calculate_rsi_negative data period Hneg) in Hcalc; discriminate |].
  destruct (calculate_rsi_values data period ltac:(lia)) as [rsi' [Hcalc' [Hlen Hval]]].
  rewrite Hcalc in Hcalc'. injection Hcalc' as <-.
  rewrite Hclose in Hval, Hlen.
  split; intros Hmono i;
    (destruct (Nat.lt_ge_cases i (length (map Fin prices))) as [Hin | Hout];
     [rewrite (Hval i Hin) | left; apply value_at_outside; lia]).
  - apply rsi_zero_loss, avg_at_zero, loss_of_increasing. exact Hmono.
  - apply rsi_zero_gain, avg_at_zero, gain_of_decreasing. exact Hmono.
Qed.

Lemma rsi_levels_no_sell (rsi : Series) (buys sells : list nat) :
  detect_rsi_signals rsi = Ok (buys, sells) ->
  ((forall i, level_or_nan 100 (value_at rsi i)) -> sells = []) /\
  ((forall i, level_or_nan 0 (value_at rsi i)) -> buys = []).
Proof.
  rewrite detect_rsi_signals_filter. intro H. injection H as <- <-.
  split; intro Hlevel; apply filter_none; intro i.
  - rewrite (rsi_down_at_level_100 rsi i Hlevel). apply andb_false_r.
  - apply rsi_up_at_level_0. exact Hlevel.
Qed.

(** X15: on a frame of at least 14 rows of finite prices that
    [get_stock_data] lets through, the report of [analyze_stock_indicators]
    shows, for strictly rising prices, a latest RSI of 100, the status
    overbought, no RSI sell signal and no combined sell signal; for strictly
    falling prices, a latest RSI of 0, the status oversold, no RSI buy
    signal and no combined buy signal. *)
Theorem monotone_prices_report :
  forall (history : result DataFrame) (data : DataFrame) (prices : list Q),
    get_stock_data history = Some data ->
    length (index data) = length (Close data) ->
    Close data = map Fin prices ->
    (14 <= length prices)%nat ->
    exists r : report,
      analyze_stock_indicators history = Ok (Some r) /\
      (strictly_increasing prices ->
         (exists v, latest_rsi r = Some (Fin v) /\ v == 100) /\
         rsi_status r = overbought /\
         recent_rsi_sell_dates r = None /\
         combined_sell_shown r = None) /\
      (strictly_decreasing prices ->
         (exists v, latest_rsi r = Some (Fin v) /\ v == 0) /\
         rsi_status r = oversold /\
         recent_rsi_buy_dates r = None /\
         combined_buy_shown r = None).
Proof.
  intros history data prices Hget Hlen Hclose Hrows.
  destruct (analysis_report history data Hget Hlen)
    as [m [s [h [rsi [mb [ms [rb [rs [_ [Hr [_ [Hdet [_ [_ Hrep]]]]]]]]]]]]]].
  eexists. split; [exact Hrep |]. cbn [latest_rsi rsi_status recent_rsi_sell_dates
    recent_rsi_buy_dates combined_sell_shown combined_buy_shown].
  assert (Hn : length (Close data) = length prices) by (rewrite Hclose; apply length_map).
  destruct (monotone_rsi_value_at data default_period prices (length prices - 1) Hclose)
    as [rsi' [Hr' [Hinc Hdec]]];
    [unfold default_period; lia | unfold default_period; lia | lia |].
  rewrite Hr in Hr'. injection Hr' as <-.
  destruct (monotone_rsi_levels data default_period prices rsi Hclose Hr) as [Linc Ldec].
  destruct (rsi_levels_no_sell rsi rb rs Hdet) as [Nsell Nbuy].
  rewrite Hn. split; intro Hmono.
  - destruct (Hinc Hmono) as [[q [Eq Hq]] _]. rewrite Eq.
    destruct (py_round_exact q 10000 2) as [v [Ev Hv]];
      [rewrite Hq; reflexivity |].
    unfold rounded_or_na. cbn [notna]. rewrite Ev.
    split; [exists v; split; [reflexivity | lra] |].
    split; [cbn [status_of]; apply status_overbought; unfold fgt; simpl;
            apply Qlt_bool_iff; lra |].
    rewrite (Nsell (Linc Hmono)), all_pairs_no_rsi. split; reflexivity.
  - destruct (Hdec Hmono) as [[q [Eq Hq]] _]. rewrite Eq.
    destruct (py_round_exact q 0 2) as [v [Ev Hv]];
      [rewrite Hq; reflexivity |].
    unfold rounded_or_na. cbn [notna]. rewrite Ev.
    split; [exists v; split; [reflexivity | lra] |].
    split; [cbn [status_of]; apply status_oversold; simpl;
            apply Qlt_bool_iff; lra |].
    rewrite (Nbuy (Ldec Hmono)), all_pairs_no_rsi. split; reflexivity.
Qed.

End ReportValues.

Section FlatReport.

(** X16: on a frame of constant finite prices the report shows a latest
    MACD and signal line of 0, N/A for the RSI and its status, and the
    no-signal line in all six lists. *)
Theorem flat_prices_report :
  forall (history : result DataFrame) (data : DataFrame) (c : Q) (rest : list Q),
    get_stock_data history = Some data ->
    length (index data) = length (Close data) ->
    Close data = map Fin (c :: rest) ->
    Forall (fun p => p == c) rest ->
    exists r : report,
      analyze_stock_indicators history = Ok (Some r) /\
      (exists x, latest_macd r = Some (Fin x) /\ x == 0) /\
      (exists y, latest_signal r = Some (Fin y) /\ y == 0) /\
      latest_rsi r = None /\
      rsi_status r = not_available /\
      recent_macd_buy_dates r = None /\ recent_macd_sell_dates r = None /\
      recent_rsi_buy_dates r = None /\ recent_rsi_sell_dates r = None /\
      combined_buy_shown r = None /\ combined_sell_shown r = None.
Proof.
  intros history data c rest Hget Hlen Hclose Hall.
  destruct (analysis_report history data Hget Hlen)
    as [m [s [h [rsi [mb [ms [rb [rs [Hm [Hr [Hdm [Hdr [_ [_ Hrep]]]]]]]]]]]]]].
  rewrite (calculate_macd_flat data _ _ _ c rest Hclose Hall) in Hm;
    [| unfold default_fast; lia | unfold default_slow; lia | unfold default_signal; lia].
  assert (Em : m = repeat (Fin (c - c)) (S (length rest)) /\
               s = repeat (Fin (c - c)) (S (length rest)))
    by (split; congruence).
  destruct Em as [-> ->]. clear Hm.
  rewrite (flat_macd_no_signals (c - c) (S (length rest)) ltac:(ring)) in Hdm.
  injection Hdm as <- <-.
  pose proof (flat_rsi_all_nan data default_period c rest rsi Hclose Hall Hr) as Hnan.
  rewrite (all_nan_no_signals rsi Hnan) in Hdr. injection Hdr as <- <-.
  eexists. split; [exact Hrep |].
  cbn [latest_macd latest_signal latest_rsi rsi_status recent_macd_buy_dates
       recent_macd_sell_dates recent_rsi_buy_dates recent_rsi_sell_dates
       combined_buy_shown combined_sell_shown].
  assert (Hn : length (Close data) = S (length rest))
    by (rewrite Hclose, length_map; reflexivity).
  rewrite Hn, Hnan.
  rewrite value_at_repeat by lia.
  destruct (py_round_exact (c - c) 0 4) as [x [Ex Hx]];
    [change (inject_Z 0) with 0; ring |].
  unfold rounded_or_na. cbn [notna]. rewrite Ex.
  split; [exists x; split; [reflexivity | rewrite Hx; ring] |].
  split; [exists x; split; [reflexivity | rewrite Hx; ring] |].
  repeat split; reflexivity.
Qed.

End FlatReport.

(* ------------------------------------------------------------------ *)
(** ** Instances of the further properties *)

Section FurtherInstances.

(** X1, instance. *)
Lemma detected_signals_well_formed_witness :
  signals_well_formed 5 ([2%nat], [3%nat]) /\
  signals_well_formed 4 ([3%nat], []).
Proof.
  apply (detected_signals_well_formed
           [Fin 1; Fin 1; Fin 2; Fin 0; Fin (-1)]
           [Fin 2; Fin 1; Fin 1; Fin 1; Fin 0]
           [NaN; Fin 20; Fin 30; Fin 31]).
  - reflexivity.
  - reflexivity.
Defined.

(** X2, instance. *)
Lemma detect_macd_signals_index_error_witness :
  detect_macd_signals [Fin 1; Fin 1; Fin 2] [Fin 2] = Raise IndexError /\
  exists s, detect_macd_signals [Fin 1; Fin 1; Fin 2] [Fin 2; NaN] = Ok s.
Proof.
  split.
  - apply (detect_macd_signals_index_error [Fin 1; Fin 1; Fin 2] [Fin 2]). reflexivity.
  - apply (detect_macd_signals_index_error [Fin 1; Fin 1; Fin 2] [Fin 2; NaN]).
    reflexivity.
Defined.

(** X3, instance. *)
Lemma indicators_aligned_with_input_witness :
  exists macd_line signal_line histogram rsi : Series,
    calculate_macd (mk_DataFrame [0; 1; 2]%Z [Fin 1; NaN; PInf]) 12 26 9
      = Ok (macd_line, signal_line, histogram) /\
    calculate_rsi (mk_DataFrame [0; 1; 2]%Z [Fin 1; NaN; PInf]) 2 = Ok rsi /\
    length macd_line = 3%nat /\ length signal_line = 3%nat /\
    length histogram = 3%nat /\ length rsi = 3%nat.
Proof.
  destruct (calculate_macd (mk_DataFrame [0; 1; 2]%Z [Fin 1; NaN; PInf]) 12 26 9)
    as [[[m s] h] |] eqn:Em; [| discriminate Em].
  destruct (calculate_rsi (mk_DataFrame [0; 1; 2]%Z [Fin 1; NaN; PInf]) 2)
    as [rsi |] eqn:Er; [| discriminate Er].
  exists m, s, h, rsi. split; [reflexivity |]. split; [reflexivity |].
  exact (indicators_aligned_with_input
           (mk_DataFrame [0; 1; 2]%Z [Fin 1; NaN; PInf]) 12 26 9 2 m s h rsi Em Er).
Defined.

(** X4, instance. *)
Lemma flat_prices_macd_is_zero_witness :
  exists macd_line signal_line histogram : Series,
    calculate_macd (mk_DataFrame [0; 1; 2]%Z [Fin 5; Fin 5; Fin 5]) 12 26 9
      = Ok (macd_line, signal_line, histogram) /\
    Forall is_zero macd_line /\
    Forall is_zero signal_line /\
    Forall is_zero histogram /\
    detect_macd_signals macd_line signal_line = Ok ([], []).
Proof.
  apply (flat_prices_macd_is_zero
           (mk_DataFrame [0; 1; 2]%Z [Fin 5; Fin 5; Fin 5]) 12 26 9 5 [5; 5]).
  - reflexivity.
  - repeat constructor.
  - lia.
  - lia.
  - lia.
Defined.

(** X5, instance. *)
Lemma flat_prices_rsi_undefined_witness :
  exists rsi : Series,
    calculate_rsi (mk_DataFrame [0; 1; 2]%Z [Fin 5; Fin 5; Fin 5]) 2 = Ok rsi /\
    (forall i, value_at rsi i = NaN) /\
    detect_rsi_signals rsi = Ok ([], []).
Proof.
  apply (flat_prices_rsi_undefined
           (mk_DataFrame [0; 1; 2]%Z [Fin 5; Fin 5; Fin 5]) 2 5 [5; 5]).
  - reflexivity.
  - repeat constructor.
  - lia.
Defined.

(** X6, instance. *)
Lemma rsi_closed_form_witness :
  exists (rsi : Series) (g l : Q),
    calculate_rsi (mk_DataFrame [0; 1; 2; 3]%Z [Fin 5; Fin 4; Fin 6; Fin 1]) 2 = Ok rsi /\
    avg_at 2 (gain_of [Fin 5; Fin 4; Fin 6; Fin 1]) 2 = Fin g /\
    avg_at 2 (loss_of [Fin 5; Fin 4; Fin 6; Fin 1]) 2 = Fin l /\
    0 <= g /\ 0 <= l /\
    (g == 0 /\ l == 0 -> value_at rsi 2 = NaN) /\
    (0 < g + l -> exists q, value_at rsi 2 = Fin q /\ q == 100 * g / (g + l)).
Proof.
  apply (rsi_closed_form
           (mk_DataFrame [0; 1; 2; 3]%Z [Fin 5; Fin 4; Fin 6; Fin 1]) 2 [5; 4; 6; 1] 2).
  - reflexivity.
  - lia.
  - simpl. lia.
  - simpl. lia.
Defined.

(** X7, instance. *)
Lemma short_series_rsi_undefined_witness :
  exists rsi : Series,
    calculate_rsi (mk_DataFrame [0; 1; 2]%Z [Fin 5; Fin 4; Fin 6]) 14 = Ok rsi /\
    length rsi = 3%nat /\
    (forall i, value_at rsi i = NaN) /\
    detect_rsi_signals rsi = Ok ([], []).
Proof.
  apply (short_series_rsi_undefined (mk_DataFrame [0; 1; 2]%Z [Fin 5; Fin 4; Fin 6]) 14).
  simpl. lia.
Defined.

(** X8, instance. *)
Lemma rsi_within_bounds_witness :
  exists rsi : Series,
    calculate_rsi (mk_DataFrame [0; 1; 2; 3]%Z [Fin 5; Fin 4; Fin 6; Fin 1]) 2 = Ok rsi /\
    forall i, value_at rsi i = NaN \/
              exists q, value_at rsi i = Fin q /\ 0 <= q <= 100.
Proof.
  apply (rsi_within_bounds
           (mk_DataFrame [0; 1; 2; 3]%Z [Fin 5; Fin 4; Fin 6; Fin 1]) 2 [5; 4; 6; 1]).
  - reflexivity.
  - lia.
Defined.

(** X9, instance. *)
Lemma analysis_never_raises_witness :
  exists r : report,
    analyze_stock_indicators
      (Ok (mk_DataFrame [100; 101; 102]%Z [Fin 5; NaN; Fin 6])) = Ok (Some r) /\
    In (latest_date r) [100; 101; 102]%Z.
Proof.
  destruct (analysis_never_raises
              (Ok (mk_DataFrame [100; 101; 102]%Z [Fin 5; NaN; Fin 6]))
              (mk_DataFrame [100; 101; 102]%Z [Fin 5; NaN; Fin 6])
              eq_refl eq_refl) as [r [Hr [Hd _]]].
  exists r. split; [exact Hr | exact Hd].
Defined.

(** X10, instance. *)
Lemma combined_pass_index_error_witness :
  combined_pass twelve_days [] [40%nat] = Ok [] /\
  combined_pass twelve_days [3%nat] [40%nat] = Raise IndexError.
Proof.
  split.
  - apply (combined_pass_index_error twelve_days [] [40%nat]). reflexivity.
  - apply (combined_pass_index_error twelve_days [3%nat] [40%nat]).
    + discriminate.
    + exists 40%nat. split; [simpl; tauto | simpl; lia].
Defined.

(** X11, instance. *)
Lemma rsi_signals_agree_with_status_witness :
  detect_overbought_oversold (value_at [NaN; Fin 20; Fin 30; Fin 31] (3 - 1)) <> overbought /\
  detect_overbought_oversold (value_at [NaN; Fin 20; Fin 30; Fin 31] 3) <> oversold.
Proof.
  apply (rsi_signals_agree_with_status [NaN; Fin 20; Fin 30; Fin 31] [3%nat] [] 3).
  - reflexivity.
  - simpl. tauto.
Defined.

(** X12, instance. *)
Lemma monotone_prices_rsi_values_witness :
  exists rsi : Series,
    calculate_rsi (mk_DataFrame [0; 1; 2; 3]%Z [Fin 1; Fin 2; Fin 4; Fin 7]) 2 = Ok rsi /\
    (exists q, value_at rsi 3 = Fin q /\ q == 100) /\
    detect_overbought_oversold (value_at rsi 3) = overbought.
Proof.
  destruct (monotone_prices_rsi_values
              (mk_DataFrame [0; 1; 2; 3]%Z [Fin 1; Fin 2; Fin 4; Fin 7]) 2 [1; 2; 4; 7] 3
              eq_refl ltac:(lia) ltac:(simpl; lia) ltac:(simpl; lia))
    as [rsi [Hcalc [Hinc _]]].
  exists rsi. split; [exact Hcalc |].
  apply Hinc. simpl. repeat split; reflexivity.
Defined.

(** X15, instance. *)
Lemma monotone_prices_report_witness :
  exists r : report,
    analyze_stock_indicators (Ok rising_frame) = Ok (Some r) /\
    (exists v, latest_rsi r = Some (Fin v) /\ v == 100) /\
    rsi_status r = overbought /\
    recent_rsi_sell_dates r = None /\
    combined_sell_shown r = None.
Proof.
  destruct (monotone_prices_report (Ok rising_frame) rising_frame
              [1; 2; 3; 4; 5; 6; 7; 8; 9; 10; 11; 12; 13; 14]
              eq_refl eq_refl eq_refl ltac:(simpl; lia))
    as [r [Hr [Hinc _]]].
  exists r. split; [exact Hr |].
  apply Hinc. simpl. repeat split; reflexivity.
Defined.

(** X16, instance. *)
Lemma flat_prices_report_witness :
  exists r : report,
    analyze_stock_indicators (Ok (mk_DataFrame [0; 1; 2]%Z [Fin 5; Fin 5; Fin 5]))
      = Ok (Some r) /\
    (exists x, latest_macd r = Some (Fin x) /\ x == 0) /\
    (exists y, latest_signal r = Some (Fin y) /\ y == 0) /\
    latest_rsi r = None /\
    rsi_status r = not_available /\
    recent_macd_buy_dates r = None /\ recent_macd_sell_dates r = None /\
    recent_rsi_buy_dates r = None /\ recent_rsi_sell_dates r = None /\
    combined_buy_shown r = None /\ combined_sell_shown r = None.
Proof.
  apply (flat_prices_report
           (Ok (mk_DataFrame [0; 1; 2]%Z [Fin 5; Fin 5; Fin 5]))
           (mk_DataFrame [0; 1; 2]%Z [Fin 5; Fin 5; Fin 5]) 5 [5; 5]).
  - reflexivity.
  - reflexivity.
  - reflexivity.
  - repeat constructor.
Defined.

End FurtherInstances.

Section CommandLoopInstances.

Import Ascii String CommandLoop.
Local Open Scope string_scope.

Ltac ascii_lines :=
  repeat (constructor;
          [unfold ascii_line; simpl;
           repeat (constructor; [apply Nat.ltb_lt; reflexivity |]); constructor |]);
  try constructor.

(** X13, instance. *)
Lemma main_stops_at_quit_witness :
  main ["  aapl "; ""; " Quit"; "spy"]
    = ([Analysed "AAPL"; InvalidCode; ExitMessage], Returned) /\
  main ["  aapl "; ""] = ([Analysed "AAPL"; InvalidCode], EOFError).
Proof.
  apply (main_stops_at_quit ["  aapl "; ""] ["spy"] " Quit").
  - ascii_lines.
  - intros line [<- | [<- | []]]; reflexivity.
  - reflexivity.
Defined.

(** X14, instance. *)
Lemma main_analyses_clean_symbols_witness :
  clean_symbol "AAPL" /\
  exists line, In line ["  aapl "; ""; " Quit"; "spy"] /\ "AAPL" = normalise line.
Proof.
  apply (main_analyses_clean_symbols ["  aapl "; ""; " Quit"; "spy"] "AAPL").
  - ascii_lines.
  - simpl. left. reflexivity.
Defined.

End CommandLoopInstances.
